(** * LOADPICT.CPP: the IFF picture loader of WIN32LIB, embedded in Rocq

  The development follows src/WIN32LIB/IFF/LOADPICT.CPP:
  - [CInt]: the C integer conversions the loader relies on;
  - [BMHD]: the [BitMapHeader_Type] record;
  - [ByteRun]: the per-row body transfer of [Load_Picture] (lines 459-520);
  - [Packets]: compressed rows as an encoder writes them;
  - [Deinterleave]: [ILBM_To_MCGA] (lines 139-185), and the conversion in
    the words of the specification;
  - [Header]: the decoding of the BMHD chunk on the IBM host (lines 371-389);
  - [Loader]: the control flow of [Load_Picture] (lines 330-551), over the
    routines of the library it calls;
  - [Sample]: files and buffers to run the loader on;
  - [Stated]: the sentences of the specification the code does not meet.
  The properties follow the definitions.

  Memory is a list of bytes, a byte being a [Z] in [0, 256); a read or a
  write outside an object has no defined result. The scratch buffer, the
  destination buffer and the palette are taken to be distinct objects.
  Plain [char] is taken as unsigned (the Watcom default the library was
  built with; the source casts to [signed char] where it wants a sign). *)

From Stdlib Require Import ZArith List Lia Bool.
From stdpp Require Import base list.

Local Open Scope Z_scope.

(** ** C integer conversions *)

Module CInt.

(** Conversion to a signed integer type of [w] bits (two's complement). *)
Definition wrap_signed (w : Z) (z : Z) : Z :=
  (z + 2 ^ (w - 1)) mod 2 ^ w - 2 ^ (w - 1).

(** Conversion to an unsigned integer type of [w] bits. *)
Definition wrap_unsigned (w : Z) (z : Z) : Z := z mod 2 ^ w.

Definition to_int : Z -> Z := wrap_signed 32.
Definition to_short : Z -> Z := wrap_signed 16.
Definition to_schar : Z -> Z := wrap_signed 8.
Definition to_uchar : Z -> Z := wrap_unsigned 8.
Definition to_ushort : Z -> Z := wrap_unsigned 16.

Definition INT_MIN : Z := - 2 ^ 31.
Definition INT_MAX : Z := 2 ^ 31 - 1.

Definition is_byte (b : Z) : Prop := 0 <= b < 256.

End CInt.

(** ** The bitmap header *)

Module BMHD.

(** [BitMapHeader_Type] (lines 82-100); every field holds the numeric value
    of the C field. *)
Record BitMapHeader_Type : Type := Build {
  W : Z;            (* unsigned short *)
  H : Z;            (* unsigned short *)
  X : Z;            (* short *)
  Y : Z;            (* short *)
  BPlanes : Z;      (* char *)
  Masking : Z;      (* unsigned char *)
  Compression : Z;  (* unsigned char *)
  pad : Z;          (* char *)
  Transparent : Z;  (* unsigned short *)
  XAspect : Z;      (* unsigned char *)
  YAspect : Z;      (* unsigned char *)
  PageWidth : Z;    (* short *)
  PageHeight : Z    (* short *)
}.

(** The values of the fields fit their C types. *)
Record in_range (bmhd : BitMapHeader_Type) : Prop := {
  W_range : 0 <= W bmhd < 65536;
  H_range : 0 <= H bmhd < 65536;
  BPlanes_range : 0 <= BPlanes bmhd < 256;
  Masking_range : 0 <= Masking bmhd < 256;
  Compression_range : 0 <= Compression bmhd < 256
}.

End BMHD.

(** ** The body transfer: one row at a time *)

Module ByteRun.

Import CInt.

(** The working variables of the row loop: [src] is the body data from the
    source pointer on, [dest] the bytes written through the destination
    pointer so far, [counter] the bytes of the row still to come. *)
Record state : Type := State {
  src : list Z;
  dest : list Z;
  counter : Z
}.

(** [bmhd.W >> 3], the bytes of one bitplane of a row. *)
Definition plane_width (bmhd : BMHD.BitMapHeader_Type) : Z :=
  Z.shiftr (BMHD.W bmhd) 3.

(** [(short)bmhd.W >> 3], the bound of lines 487 and 503: the cast applies
    to [bmhd.W] before the shift. *)
Definition mask_bound (bmhd : BMHD.BitMapHeader_Type) : Z :=
  Z.shiftr (to_short (BMHD.W bmhd)) 3.

(** The condition of lines 486-487 and 503. *)
Definition write_run (bmhd : BMHD.BitMapHeader_Type) (counter : Z) : bool :=
  negb (BMHD.Masking bmhd =? 1)
  || ((BMHD.Masking bmhd =? 1) && (counter >? mask_bound bmhd)).

(** Lines 465-469. *)
Definition row_counter (bmhd : BMHD.BitMapHeader_Type) : Z :=
  let counter := to_int (BMHD.BPlanes bmhd * plane_width bmhd) in
  if BMHD.Masking bmhd =? 1 then to_int (counter + plane_width bmhd)
  else counter.

(** One pass through the body of [while (counter)] (lines 477-509).
    [None]: the pass reads past the end of the body data. *)
Definition step (bmhd : BMHD.BitMapHeader_Type) (st : state) : option state :=
  match src st with
  | [] => None
  | code :: src1 =>
      let value := to_schar code in
      if value =? -128 then Some (State src1 (dest st) (counter st))
      else if value >=? 0 then
        let len := to_short value + 1 in
        if write_run bmhd (counter st) then
          if Z.of_nat (length src1) <? len then None
          else Some (State (drop (Z.to_nat len) src1)
                           (dest st ++ take (Z.to_nat len) src1)
                           (to_int (counter st - len)))
        else Some (State (drop (Z.to_nat len) src1)
                         (dest st)
                         (to_int (counter st - len)))
      else
        let len := - to_short value + 1 in
        match src1 with
        | [] => None
        | v :: src2 =>
            if write_run bmhd (counter st) then
              Some (State src2
                          (dest st ++ replicate (Z.to_nat len) v)
                          (to_int (counter st - len)))
            else Some (State src2 (dest st) (to_int (counter st - len)))
        end
  end.

(** How a loop over the body data ends. *)
Inductive result : Type :=
| Done (st : state)      (* the loop condition became false *)
| Overrun (st : state)   (* the next pass reads past the body data *)
| OutOfFuel.

(** [while (counter) { ... }] (line 475), bounded by [fuel] passes. *)
Fixpoint run (fuel : nat) (bmhd : BMHD.BitMapHeader_Type) (st : state)
  : result :=
  if counter st =? 0 then Done st
  else match fuel with
       | O => OutOfFuel
       | S fuel' =>
           match step bmhd st with
           | None => Overrun st
           | Some st' => run fuel' bmhd st'
           end
       end.

(** Every pass takes at least the code byte, so the length of the data
    bounds the number of passes. *)
Definition enough (data : list Z) : nat := S (length data).

Definition loop (bmhd : BMHD.BitMapHeader_Type) (st : state) : result :=
  run (enough (src st)) bmhd st.

(** One row (lines 465-519) from source [data] with [out] already written. *)
Definition Transfer_Row (bmhd : BMHD.BitMapHeader_Type)
    (data out : list Z) : result :=
  let counter := row_counter bmhd in
  if BMHD.Compression bmhd =? 1 then
    loop bmhd (State data out counter)
  else if (0 <=? counter) && (counter <=? Z.of_nat (length data)) then
    Done (State (drop (Z.to_nat counter) data)
                (out ++ take (Z.to_nat counter) data)
                counter)
  else Overrun (State data out counter).

(** [for (index = 0; index < (short)bmhd.H; index++)] (line 459), [rows]
    being the passes still to make. The state returned stands for the two
    pointers: the variable [counter] is not read after the loop, and its
    field is set to 0 here, whereas in C it keeps what the last row left
    in it and is unassigned when no row is made. *)
Fixpoint Transfer_Rows (rows : nat) (bmhd : BMHD.BitMapHeader_Type)
    (data out : list Z) : result :=
  match rows with
  | O => Done (State data out 0)
  | S rows' =>
      match Transfer_Row bmhd data out with
      | Done st => Transfer_Rows rows' bmhd (src st) (dest st)
      | r => r
      end
  end.

Definition row_count (bmhd : BMHD.BitMapHeader_Type) : nat :=
  Z.to_nat (to_short (BMHD.H bmhd)).

Definition Transfer_Body (bmhd : BMHD.BitMapHeader_Type)
    (data : list Z) : result :=
  Transfer_Rows (row_count bmhd) bmhd data [].

End ByteRun.


(** ** Runs of a compressed row, as an encoder lays them out *)

Module Packets.

(** A run of the byte-run code: literal bytes, or one byte repeated. *)
Inductive run_data : Type :=
| Literal (bytes : list Z)
| Replicate (count : nat) (v : Z).

(** A run together with the no-op codes that precede it in the stream. *)
Record packet : Type := Packet {
  noops : nat;
  body : run_data
}.

(** The code byte can express literal runs of 1..128 bytes and replicate
    runs of 2..128 bytes. *)
Definition valid_run (r : run_data) : Prop :=
  match r with
  | Literal bytes => (1 <= length bytes <= 128)%nat
  | Replicate count _ => (2 <= count <= 128)%nat
  end.

Definition valid (p : packet) : Prop := valid_run (body p).

(** The bytes a run stands for. *)
Definition expand_run (r : run_data) : list Z :=
  match r with
  | Literal bytes => bytes
  | Replicate count v => replicate count v
  end.

Definition expand (p : packet) : list Z := expand_run (body p).

Definition expand_all (ps : list packet) : list Z :=
  concat (map expand ps).

(** The number of bytes a packet takes off the row counter. *)
Definition size (p : packet) : Z := Z.of_nat (length (expand p)).

Definition total (ps : list packet) : Z :=
  fold_right (fun p acc => size p + acc) 0 ps.

(** The stream bytes of a run: code byte [n - 1] before [n] literal bytes,
    code byte [-(n - 1)] (as a byte, [257 - n]) before the repeated byte. *)
Definition encode_run (r : run_data) : list Z :=
  match r with
  | Literal bytes => Z.of_nat (length bytes) - 1 :: bytes
  | Replicate count v => [257 - Z.of_nat count; v]
  end.

Definition encode (p : packet) : list Z :=
  replicate (noops p) 128 ++ encode_run (body p).

Definition encode_all (ps : list packet) : list Z :=
  concat (map encode ps).

(** What the row loop writes for the packets [ps] when it meets them with
    [counter] bytes to go: each run is written or not as a whole. *)
Fixpoint emitted (bmhd : BMHD.BitMapHeader_Type) (counter : Z)
    (ps : list packet) : list Z :=
  match ps with
  | [] => []
  | p :: ps' =>
      (if ByteRun.write_run bmhd counter then expand p else [])
        ++ emitted bmhd (counter - size p) ps'
  end.

End Packets.

(** ** ILBM to byte-per-pixel conversion *)

Module Deinterleave.

Import CInt.

(** [*(source + offset)]; [None] outside the buffer. *)
Definition peek (buf : list Z) (at_ : Z) : option Z :=
  if at_ <? 0 then None else buf !! Z.to_nat at_.

(** Lines 163-165, with [todo] planes left from [bplane] on. [None]: a read
    outside the source buffer or a write outside [bytes[8]]. *)
Fixpoint gather (todo : nat) (bplane : nat) (buf : list Z) (source : Z)
    (bytes : list Z) : option (list Z) :=
  match todo with
  | O => Some bytes
  | S todo' =>
      if (length bytes <=? bplane)%nat then None
      else match peek buf (source + Z.of_nat bplane * 40) with
           | None => None
           | Some b => gather todo' (S bplane) buf source (<[bplane := b]> bytes)
           end
  end.

(** [c <<= 1] on a [char]. *)
Definition shl1 (c : Z) : Z := to_uchar (Z.shiftl c 1).

(** Lines 173-177: [bplane] runs from [upto - 1] down to 0. *)
Fixpoint compose (upto : nat) (bytes : list Z) (value : Z) : Z * list Z :=
  match upto with
  | O => (value, bytes)
  | S bplane =>
      let value1 := shl1 value in
      let b := bytes !!! bplane in
      let value2 :=
        if negb (Z.land b 128 =? 0) then Z.lor value1 1 else value1 in
      compose bplane (<[bplane := shl1 b]> bytes) value2
  end.

(** Lines 169-179: [todo] more pixels of the group. *)
Fixpoint roll (todo : nat) (planes : nat) (bytes : list Z)
  : list Z * list Z :=
  match todo with
  | O => ([], bytes)
  | S todo' =>
      let '(value, bytes1) := compose planes bytes 0 in
      let '(pixels, bytes2) := roll todo' planes bytes1 in
      (value :: pixels, bytes2)
  end.

(** The working variables between groups: the source pointer as an offset
    into the buffer, and the [bytes] array. *)
Record cursor : Type := Cursor {
  source : Z;
  bytes : list Z
}.

(** Lines 159-180: [todo] more groups of the row. The pixels come out in
    the order they are written through [destination]. *)
Fixpoint groups (todo : nat) (planes : Z) (buf : list Z) (c : cursor)
  : option (list Z * cursor) :=
  match todo with
  | O => Some ([], c)
  | S todo' =>
      match gather (Z.to_nat planes) 0 buf (source c) (bytes c) with
      | None => None
      | Some gathered =>
          let '(pixels, bytes1) := roll 8 (Z.to_nat planes) gathered in
          match groups todo' planes buf (Cursor (source c + 1) bytes1) with
          | None => None
          | Some (more, c') => Some (pixels ++ more, c')
          end
      end
  end.

(** Lines 155-184: [todo] more rows. *)
Fixpoint rows (todo : nat) (planes : Z) (buf : list Z) (c : cursor)
  : option (list Z * cursor) :=
  match todo with
  | O => Some ([], c)
  | S todo' =>
      match groups 40 planes buf c with
      | None => None
      | Some (pixels, c1) =>
          let c2 := Cursor (source c1 + 40 * (planes - 1)) (bytes c1) in
          match rows todo' planes buf c2 with
          | None => None
          | Some (more, c') => Some (pixels ++ more, c')
          end
      end
  end.

(** [ILBM_To_MCGA]: the bytes written from the start of the destination
    buffer, given the contents [buf] of the source buffer. *)
Definition ILBM_To_MCGA (buf : list Z) (planes : Z) : option (list Z) :=
  match rows 200 planes buf (Cursor 0 (replicate 8 0)) with
  | None => None
  | Some (pixels, _) => Some pixels
  end.

(** *** The conversion in the words of the specification *)

(** Bit [7 - k] of a plane byte: its top bit once [k] pixels are out. *)
Definition plane_bit (b : Z) (k : nat) : Z :=
  Z.b2z (Z.testbit b (7 - Z.of_nat k)).

(** The pixel whose bit [i] is the bit of plane [i], for [i < planes]. *)
Fixpoint pixel_value (planes : nat) (plane_byte : nat -> Z) (k : nat) : Z :=
  match planes with
  | O => 0
  | S p => pixel_value p plane_byte k + plane_bit (plane_byte p) k * 2 ^ Z.of_nat p
  end.

(** Rows of [planes * (width / 8)] source bytes; plane [p] of a group lies
    [p * (width / 8)] bytes after the base of the group. *)
Definition chunky_pixel (width : Z) (planes : nat) (buf : list Z)
    (row group k : nat) : Z :=
  let pw := Z.to_nat (width / 8) in
  pixel_value planes
    (fun p => buf !!! (row * (planes * pw) + p * pw + group)%nat) k.

Definition chunky_group (width : Z) (planes : nat) (buf : list Z)
    (row group : nat) : list Z :=
  map (chunky_pixel width planes buf row group) (seq 0 8).

Definition chunky_row (width : Z) (planes : nat) (buf : list Z)
    (row : nat) : list Z :=
  concat (map (chunky_group width planes buf row)
              (seq 0 (Z.to_nat (width / 8)))).

Definition chunky (width height : Z) (planes : nat) (buf : list Z) : list Z :=
  concat (map (chunky_row width planes buf) (seq 0 (Z.to_nat height))).

End Deinterleave.

(** ** Decoding the header chunk *)

Module Header.

Import CInt.

(** A 16-bit object as the little-endian IBM host reads it from memory. *)
Definition host16 (lo hi : Z) : Z := lo + 256 * hi.

(** The value the file stores in two bytes, the first being the high one. *)
Definition big_endian16 (first second : Z) : Z := 256 * first + second.

(** Modelled from the spec: [Reverse_Short], which is not part of this file,
    corrects the byte order of a 16-bit value by exchanging its two bytes. *)
Definition Reverse_Short (v : Z) : Z :=
  let u := to_ushort v in
  Z.lor (Z.shiftl (Z.land u 255) 8) (Z.shiftr u 8).

(** The 20 bytes of the chunk laid over the structure, as the call of
    [Read_Iff_Chunk] at line 371 leaves it. *)
Definition overlay (raw : list Z) : BMHD.BitMapHeader_Type :=
  let r (i : nat) := raw !!! i in
  BMHD.Build
    (host16 (r 0%nat) (r 1%nat))
    (host16 (r 2%nat) (r 3%nat))
    (to_short (host16 (r 4%nat) (r 5%nat)))
    (to_short (host16 (r 6%nat) (r 7%nat)))
    (r 8%nat)
    (r 9%nat)
    (r 10%nat)
    (r 11%nat)
    (host16 (r 12%nat) (r 13%nat))
    (r 14%nat)
    (r 15%nat)
    (to_short (host16 (r 16%nat) (r 17%nat)))
    (to_short (host16 (r 18%nat) (r 19%nat))).

(** Lines 375-388, for whatever [Reverse_Short] computes. *)
Definition IBM_conversions (Reverse_Short : Z -> Z)
    (bmhd : BMHD.BitMapHeader_Type) : BMHD.BitMapHeader_Type :=
  let value := BMHD.XAspect bmhd in
  BMHD.Build
    (to_ushort (Reverse_Short (BMHD.W bmhd)))
    (to_ushort (Reverse_Short (BMHD.H bmhd)))
    (to_short (Reverse_Short (BMHD.X bmhd)))
    (to_short (Reverse_Short (BMHD.Y bmhd)))
    (BMHD.BPlanes bmhd)
    (BMHD.Masking bmhd)
    (BMHD.Compression bmhd)
    (BMHD.pad bmhd)
    (BMHD.Transparent bmhd)
    (BMHD.YAspect bmhd)
    (to_uchar value)
    (to_short (Reverse_Short (BMHD.PageWidth bmhd)))
    (to_short (Reverse_Short (BMHD.PageHeight bmhd))).

Definition Decode_BMHD (raw : list Z) : BMHD.BitMapHeader_Type :=
  IBM_conversions Reverse_Short (overlay raw).

(** The header in the words of the specification: every multi-byte field
    is the big-endian value of its bytes; the single bytes stay in place. *)
Definition Decode_BMHD_spec (raw : list Z) : BMHD.BitMapHeader_Type :=
  let r (i : nat) := raw !!! i in
  BMHD.Build
    (big_endian16 (r 0%nat) (r 1%nat))
    (big_endian16 (r 2%nat) (r 3%nat))
    (to_short (big_endian16 (r 4%nat) (r 5%nat)))
    (to_short (big_endian16 (r 6%nat) (r 7%nat)))
    (r 8%nat)
    (r 9%nat)
    (r 10%nat)
    (r 11%nat)
    (big_endian16 (r 12%nat) (r 13%nat))
    (r 14%nat)
    (r 15%nat)
    (to_short (big_endian16 (r 16%nat) (r 17%nat)))
    (to_short (big_endian16 (r 18%nat) (r 19%nat))).

End Header.

(** ** The load as a whole *)

Module Loader.

Import CInt.

(** The memory the caller hands in: the two buffers, and the palette
    (from the pointer to the end of its object) unless the pointer is NULL. *)
Record Buffers : Type := Bufs {
  scratchbuf : list Z;
  destbuf : list Z;
  palette : option (list Z)
}.

(** Modelled from the spec: [MAKE_ID] (iff.h) is not part of this file; a
    chunk identifier is the four characters in file order. *)
Definition MAKE_ID (a b c d : Z) : list Z := [a; b; c; d].

Definition ID_FORM : list Z := MAKE_ID 70 79 82 77.
Definition ID_ILBM : list Z := MAKE_ID 73 76 66 77.
Definition ID_PBM : list Z := MAKE_ID 80 66 77 32.
Definition ID_CMAP : list Z := MAKE_ID 67 77 65 80.
Definition ID_BODY : list Z := MAKE_ID 66 79 68 89.
Definition ID_BMHD : list Z := MAKE_ID 66 77 72 68.

Inductive IFFForm_Type : Type := FORM_ILBM | FORM_PBM.

Inductive PicturePlaneType : Type := BM_AMIGA | BM_MCGA.

Definition FALSE : Z := 0.

(** The routines [Load_Picture] calls that live outside this file, for one
    file name. A read gives the bytes it stores; the C return value of
    [Read_Iff_Chunk] is their number. *)
Record Collaborators : Type := Collab {
  handle : Type;
  Open_File : option handle;              (* [None]: WW_ERROR *)
  Read_File : handle -> list Z;           (* line 349 *)
  Load_Uncompress : Buffers -> Z * Buffers;
  Open_Iff_File : option handle;          (* [None]: WW_ERROR *)
  Read_Form : handle -> list Z * handle;  (* line 359 *)
  Read_Iff_Chunk : handle -> list Z -> Z -> list Z * handle
}.

(** The [return] statements of [Load_Picture]. *)
Inductive exit_point : Type :=
| Open_Failed        (* line 348 *)
| Not_Iff            (* line 353 *)
| Iff_Open_Failed    (* line 357 *)
| Unknown_Form       (* line 366 *)
| Bad_Masking        (* line 391 *)
| Bad_Compression    (* line 392 *)
| No_BMHD            (* line 395 *)
| Loaded.            (* line 551 *)

(** [Undefined]: the call reads or writes outside an object. *)
Inductive outcome : Type :=
| Returned (value : Z) (at_ : exit_point) (bufs : Buffers)
| Undefined.

(** Lines 360-368. *)
Definition form_of (ifftype : list Z) : option IFFForm_Type :=
  if decide (ifftype = ID_ILBM) then Some FORM_ILBM
  else if decide (ifftype = ID_PBM) then Some FORM_PBM
  else None.

(** Lines 391-392. *)
Definition Check_BMHD (bmhd : BMHD.BitMapHeader_Type) : option exit_point :=
  if BMHD.Masking bmhd >? 2 then Some Bad_Masking
  else if BMHD.Compression bmhd >? 1 then Some Bad_Compression
  else None.

(** [(1 << bmhd.BPlanes) * 3] (line 408). For 30 planes and more the
    product does not fit an [int], which C leaves undefined; the value
    here is the wrapped one, and it is used only as the size asked of the
    read of line 416. *)
Definition cmap_bytes (bmhd : BMHD.BitMapHeader_Type) : Z :=
  to_int (to_int (Z.shiftl 1 (BMHD.BPlanes bmhd)) * 3).

(** Lines 429-431; BM_AMIGA is compiled out and takes the default too. *)
Definition Convert_CMAP (format : PicturePlaneType) (cmap : list Z) : list Z :=
  match format with
  | BM_AMIGA | BM_MCGA => map (fun b => Z.shiftr b 2) cmap
  end.

(** [data] written from the start of the object [buf]. *)
Definition store (data buf : list Z) : option (list Z) :=
  if (length buf <? length data)%nat then None
  else Some (data ++ drop (length data) buf).

(** Lines 399-450, for a palette pointer that is not NULL. *)
Definition Load_Palette (io : Collaborators) (fh : handle io)
    (bmhd : BMHD.BitMapHeader_Type) (format : PicturePlaneType)
    (pal : list Z) : option (list Z) * handle io :=
  let '(cmap, fh') := Read_Iff_Chunk io fh ID_CMAP (cmap_bytes bmhd) in
  if (length cmap =? 0)%nat then (Some pal, fh')
  else (store (Convert_CMAP format cmap) pal, fh').

(** Lines 526-545; BM_AMIGA is compiled out and takes the default too.
    [None]: a buffer is too small for the conversion. *)
Definition Convert_Body (format : PicturePlaneType) (formtype : IFFForm_Type)
    (bmhd : BMHD.BitMapHeader_Type) (scratch dest : list Z)
  : option (list Z) :=
  match format with
  | BM_AMIGA | BM_MCGA =>
      match formtype with
      | FORM_ILBM =>
          match Deinterleave.ILBM_To_MCGA scratch (BMHD.BPlanes bmhd) with
          | None => None
          | Some pixels => store pixels dest
          end
      | FORM_PBM =>
          if Z.of_nat (length scratch) <? 64000 then None
          else store (take (Z.to_nat 64000) scratch) dest
      end
  end.

(** Lines 454-551: the BODY chunk is read into the destination buffer,
    transferred row by row to the scratch buffer, and converted back into
    the destination buffer. *)
Definition Load_Body (io : Collaborators) (fh : handle io)
    (bmhd : BMHD.BitMapHeader_Type) (formtype : IFFForm_Type)
    (format : PicturePlaneType) (bufs : Buffers) : outcome :=
  let '(body, _) :=
    Read_Iff_Chunk io fh ID_BODY (Z.of_nat (length (destbuf bufs))) in
  if (length body =? 0)%nat then
    Returned (to_short (BMHD.BPlanes bmhd)) Loaded bufs
  else
    match store body (destbuf bufs) with
    | None => Undefined
    | Some data =>
        match ByteRun.Transfer_Body bmhd data with
        | ByteRun.Done st =>
            match store (ByteRun.dest st) (scratchbuf bufs) with
            | None => Undefined
            | Some scratch =>
                match Convert_Body format formtype bmhd scratch data with
                | None => Undefined
                | Some dest =>
                    Returned (to_short (BMHD.BPlanes bmhd)) Loaded
                             (Bufs scratch dest (palette bufs))
                end
            end
        | _ => Undefined
        end
    end.

(** Lines 398-551: what follows a header that passed the checks. *)
Definition Load_Chunks (io : Collaborators) (fh : handle io)
    (bmhd : BMHD.BitMapHeader_Type) (formtype : IFFForm_Type)
    (format : PicturePlaneType) (bufs : Buffers) : outcome :=
  match palette bufs with
  | None => Load_Body io fh bmhd formtype format bufs
  | Some pal =>
      match Load_Palette io fh bmhd format pal with
      | (None, _) => Undefined
      | (Some pal', fh') =>
          Load_Body io fh' bmhd formtype format
                    (Bufs (scratchbuf bufs) (destbuf bufs) (Some pal'))
      end
  end.

(** Lines 370-396 and on: the BMHD chunk. A chunk of fewer than 20 bytes
    leaves fields of [bmhd] that were never written. *)
Definition Load_Header (io : Collaborators) (fh : handle io)
    (formtype : IFFForm_Type) (format : PicturePlaneType) (bufs : Buffers)
  : outcome :=
  let '(raw, fh') := Read_Iff_Chunk io fh ID_BMHD 20 in
  if (length raw =? 0)%nat then Returned FALSE No_BMHD bufs
  else if (length raw <? 20)%nat then Undefined
  else
    let bmhd := Header.Decode_BMHD raw in
    match Check_BMHD bmhd with
    | Some failure => Returned FALSE failure bufs
    | None => Load_Chunks io fh' bmhd formtype format bufs
    end.

(** [Load_Picture] (lines 330-551). *)
Definition Load_Picture (io : Collaborators) (bufs : Buffers)
    (format : PicturePlaneType) : outcome :=
  match Open_File io with
  | None => Returned FALSE Open_Failed bufs
  | Some fh0 =>
      if decide (Read_File io fh0 = ID_FORM) then
        match Open_Iff_File io with
        | None => Returned FALSE Iff_Open_Failed bufs
        | Some fh =>
            let '(ifftype, fh1) := Read_Form io fh in
            match form_of ifftype with
            | None => Returned FALSE Unknown_Form bufs
            | Some formtype => Load_Header io fh1 formtype format bufs
            end
        end
      else
        let '(size, bufs') := Load_Uncompress io bufs in
        Returned (Z.quot (to_int size) 8000) Not_Iff bufs'
  end.

(** The calls up to the BMHD chunk succeed: the file opens, starts with
    FORM, has a known form tag and gives the 20 bytes [raw] of a header,
    leaving the file at [fh]. *)
Definition reads_header (io : Collaborators) (formtype : IFFForm_Type)
    (raw : list Z) (fh : handle io) : Prop :=
  exists (fh0 fh1 fh2 : handle io) (tag : list Z),
    Open_File io = Some fh0
    /\ Read_File io fh0 = ID_FORM
    /\ Open_Iff_File io = Some fh1
    /\ Read_Form io fh1 = (tag, fh2)
    /\ form_of tag = Some formtype
    /\ Read_Iff_Chunk io fh2 ID_BMHD 20 = (raw, fh)
    /\ length raw = 20%nat.

End Loader.

(** ** Sample inputs *)

Module Sample.

Import Loader.

(** Modelled from the spec: the container parser ([Read_Iff_Chunk] and the
    file routines are not part of this file). A chunk is an identifier and
    its payload; a search scans forward from the current position, gives
    at most [maxsize] bytes of the payload, and never rewinds. *)
Record chunk : Type := Chunk {
  chunk_id : list Z;
  payload : list Z
}.

Fixpoint scan (chunks : list chunk) (wanted : list Z) (maxsize : Z)
  : list Z * list chunk :=
  match chunks with
  | [] => ([], [])
  | c :: rest =>
      if decide (chunk_id c = wanted)
      then (take (Z.to_nat maxsize) (payload c), rest)
      else scan rest wanted maxsize
  end.

(** A file: its first four bytes, the form tag, the chunks, and the size
    the raw loader reports for it. *)
Record file : Type := File {
  magic : list Z;
  form : list Z;
  chunks : list chunk;
  raw_size : Z
}.

Definition io (f : file) : Collaborators :=
  Collab (list chunk)
         (Some (chunks f))
         (fun _ => magic f)
         (fun bufs => (raw_size f, bufs))
         (Some (chunks f))
         (fun fh => (form f, fh))
         scan.

(** A header of one plane of 8 pixels and one row. *)
Definition header (masking compression : Z) : BMHD.BitMapHeader_Type :=
  BMHD.Build 8 1 0 0 1 masking compression 0 0 1 1 8 1.

(** The same header as the 20 bytes of a BMHD chunk. *)
Definition header_bytes (masking compression : Z) : list Z :=
  [0; 8; 0; 1; 0; 0; 0; 0; 1; masking; compression; 0; 0; 0; 1; 1;
   0; 8; 0; 1].

(** A BMHD chunk of a 320 by 200 picture of 8 planes, with transparent
    colour [0x0102] and aspect bytes 10 and 11. *)
Definition bmhd_chunk : list Z :=
  [1; 64; 0; 200; 0; 0; 0; 0; 8; 0; 1; 0; 1; 2; 10; 11; 1; 64; 0; 200].

(** A file of form ILBM whose chunks are [chunks]. *)
Definition ilbm (chunks : list chunk) : file :=
  File ID_FORM ID_ILBM chunks 0.

(** Buffers of 64000 zero bytes, and no palette. *)
Definition blank : Buffers :=
  Bufs (replicate (Z.to_nat 64000) 0) (replicate (Z.to_nat 64000) 0) None.

(** The planar data of a picture of one plane whose first byte is 1. *)
Definition picture : list Z := 1 :: replicate (Z.to_nat 7999) 0.

(** A header 32768 pixels wide, with a mask plane, byte-run compressed. *)
Definition wide_header : BMHD.BitMapHeader_Type :=
  BMHD.Build 32768 1 0 0 1 1 1 0 0 1 1 0 0.

End Sample.

(** ** The conversions to Amiga bitplanes *)

(** [ILBM_To_Amiga], [PBM_To_Amiga] and the BM_AMIGA palette are compiled
    when [MAKE_AMIGA_ART] is TRUE. *)
Module AmigaArt.

Import CInt.

(** [n] bytes read at offset [at_] of an object; [None] outside it. *)
Definition fetch (buf : list Z) (at_ n : Z) : option (list Z) :=
  if (at_ <? 0) || (Z.of_nat (length buf) <? at_ + n) then None
  else Some (take (Z.to_nat n) (drop (Z.to_nat at_) buf)).

(** [data] written at offset [at_] of an object; [None] outside it. *)
Definition place (buf : list Z) (at_ : Z) (data : list Z)
  : option (list Z) :=
  if (at_ <? 0) || (Z.of_nat (length buf) <? at_ + Z.of_nat (length data))
  then None
  else Some (take (Z.to_nat at_) buf ++ data
               ++ drop (Z.to_nat at_ + length data) buf).

(** Lines 225-228 of [ILBM_To_Amiga], with [todo] planes left from [bp]
    on: [Mem_Copy(srcptr, dstptr + (8000 * bp), 40)] and [srcptr += 40]. *)
Fixpoint copy_planes (todo : nat) (bp : Z) (src : list Z) (srcptr dstptr : Z)
    (dest : list Z) : option (Z * list Z) :=
  match todo with
  | O => Some (srcptr, dest)
  | S todo' =>
      match fetch src srcptr 40 with
      | None => None
      | Some line =>
          match place dest (dstptr + 8000 * bp) line with
          | None => None
          | Some dest' =>
              copy_planes todo' (bp + 1) src (srcptr + 40) dstptr dest'
          end
      end
  end.

(** Lines 224-230: [todo] more rows, [dstptr += 40] after each. *)
Fixpoint copy_rows (todo : nat) (planes : Z) (src : list Z)
    (srcptr dstptr : Z) (dest : list Z) : option (list Z) :=
  match todo with
  | O => Some dest
  | S todo' =>
      match copy_planes (Z.to_nat planes) 0 src srcptr dstptr dest with
      | None => None
      | Some (srcptr', dest') =>
          copy_rows todo' planes src srcptr' (dstptr + 40) dest'
      end
  end.

(** [ILBM_To_Amiga] (lines 214-231): the destination buffer after the
    call. *)
Definition ILBM_To_Amiga (src dest : list Z) (planes : Z)
  : option (list Z) :=
  copy_rows 200 planes src 0 0 dest.

(** [destptr[at_] |= mask]; [None] outside the object. *)
Definition light (dest : list Z) (at_ mask : Z) : option (list Z) :=
  if (at_ <? 0) || (Z.of_nat (length dest) <=? at_) then None
  else Some (<[Z.to_nat at_ :=
                 to_uchar (Z.lor (dest !!! Z.to_nat at_) mask)]> dest).

(** Lines 281-285 of [PBM_To_Amiga], with [todo] planes left from [bit]
    on; the index is cast to [short] before it is added to [destptr].
    [None]: a write outside the destination, or a shift of the [int] 1 by
    more than 31 places. *)
Fixpoint plot (todo : nat) (bit value col destptr : Z) (dest : list Z)
  : option (list Z) :=
  match todo with
  | O => Some dest
  | S todo' =>
      if 31 <? bit then None
      else if negb (Z.land value (to_int (Z.shiftl 1 bit)) =? 0) then
        match light dest
                (destptr + to_short (8000 * bit + Z.shiftr col 3))
                (Z.shiftr 128 (Z.land col 7)) with
        | None => None
        | Some dest' => plot todo' (bit + 1) value col destptr dest'
        end
      else plot todo' (bit + 1) value col destptr dest
  end.

(** Lines 278-286: [todo] more pixels of the row, [value = *srcptr++]. *)
Fixpoint plot_cols (todo : nat) (col planes : Z) (src : list Z)
    (srcptr destptr : Z) (dest : list Z) : option (Z * list Z) :=
  match todo with
  | O => Some (srcptr, dest)
  | S todo' =>
      match Deinterleave.peek src srcptr with
      | None => None
      | Some value =>
          match plot (Z.to_nat planes) 0 value col destptr dest with
          | None => None
          | Some dest' =>
              plot_cols todo' (col + 1) planes src (srcptr + 1) destptr dest'
          end
      end
  end.

(** Lines 276-289: [todo] more rows, [destptr += 40] after each. *)
Fixpoint plot_rows (todo : nat) (planes : Z) (src : list Z)
    (srcptr destptr : Z) (dest : list Z) : option (list Z) :=
  match todo with
  | O => Some dest
  | S todo' =>
      match plot_cols 320 0 planes src srcptr destptr dest with
      | None => None
      | Some (srcptr', dest') =>
          plot_rows todo' planes src srcptr' (destptr + 40) dest'
      end
  end.

(** [PBM_To_Amiga] (lines 260-290): the destination buffer after the call;
    the two [memset] clear its first 64000 bytes. *)
Definition PBM_To_Amiga (src dest : list Z) (planes : Z)
  : option (list Z) :=
  if Z.of_nat (length dest) <? 64000 then None
  else plot_rows 200 planes src 0 0
         (replicate (Z.to_nat 64000) 0 ++ drop (Z.to_nat 64000) dest).

(** The destination while [PBM_To_Amiga] runs, when the pixels before
    pixel [pix] are done and, of pixel [pix], the planes below [bit]: in
    the byte of plane [b], row [r] and column byte [c], bit [7 - m] is set
    just when pixel [320 * r + 8 * c + m] is done for plane [b] and has
    bit [b] set. *)
Definition drawn (src dest : list Z) (planes pix bit : Z) : Prop :=
  forall b r c m,
    0 <= b < 8 -> 0 <= r < 200 -> 0 <= c < 40 -> 0 <= m < 8 ->
    0 <= dest !!! Z.to_nat (8000 * b + 40 * r + c) < 256
    /\ Z.testbit (dest !!! Z.to_nat (8000 * b + 40 * r + c)) (7 - m)
       = (b <? planes)
         && ((320 * r + 8 * c + m <? pix)
             || ((320 * r + 8 * c + m =? pix) && (b <? bit)))
         && Z.testbit (src !!! Z.to_nat (320 * r + 8 * c + m)) b.

(** Lines 437-442, the BM_AMIGA palette: [todo] more colours, each taking
    three bytes from [source] (the buffer of [Alloc], cleared, which the
    CMAP bytes were read into) and giving two. *)
Fixpoint nibble_pack (todo : nat) (source : list Z) : list Z :=
  match todo with
  | O => []
  | S todo' =>
      let red := nth 0 source 0 in
      let green := nth 1 source 0 in
      let blue := nth 2 source 0 in
      let color := to_uchar (Z.land green 240) in
      let color := to_uchar (color + Z.shiftr blue 4) in
      Z.shiftr red 4 :: color :: nibble_pack todo' (drop 3 source)
  end.

(** The loop [for (index = 0; index < pbytes; index += 3)] makes
    [(pbytes + 2) / 3] passes. *)
Definition Convert_CMAP_Amiga (pbytes : nat) (source : list Z) : list Z :=
  nibble_pack ((pbytes + 2) / 3) source.

End AmigaArt.

(** ** More sample inputs *)

Module Cases.

Import Loader Sample.

(** A header of two planes of 16 by 2 pixels, byte-run compressed, without
    a mask plane: rows of 4 bytes. *)
Definition two_rows : BMHD.BitMapHeader_Type :=
  BMHD.Build 16 2 0 0 2 0 1 0 0 1 1 16 2.

(** A header 40000 rows high. *)
Definition tall : BMHD.BitMapHeader_Type :=
  BMHD.Build 8 40000 0 0 1 0 1 0 0 1 1 8 1.

(** A header 7 pixels wide. *)
Definition narrow : BMHD.BitMapHeader_Type :=
  BMHD.Build 7 3 0 0 1 1 1 0 0 1 1 7 3.

(** The BMHD chunk of a picture of 8 planes of 320 by 200 pixels, not
    compressed, without a mask plane. *)
Definition screen_bytes : list Z :=
  [1; 64; 0; 200; 0; 0; 0; 0; 8; 0; 0; 0; 0; 0; 10; 11; 1; 64; 0; 200].

(** A file of form PBM with that header and a body of 64000 bytes 7. *)
Definition pbm_screen : file :=
  File ID_FORM ID_PBM
       [Chunk ID_BMHD screen_bytes;
        Chunk ID_BODY (replicate (Z.to_nat 64000) 7)]
       0.

(** A file of form ILBM of one plane of 8 by 1 pixels whose body is the
    byte 1. *)
Definition ilbm_dot : file :=
  ilbm [Chunk ID_BMHD (header_bytes 0 0); Chunk ID_BODY [1]].

(** A file of form ILBM with that header and no body. *)
Definition ilbm_bare : file := ilbm [Chunk ID_BMHD (header_bytes 0 0)].

End Cases.

(** ** The claims of the specification that the code does not meet, as worded *)

Module Stated.

Import CInt.

(** A literal code copies the bytes that follow it to the output, whatever
    the masking. *)
Definition literal_copied (bmhd : BMHD.BitMapHeader_Type)
    (code : Z) (rest out : list Z) (counter : Z) : Prop :=
  0 <= to_schar code ->
  to_schar code + 1 <= Z.of_nat (length rest) ->
  ByteRun.step bmhd (ByteRun.State (code :: rest) out counter)
  = Some (ByteRun.State (drop (Z.to_nat (to_schar code + 1)) rest)
                        (out ++ take (Z.to_nat (to_schar code + 1)) rest)
                        (to_int (counter - (to_schar code + 1)))).

(** With a mask plane, a row adds [BPlanes * (W / 8)] bytes to the output. *)
Definition mask_dropped (bmhd : BMHD.BitMapHeader_Type)
    (data : list Z) : Prop :=
  BMHD.Masking bmhd = 1 ->
  exists st, ByteRun.Transfer_Row bmhd data [] = ByteRun.Done st
    /\ Z.of_nat (length (ByteRun.dest st))
       = BMHD.BPlanes bmhd * (BMHD.W bmhd / 8).


(** The conversion works to the width and height of the header. *)
Definition follows_header (bmhd : BMHD.BitMapHeader_Type)
    (buf : list Z) : Prop :=
  Deinterleave.ILBM_To_MCGA buf (BMHD.BPlanes bmhd)
  = Some (Deinterleave.chunky (BMHD.W bmhd) (BMHD.H bmhd)
                              (Z.to_nat (BMHD.BPlanes bmhd)) buf).

(** A body read that gives fewer bytes than the destination holds leaves
    the buffers alone and returns the bitplane count. *)
Definition short_body_skipped (io : Loader.Collaborators)
    (fh : Loader.handle io) (bmhd : BMHD.BitMapHeader_Type)
    (formtype : Loader.IFFForm_Type) (format : Loader.PicturePlaneType)
    (bufs : Loader.Buffers) : Prop :=
  (length (fst (Loader.Read_Iff_Chunk io fh Loader.ID_BODY
                  (Z.of_nat (length (Loader.destbuf bufs)))))
   < length (Loader.destbuf bufs))%nat ->
  Loader.Load_Body io fh bmhd formtype format bufs
  = Loader.Returned (to_short (BMHD.BPlanes bmhd)) Loader.Loaded bufs.

(** Each bad field has a failure of its own: a load of the header [raw]
    fails at the masking check when the masking byte is above 2, and at
    the compression check when the compression byte is above 1. *)
Definition failure_kinds (io : Loader.Collaborators) (raw : list Z)
    (format : Loader.PicturePlaneType) (bufs : Loader.Buffers) : Prop :=
  (BMHD.Masking (Header.Decode_BMHD raw) > 2 ->
   Loader.Load_Picture io bufs format
   = Loader.Returned Loader.FALSE Loader.Bad_Masking bufs)
  /\ (BMHD.Compression (Header.Decode_BMHD raw) > 1 ->
      Loader.Load_Picture io bufs format
      = Loader.Returned Loader.FALSE Loader.Bad_Compression bufs).

End Stated.

(** * Properties *)

(** ** C integer conversions *)

Section CIntFacts.

Import CInt.

Lemma to_int_id (z : Z) : INT_MIN <= z <= INT_MAX -> to_int z = z.
Proof.
  unfold to_int, wrap_signed, INT_MIN, INT_MAX. intros Hz.
  rewrite Z.mod_small; lia.
Qed.

Lemma to_short_id (z : Z) : - 2 ^ 15 <= z < 2 ^ 15 -> to_short z = z.
Proof.
  unfold to_short, wrap_signed. intros Hz.
  rewrite Z.mod_small; lia.
Qed.

Lemma to_schar_range (b : Z) : -128 <= to_schar b <= 127.
Proof.
  unfold to_schar, wrap_signed.
  pose proof (Z.mod_pos_bound (b + 2 ^ (8 - 1)) (2 ^ 8)). lia.
Qed.

Lemma to_schar_low (b : Z) : 0 <= b < 128 -> to_schar b = b.
Proof.
  unfold to_schar, wrap_signed. intros Hb. rewrite Z.mod_small; lia.
Qed.

Lemma to_schar_high (b : Z) : 128 <= b < 256 -> to_schar b = b - 256.
Proof.
  unfold to_schar, wrap_signed. intros Hb.
  replace (b + 2 ^ (8 - 1)) with (b - 128 + 1 * 2 ^ 8) by lia.
  rewrite Z.mod_add by lia. rewrite Z.mod_small; lia.
Qed.

Lemma to_short_schar (b : Z) : to_short (to_schar b) = to_schar b.
Proof. apply to_short_id. pose proof (to_schar_range b). lia. Qed.

End CIntFacts.

(** ** The row loop, one code byte at a time *)

Section StepFacts.

Import CInt ByteRun.

Variable bmhd : BMHD.BitMapHeader_Type.

Lemma step_noop (code : Z) (rest out : list Z) (counter : Z) :
  to_schar code = -128 ->
  step bmhd (State (code :: rest) out counter) = Some (State rest out counter).
Proof. intros Hc. unfold step. simpl. rewrite Hc. reflexivity. Qed.

Lemma step_literal (code : Z) (rest out : list Z) (counter : Z) :
  0 <= to_schar code ->
  to_schar code + 1 <= Z.of_nat (length rest) ->
  step bmhd (State (code :: rest) out counter)
  = Some (State (drop (Z.to_nat (to_schar code + 1)) rest)
                (out ++ (if write_run bmhd counter
                         then take (Z.to_nat (to_schar code + 1)) rest
                         else []))
                (to_int (counter - (to_schar code + 1)))).
Proof.
  intros Hc Hlen. unfold step. simpl.
  rewrite to_short_schar.
  destruct (to_schar code =? -128) eqn:E128; [lia|].
  destruct (to_schar code >=? 0) eqn:Ege; [|lia].
  destruct (write_run bmhd counter).
  - destruct (Z.of_nat (length rest) <? to_schar code + 1) eqn:Elt; [lia|].
    reflexivity.
  - rewrite app_nil_r. reflexivity.
Qed.

Lemma step_replicate (code v : Z) (rest out : list Z) (counter : Z) :
  to_schar code < 0 ->
  to_schar code <> -128 ->
  step bmhd (State (code :: v :: rest) out counter)
  = Some (State rest
                (out ++ (if write_run bmhd counter
                         then replicate (Z.to_nat (- to_schar code + 1)) v
                         else []))
                (to_int (counter - (- to_schar code + 1)))).
Proof.
  intros Hc H128. unfold step. simpl.
  rewrite to_short_schar.
  destruct (to_schar code =? -128) eqn:E128; [lia|].
  destruct (to_schar code >=? 0) eqn:Ege; [lia|].
  destruct (write_run bmhd counter).
  - reflexivity.
  - rewrite app_nil_r. reflexivity.
Qed.

End StepFacts.

Section ControlByte.

Import CInt ByteRun.

(** C1 (amended): a code byte of -128 only moves the source pointer to the
    next code byte; a code [c >= 0] takes the [c + 1] bytes that follow off
    the input and [c + 1] off the row counter (an [int]), and copies them to
    the output unless the mask test of lines 486-487 suppresses the write; a
    code [c < 0] other than -128 takes one value byte off the input and
    [-c + 1] off the counter, and writes the value [-c + 1] times, again
    unless the mask test suppresses the write. *)
Theorem step_control_byte (bmhd : BMHD.BitMapHeader_Type)
    (code : Z) (rest out : list Z) (counter : Z) :
  let c := to_schar code in
  let st := State (code :: rest) out counter in
  let written (bytes : list Z) :=
    out ++ (if write_run bmhd counter then bytes else []) in
  (c = -128 -> step bmhd st = Some (State rest out counter))
  /\ (0 <= c -> c + 1 <= Z.of_nat (length rest) ->
      step bmhd st
      = Some (State (drop (Z.to_nat (c + 1)) rest)
                    (written (take (Z.to_nat (c + 1)) rest))
                    (to_int (counter - (c + 1)))))
  /\ (c < 0 -> c <> -128 -> forall v rest', rest = v :: rest' ->
      step bmhd st
      = Some (State rest'
                    (written (replicate (Z.to_nat (- c + 1)) v))
                    (to_int (counter - (- c + 1))))).
Proof.
  cbv zeta. split; [|split].
  - apply step_noop.
  - apply step_literal.
  - intros Hc H128 v rest' ->. apply step_replicate; assumption.
Qed.

Lemma step_control_byte_witness :
  step (Sample.header 1 1) (State [128; 5] [] 2) = Some (State [5] [] 2)
  /\ step (Sample.header 1 1) (State [1; 10; 11; 99] [] 2)
     = Some (State [99] [10; 11] 0)
  /\ step (Sample.header 1 1) (State [255; 9] [] 1)
     = Some (State [] [] (-1)).
Proof.
  split; [|split].
  - apply (proj1 (step_control_byte (Sample.header 1 1) 128 [5] [] 2)).
    reflexivity.
  - apply (proj1 (proj2 (step_control_byte (Sample.header 1 1) 1
                           [10; 11; 99] [] 2))).
    + vm_compute. discriminate.
    + vm_compute. discriminate.
  - apply (proj2 (proj2 (step_control_byte (Sample.header 1 1) 255
                           [9] [] 1))) with (v := 9) (rest' := []).
    + vm_compute. reflexivity.
    + vm_compute. discriminate.
    + reflexivity.
Defined.

(** C1 as worded fails under the mask test: with a mask plane and the row
    counter down to the width of one plane, the byte after a literal code
    is taken off the input but not copied. *)
Lemma literal_in_mask_not_copied :
  step (Sample.header 1 1) (State [0; 7] [] 1) = Some (State [] [] 0)
  /\ ~ Stated.literal_copied (Sample.header 1 1) 0 [7] [] 1.
Proof.
  split; [reflexivity|].
  unfold Stated.literal_copied. intros Hc.
  specialize (Hc ltac:(vm_compute; discriminate)
                 ltac:(vm_compute; discriminate)).
  vm_compute in Hc. discriminate.
Qed.

End ControlByte.

(** ** The row loop: fuel and termination *)

Section LoopFacts.

Import CInt ByteRun.

Variable bmhd : BMHD.BitMapHeader_Type.

(** A pass takes at least its code byte off the data. *)
Lemma step_shrinks (st st' : state) :
  step bmhd st = Some st' -> (length (src st') < length (src st))%nat.
Proof.
  unfold step. destruct st as [[|code rest] out c]; simpl; [discriminate|].
  destruct (to_schar code =? -128).
  { intros [= <-]. simpl. lia. }
  destruct (to_schar code >=? 0).
  - destruct (write_run bmhd c).
    + destruct (_ <? _); [discriminate|]. intros [= <-]. simpl.
      rewrite length_drop. lia.
    + intros [= <-]. simpl. rewrite length_drop. lia.
  - destruct rest as [|v rest]; [discriminate|].
    destruct (write_run bmhd c); intros [= <-]; simpl; lia.
Qed.

(** Beyond the length of the data, more fuel changes nothing. *)
Lemma run_fuel (f1 f2 : nat) (st : state) :
  (length (src st) < f1)%nat -> (length (src st) < f2)%nat ->
  run f1 bmhd st = run f2 bmhd st.
Proof.
  revert f2 st. induction f1 as [|f1 IH]; intros f2 st H1 H2; [lia|].
  destruct f2 as [|f2]; [lia|]. simpl.
  destruct (counter st =? 0); [reflexivity|].
  destruct (step bmhd st) as [st'|] eqn:Hstep; [|reflexivity].
  apply step_shrinks in Hstep. apply IH; lia.
Qed.

Lemma run_total (fuel : nat) (st : state) :
  (length (src st) < fuel)%nat -> run fuel bmhd st <> OutOfFuel.
Proof.
  revert st. induction fuel as [|fuel IH]; intros st Hlen; [lia|]. simpl.
  destruct (counter st =? 0); [discriminate|].
  destruct (step bmhd st) as [st'|] eqn:Hstep; [|discriminate].
  apply step_shrinks in Hstep. apply IH. lia.
Qed.

(** The loop as the source reads. *)
Lemma loop_unfold (st : state) :
  loop bmhd st
  = if counter st =? 0 then Done st
    else match step bmhd st with
         | None => Overrun st
         | Some st' => loop bmhd st'
         end.
Proof.
  unfold loop at 1. unfold enough. cbn [run].
  destruct (counter st =? 0); [reflexivity|].
  destruct (step bmhd st) as [st'|] eqn:Hstep; [|reflexivity].
  apply step_shrinks in Hstep. unfold loop, enough. apply run_fuel; lia.
Qed.

Lemma loop_total (st : state) : loop bmhd st <> OutOfFuel.
Proof. apply run_total. unfold enough. lia. Qed.

Lemma Transfer_Row_total (data out : list Z) :
  Transfer_Row bmhd data out <> OutOfFuel.
Proof.
  unfold Transfer_Row. destruct (BMHD.Compression bmhd =? 1).
  - apply loop_total.
  - destruct (_ && _); discriminate.
Qed.

Lemma Transfer_Rows_total (rows : nat) (data out : list Z) :
  Transfer_Rows rows bmhd data out <> OutOfFuel.
Proof.
  revert data out. induction rows as [|rows IH]; intros data out; simpl.
  - discriminate.
  - pose proof (Transfer_Row_total data out) as Hrow.
    destruct (Transfer_Row bmhd data out); [apply IH|discriminate|congruence].
Qed.

End LoopFacts.

(** ** The row loop on the runs of an encoder *)

Section PacketFacts.

Import CInt ByteRun Packets.

Variable bmhd : BMHD.BitMapHeader_Type.

Lemma size_pos (p : packet) : valid p -> 1 <= size p <= 128.
Proof.
  unfold valid, size, expand. destruct (body p) as [bytes|count v]; simpl.
  - lia.
  - rewrite length_replicate. lia.
Qed.

Lemma total_nonneg (ps : list packet) : Forall valid ps -> 0 <= total ps.
Proof.
  induction 1 as [|p ps Hp _ IH]; simpl; [lia|].
  pose proof (size_pos p Hp). lia.
Qed.

Lemma total_app (ps qs : list packet) : total (ps ++ qs) = total ps + total qs.
Proof. induction ps as [|p ps IH]; simpl; lia. Qed.

Lemma length_expand_all (ps : list packet) :
  Z.of_nat (length (expand_all ps)) = total ps.
Proof.
  induction ps as [|p ps IH]; [reflexivity|].
  unfold expand_all in *. simpl. rewrite length_app, Nat2Z.inj_add, IH.
  reflexivity.
Qed.

Lemma loop_noops (n : nat) (data out : list Z) (c : Z) :
  c <> 0 ->
  loop bmhd (State (replicate n 128 ++ data) out c)
  = loop bmhd (State data out c).
Proof.
  intros Hc. induction n as [|n IH]; [reflexivity|].
  rewrite loop_unfold. cbn [replicate app counter].
  destruct (c =? 0) eqn:E; [lia|].
  rewrite step_noop by reflexivity. exact IH.
Qed.

Lemma loop_run (r : run_data) (data out : list Z) (c : Z) :
  valid_run r -> c <> 0 ->
  loop bmhd (State (encode_run r ++ data) out c)
  = loop bmhd
      (State data
             (out ++ (if write_run bmhd c then expand_run r else []))
             (to_int (c - Z.of_nat (length (expand_run r))))).
Proof.
  intros Hr Hc. rewrite loop_unfold. simpl counter.
  destruct (c =? 0) eqn:E; [lia|].
  destruct r as [bytes|count v];
    cbn [valid_run encode_run expand_run app] in Hr |- *.
  - assert (Hcode : to_schar (Z.of_nat (length bytes) - 1)
                    = Z.of_nat (length bytes) - 1)
      by (apply to_schar_low; lia).
    rewrite step_literal; rewrite Hcode.
    + replace (Z.to_nat (Z.of_nat (length bytes) - 1 + 1))
        with (length bytes) by lia.
      rewrite drop_app_length, take_app_length.
      replace (Z.of_nat (length bytes) - 1 + 1)
        with (Z.of_nat (length bytes)) by lia.
      reflexivity.
    + lia.
    + rewrite length_app. lia.
  - assert (Hcode : to_schar (257 - Z.of_nat count) = 1 - Z.of_nat count)
      by (rewrite to_schar_high; lia).
    rewrite step_replicate; rewrite Hcode.
    + replace (Z.to_nat (- (1 - Z.of_nat count) + 1)) with count by lia.
      rewrite length_replicate.
      replace (- (1 - Z.of_nat count) + 1) with (Z.of_nat count) by lia.
      reflexivity.
    + lia.
    + lia.
Qed.

Lemma loop_packet (p : packet) (data out : list Z) (c : Z) :
  valid p -> c <> 0 ->
  loop bmhd (State (encode p ++ data) out c)
  = loop bmhd
      (State data
             (out ++ (if write_run bmhd c then expand p else []))
             (to_int (c - size p))).
Proof.
  intros Hp Hc. unfold encode. rewrite <- app_assoc.
  rewrite loop_noops by assumption. apply loop_run; assumption.
Qed.

(** Runs that fit the counter are taken off the data one after the other,
    each written or dropped as a whole. *)
Lemma loop_packets (ps : list packet) (data out : list Z) (c : Z) :
  Forall valid ps -> total ps <= c <= INT_MAX ->
  loop bmhd (State (encode_all ps ++ data) out c)
  = loop bmhd (State data (out ++ emitted bmhd c ps) (c - total ps)).
Proof.
  intros Hps. revert out c.
  induction Hps as [|p ps Hp Hps IH]; intros out c Hc;
    cbn [total fold_right emitted] in Hc |- *.
  - rewrite app_nil_r, Z.sub_0_r. reflexivity.
  - fold (total ps) in Hc |- *.
    pose proof (size_pos p Hp) as Hsize.
    pose proof (total_nonneg ps Hps) as Htotal.
    unfold encode_all. cbn [map concat]. rewrite <- app_assoc.
    rewrite loop_packet by (assumption || lia).
    rewrite to_int_id by (unfold INT_MIN, INT_MAX in *; lia).
    fold (encode_all ps). rewrite IH by lia.
    rewrite <- app_assoc.
    replace (c - size p - total ps) with (c - (size p + total ps)) by lia.
    reflexivity.
Qed.

End PacketFacts.

(** ** Whole rows *)

Section RowFacts.

Import CInt ByteRun Packets.

Variable bmhd : BMHD.BitMapHeader_Type.

Lemma to_int_range (z : Z) : INT_MIN <= to_int z <= INT_MAX.
Proof.
  unfold to_int, wrap_signed, INT_MIN, INT_MAX.
  pose proof (Z.mod_pos_bound (z + 2 ^ (32 - 1)) (2 ^ 32)). lia.
Qed.

Lemma row_counter_range : INT_MIN <= row_counter bmhd <= INT_MAX.
Proof.
  unfold row_counter. destruct (BMHD.Masking bmhd =? 1); apply to_int_range.
Qed.

Lemma plane_width_range :
  0 <= BMHD.W bmhd < 65536 -> 0 <= plane_width bmhd < 8192.
Proof.
  intros HW. unfold plane_width. rewrite Z.shiftr_div_pow2 by lia.
  change (2 ^ 3) with 8. split.
  - apply Z.div_pos; lia.
  - apply Z.div_lt_upper_bound; lia.
Qed.

(** On headers that fit their types the counter of a row starts at the
    bytes of the bitplanes, plus those of the mask plane if there is one. *)
Lemma row_counter_value :
  BMHD.in_range bmhd ->
  row_counter bmhd
  = BMHD.BPlanes bmhd * plane_width bmhd
    + (if BMHD.Masking bmhd =? 1 then plane_width bmhd else 0).
Proof.
  intros [HW _ HB _ _]. pose proof (plane_width_range HW) as Hpw.
  unfold row_counter.
  assert (0 <= BMHD.BPlanes bmhd * plane_width bmhd <= 255 * 8191) by nia.
  rewrite (to_int_id (BMHD.BPlanes bmhd * plane_width bmhd))
    by (unfold INT_MIN, INT_MAX; lia).
  destruct (BMHD.Masking bmhd =? 1); [|lia].
  apply to_int_id. unfold INT_MIN, INT_MAX. lia.
Qed.

(** Below 32768 pixels of width the bound of the mask test is the width of
    one plane. *)
Lemma mask_bound_narrow :
  0 <= BMHD.W bmhd < 32768 -> mask_bound bmhd = plane_width bmhd.
Proof.
  intros HW. unfold mask_bound, plane_width. rewrite to_short_id; [reflexivity|lia].
Qed.

Lemma write_run_narrow (c : Z) :
  BMHD.Masking bmhd = 1 -> 0 <= BMHD.W bmhd < 32768 ->
  write_run bmhd c = (c >? plane_width bmhd).
Proof.
  intros HM HW. unfold write_run. rewrite mask_bound_narrow, HM by assumption.
  reflexivity.
Qed.

(** Below 32768 pixels of width a run goes to the output as a whole when
    more than the width of a plane is left of the row, and not at all
    otherwise. *)
Lemma narrow_run_whole (p : packet) (data out : list Z) (c : Z) :
  BMHD.Masking bmhd = 1 -> 0 <= BMHD.W bmhd < 32768 ->
  valid p -> c <> 0 ->
  loop bmhd (State (encode p ++ data) out c)
  = loop bmhd
      (State data
             (out ++ (if c >? plane_width bmhd then expand p else []))
             (to_int (c - size p))).
Proof.
  intros HM HW Hp Hc. rewrite loop_packet by assumption.
  rewrite write_run_narrow by assumption. reflexivity.
Qed.

Lemma emitted_app (c : Z) (ps qs : list packet) :
  emitted bmhd c (ps ++ qs)
  = emitted bmhd c ps ++ emitted bmhd (c - total ps) qs.
Proof.
  revert c. induction ps as [|p ps IH]; intros c; cbn [app emitted total fold_right].
  - rewrite Z.sub_0_r. reflexivity.
  - fold (total ps). rewrite IH, <- app_assoc.
    replace (c - size p - total ps) with (c - (size p + total ps)) by lia.
    reflexivity.
Qed.

(** Runs that all begin above the bound are written in full. *)
Lemma emitted_written (c : Z) (ps : list packet) :
  Forall valid ps -> mask_bound bmhd <= c - total ps ->
  emitted bmhd c ps = expand_all ps.
Proof.
  intros Hps. revert c.
  induction Hps as [|p ps Hp Hps IH]; intros c Hc; [reflexivity|].
  cbn [emitted total fold_right] in Hc |- *. fold (total ps) in Hc.
  pose proof (size_pos p Hp). pose proof (total_nonneg ps Hps).
  rewrite IH by lia. unfold write_run.
  destruct (c >? mask_bound bmhd) eqn:E; [|lia].
  destruct (BMHD.Masking bmhd =? 1); reflexivity.
Qed.

(** With a mask plane, runs that all begin at or below the bound are
    dropped in full. *)
Lemma emitted_dropped (c : Z) (ps : list packet) :
  BMHD.Masking bmhd = 1 -> Forall valid ps -> c <= mask_bound bmhd ->
  emitted bmhd c ps = [].
Proof.
  intros HM Hps. revert c.
  induction Hps as [|p ps Hp Hps IH]; intros c Hc; [reflexivity|].
  cbn [emitted]. pose proof (size_pos p Hp).
  rewrite IH by lia. unfold write_run. rewrite HM.
  destruct (c >? mask_bound bmhd) eqn:E; [lia|]. reflexivity.
Qed.

(** A compressed row whose runs add up to the counter is taken off the
    data exactly. *)
Lemma Transfer_Row_exact (ps : list packet) (data out : list Z) :
  BMHD.Compression bmhd = 1 ->
  Forall valid ps -> total ps = row_counter bmhd ->
  Transfer_Row bmhd (encode_all ps ++ data) out
  = Done (State data (out ++ emitted bmhd (row_counter bmhd) ps) 0).
Proof.
  intros HC Hps Htotal. unfold Transfer_Row. rewrite HC. cbn [Z.eqb Pos.eqb].
  pose proof row_counter_range as Hrange.
  rewrite loop_packets by (assumption || lia).
  rewrite loop_unfold. cbn [counter]. rewrite Htotal, Z.sub_diag. reflexivity.
Qed.

Lemma Transfer_Rows_exact (rws : list (list packet)) (data out : list Z) :
  BMHD.Compression bmhd = 1 ->
  Forall (fun ps => Forall valid ps /\ total ps = row_counter bmhd) rws ->
  Transfer_Rows (length rws) bmhd (concat (map encode_all rws) ++ data) out
  = Done (State data
                (out ++ concat (map (emitted bmhd (row_counter bmhd)) rws))
                0).
Proof.
  intros HC Hrws. revert out.
  induction Hrws as [|ps rws [Hps Htotal] _ IH]; intros out;
    cbn [length map concat Transfer_Rows app].
  - rewrite app_nil_r. reflexivity.
  - rewrite <- app_assoc, Transfer_Row_exact by assumption.
    cbn [src dest]. rewrite IH, <- app_assoc. reflexivity.
Qed.

End RowFacts.

(** ** The mask plane and the budget of a row *)

Section RowClaims.

Import CInt ByteRun Packets.

(** C3 (amended): with a mask plane, byte-run compression and a width below
    32768, the counter of a row starts at [BPlanes * (W >> 3)] plus one more
    [W >> 3]; when the runs of the row split at the start of the mask plane
    (runs adding up to the bitplanes, then runs adding up to the mask
    plane), the runs of the mask plane are taken off the input and the
    counter but not written, and the row adds exactly [BPlanes * (W >> 3)]
    bytes to the output, whatever the mask plane holds. *)
Theorem mask_plane_dropped (bmhd : BMHD.BitMapHeader_Type)
    (planes mask : list packet) (rest out : list Z) :
  BMHD.in_range bmhd -> BMHD.W bmhd < 32768 ->
  BMHD.Masking bmhd = 1 -> BMHD.Compression bmhd = 1 ->
  Forall valid planes -> Forall valid mask ->
  total planes = BMHD.BPlanes bmhd * plane_width bmhd ->
  total mask = plane_width bmhd ->
  row_counter bmhd
  = BMHD.BPlanes bmhd * plane_width bmhd + plane_width bmhd
  /\ Transfer_Row bmhd (encode_all planes ++ encode_all mask ++ rest) out
     = Done (State rest (out ++ expand_all planes) 0)
  /\ Z.of_nat (length (expand_all planes))
     = BMHD.BPlanes bmhd * plane_width bmhd.
Proof.
  intros Hrange HW HM HC Hplanes Hmask Htp Htm.
  assert (Hcounter : row_counter bmhd
            = BMHD.BPlanes bmhd * plane_width bmhd + plane_width bmhd).
  { rewrite row_counter_value, HM by assumption. reflexivity. }
  assert (HW' : 0 <= BMHD.W bmhd < 32768)
    by (destruct Hrange as [[? _] _ _ _ _]; lia).
  split; [exact Hcounter|]. split; [|rewrite length_expand_all; exact Htp].
  rewrite app_assoc.
  replace (encode_all planes ++ encode_all mask)
    with (encode_all (planes ++ mask))
    by (unfold encode_all; rewrite map_app, concat_app; reflexivity).
  rewrite Transfer_Row_exact.
  - rewrite emitted_app, emitted_written, emitted_dropped;
      rewrite ?mask_bound_narrow by assumption;
      try assumption; try lia.
    rewrite app_nil_r. reflexivity.
  - exact HC.
  - apply Forall_app. split; assumption.
  - rewrite total_app. lia.
Qed.

Lemma mask_plane_dropped_witness :
  Transfer_Row (Sample.header 1 1) ([0; 10] ++ [128; 0; 77] ++ [5]) []
  = Done (State [5] [10] 0).
Proof.
  apply (mask_plane_dropped (Sample.header 1 1)
           [Packet 0 (Literal [10])] [Packet 1 (Literal [77])] [5] []).
  - constructor; vm_compute; split; discriminate || reflexivity.
  - reflexivity.
  - reflexivity.
  - reflexivity.
  - repeat constructor.
  - repeat constructor.
  - reflexivity.
  - reflexivity.
Defined.

(** C3 as worded fails when a run crosses into the mask plane: a literal
    run of two bytes that begins in the bitplane of a row of one plane
    byte and one mask byte is written in full. *)
Lemma straddling_run_written :
  Transfer_Row (Sample.header 1 1) [1; 10; 11] []
  = Done (State [] [10; 11] 0)
  /\ ~ Stated.mask_dropped (Sample.header 1 1) [1; 10; 11].
Proof.
  split; [reflexivity|].
  intros Hclaim. destruct (Hclaim eq_refl) as (st & Hrow & Hlen).
  vm_compute in Hrow. injection Hrow as <-. vm_compute in Hlen. discriminate.
Qed.


(** C10, on a header 32768 pixels wide: the bound of the mask test is
    [(short)32768 >> 3 = -4096], not the 4096 bytes of a plane, so a run
    that begins at the start of the mask plane (4096 bytes to go) is
    written. *)
Theorem wide_mask_run_written :
  plane_width Sample.wide_header = 4096
  /\ row_counter Sample.wide_header = 8192
  /\ mask_bound Sample.wide_header = -4096
  /\ write_run Sample.wide_header 4096 = true
  /\ step Sample.wide_header (State [129; 9] [] 4096)
     = Some (State [] (replicate 128 9) 3968).
Proof. repeat split; vm_compute; reflexivity. Qed.

End RowClaims.

(** ** Bits of the conversion *)

Section BitFacts.

Import CInt Deinterleave.

Lemma plane_bit_range (b : Z) (k : nat) : 0 <= plane_bit b k <= 1.
Proof. unfold plane_bit. destruct (Z.testbit b (7 - Z.of_nat k)); simpl; lia. Qed.

Lemma pixel_value_range (n : nat) (f : nat -> Z) (k : nat) :
  0 <= pixel_value n f k < 2 ^ Z.of_nat n.
Proof.
  induction n as [|n IH]; cbn [pixel_value]; [simpl; lia|].
  pose proof (plane_bit_range (f n) k).
  rewrite Nat2Z.inj_succ, Z.pow_succ_r by lia. nia.
Qed.

Lemma pixel_value_ext (n : nat) (f g : nat -> Z) (k : nat) :
  (forall p, (p < n)%nat -> f p = g p) ->
  pixel_value n f k = pixel_value n g k.
Proof.
  induction n as [|n IH]; intros Hfg; cbn [pixel_value]; [reflexivity|].
  rewrite IH, Hfg by (intros; try apply Hfg; lia). reflexivity.
Qed.

Lemma b2z_bit (c : bool) (j : Z) :
  0 <= j -> Z.testbit (Z.b2z c) j = (j =? 0) && c.
Proof.
  intros Hj. destruct (j =? 0) eqn:E.
  - apply Z.eqb_eq in E. subst j. rewrite Z.b2z_bit0. reflexivity.
  - apply Z.eqb_neq in E. destruct c; simpl.
    + apply (Z.bits_above_log2 1 j); simpl; lia.
    + apply Z.bits_0.
Qed.

(** Bit [i] of a pixel is bit [7 - k] of the byte of plane [i]; the bits
    from [planes] on are clear. *)
Lemma pixel_value_bits (n : nat) (f : nat -> Z) (k i : nat) :
  Z.testbit (pixel_value n f k) (Z.of_nat i)
  = (i <? n)%nat && Z.testbit (f i) (7 - Z.of_nat k).
Proof.
  induction n as [|n IH]; cbn [pixel_value].
  - rewrite Z.bits_0. reflexivity.
  - pose proof (pixel_value_range n f k) as Hr.
    pose proof (plane_bit_range (f n) k) as Hb.
    destruct (Nat.ltb_spec i n) as [Hlt|Hge].
    + rewrite <- Z.mod_pow2_bits_low with (n := Z.of_nat n) by lia.
      rewrite Z.mod_add by lia. rewrite Z.mod_small by lia.
      rewrite IH. destruct (Nat.ltb_spec i n); [|lia].
      destruct (Nat.ltb_spec i (S n)); [reflexivity|lia].
    + replace (Z.of_nat i) with ((Z.of_nat i - Z.of_nat n) + Z.of_nat n) by lia.
      rewrite <- Z.div_pow2_bits by lia.
      rewrite Z.div_add by lia. rewrite Z.div_small by lia.
      unfold plane_bit. rewrite Z.add_0_l, b2z_bit by lia.
      destruct (Nat.ltb_spec i (S n)) as [Hlt'|Hge'].
      * assert (i = n) by lia. subst i. rewrite Z.sub_diag. reflexivity.
      * destruct (Z.of_nat i - Z.of_nat n =? 0) eqn:E; [lia|reflexivity].
Qed.

(** A [char] after [k] shifts to the left. *)
Lemma shl1_shiftl (b : Z) (k : Z) :
  0 <= k -> shl1 (to_uchar (Z.shiftl b k)) = to_uchar (Z.shiftl b (k + 1)).
Proof.
  intros Hk. unfold shl1, to_uchar, wrap_unsigned.
  rewrite !Z.shiftl_mul_pow2 by lia.
  rewrite Z.pow_add_r by lia. rewrite Z.mul_mod_idemp_l by lia.
  f_equal. lia.
Qed.

(** The test of line 175 reads bit 7. *)
Lemma top_bit (c : Z) : negb (Z.land c 128 =? 0) = Z.testbit c 7.
Proof.
  assert (Hland : Z.land c 128 = if Z.testbit c 7 then 128 else 0).
  { apply Z.bits_inj'. intros j Hj. rewrite Z.land_spec.
    change 128 with (2 ^ 7). rewrite Z.pow2_bits_eqb by lia.
    destruct (Z.eqb_spec 7 j) as [<-|Hne].
    - rewrite andb_true_r. destruct (Z.testbit c 7).
      + rewrite Z.pow2_bits_true by lia. reflexivity.
      + rewrite Z.bits_0. reflexivity.
    - rewrite andb_false_r. destruct (Z.testbit c 7).
      + rewrite Z.pow2_bits_false by lia. reflexivity.
      + rewrite Z.bits_0. reflexivity. }
  rewrite Hland. destruct (Z.testbit c 7); reflexivity.
Qed.

Lemma top_bit_uchar (c : Z) : Z.testbit (to_uchar c) 7 = Z.testbit c 7.
Proof. unfold to_uchar, wrap_unsigned. apply Z.mod_pow2_bits_low. lia. Qed.

Lemma to_uchar_idem (c : Z) : to_uchar (to_uchar c) = to_uchar c.
Proof. unfold to_uchar, wrap_unsigned. apply Z.mod_mod. lia. Qed.

Lemma shl1_uchar (c : Z) : shl1 (to_uchar c) = shl1 c.
Proof.
  unfold shl1, to_uchar, wrap_unsigned.
  rewrite !Z.shiftl_mul_pow2 by lia. apply Z.mul_mod_idemp_l. lia.
Qed.

(** The top bit after [k] shifts is bit [7 - k] of the byte. *)
Lemma top_bit_shifted (b : Z) (k : nat) :
  (k < 8)%nat ->
  Z.testbit (to_uchar (Z.shiftl b (Z.of_nat k))) 7
  = Z.testbit b (7 - Z.of_nat k).
Proof.
  intros Hk. rewrite top_bit_uchar, Z.shiftl_spec by lia. reflexivity.
Qed.

End BitFacts.

(** ** The loops of the conversion *)

Section ComposeFacts.

Import CInt Deinterleave.

Lemma lor_double_1 (v : Z) : 0 <= v -> Z.lor (2 * v) 1 = 2 * v + 1.
Proof. intros Hv. destruct v as [|p|p]; [reflexivity|reflexivity|lia]. Qed.

Lemma shl1_small (v : Z) : 0 <= v < 128 -> shl1 v = 2 * v.
Proof.
  intros Hv. unfold shl1, to_uchar, wrap_unsigned.
  rewrite Z.shiftl_mul_pow2 by lia. rewrite Z.mod_small; lia.
Qed.

(** One pixel: with the plane bytes already shifted [k] times, the inner
    loop shifts the bits of planes [n - 1] down to 0 into [value] and
    shifts those plane bytes once more. *)
Lemma compose_value (orig : nat -> Z) (k : nat) (n : nat) :
  (k < 8)%nat ->
  forall (bytes : list Z) (v : Z) (m : nat),
  (n <= length bytes)%nat ->
  (forall p, (p < n)%nat ->
     to_uchar (bytes !!! p) = to_uchar (Z.shiftl (orig p) (Z.of_nat k))) ->
  0 <= v < 2 ^ Z.of_nat m -> (m + n <= 8)%nat ->
  fst (compose n bytes v) = v * 2 ^ Z.of_nat n + pixel_value n orig k
  /\ length (snd (compose n bytes v)) = length bytes
  /\ (forall p, (p < n)%nat ->
        snd (compose n bytes v) !!! p
        = to_uchar (Z.shiftl (orig p) (Z.of_nat (S k))))
  /\ (forall p, (n <= p)%nat -> snd (compose n bytes v) !!! p = bytes !!! p).
Proof.
  intros Hk. induction n as [|n IH]; intros bytes v m Hlen Hbytes Hv Hm.
  - cbn [compose fst snd pixel_value]. repeat split; try (intros; lia).
  - cbn [compose pixel_value].
    assert (Hpow : 2 ^ Z.of_nat m <= 2 ^ 7)
      by (apply Z.pow_le_mono_r; lia).
    change (2 ^ 7) with 128 in Hpow.
    rewrite (shl1_small v) by lia.
    rewrite top_bit, <- top_bit_uchar, <- shl1_uchar.
    rewrite (Hbytes n) by lia. rewrite top_bit_shifted by assumption.
    rewrite (shl1_shiftl (orig n) (Z.of_nat k)) by lia.
    set (bit := Z.testbit (orig n) (7 - Z.of_nat k)).
    set (bytes' := <[n := to_uchar (Z.shiftl (orig n) (Z.of_nat k + 1))]> bytes).
    assert (Hvalue : (if bit then Z.lor (2 * v) 1 else 2 * v)
                     = 2 * v + plane_bit (orig n) k).
    { unfold plane_bit. fold bit. destruct bit; simpl.
      - apply lor_double_1. lia.
      - lia. }
    rewrite Hvalue.
    pose proof (plane_bit_range (orig n) k) as Hbit.
    destruct (IH bytes' (2 * v + plane_bit (orig n) k) (S m))
      as (Hfst & Hl & Hlow & Hhigh).
    + unfold bytes'. rewrite length_insert. lia.
    + intros p Hp. unfold bytes'.
      rewrite list_lookup_total_insert_ne by lia. apply Hbytes. lia.
    + rewrite Nat2Z.inj_succ, Z.pow_succ_r by lia. lia.
    + lia.
    + repeat split.
      * rewrite Hfst. rewrite Nat2Z.inj_succ, Z.pow_succ_r by lia. ring.
      * rewrite Hl. unfold bytes'. apply length_insert.
      * intros p Hp. destruct (decide (p = n)) as [->|Hne].
        -- rewrite Hhigh by lia. unfold bytes'.
           rewrite list_lookup_total_insert_eq by lia.
           rewrite Nat2Z.inj_succ. reflexivity.
        -- apply Hlow. lia.
      * intros p Hp. rewrite Hhigh by lia. unfold bytes'.
        apply list_lookup_total_insert_ne. lia.
Qed.

(** The pixels of a group from [k] on, [orig] being the gathered bytes. *)
Lemma roll_pixels (orig : nat -> Z) (n : nat) (todo : nat) :
  (n <= 8)%nat ->
  forall (k : nat) (bytes : list Z),
  (k + todo <= 8)%nat ->
  (n <= length bytes)%nat ->
  (forall p, (p < n)%nat ->
     to_uchar (bytes !!! p) = to_uchar (Z.shiftl (orig p) (Z.of_nat k))) ->
  fst (roll todo n bytes) = map (pixel_value n orig) (seq k todo)
  /\ length (snd (roll todo n bytes)) = length bytes.
Proof.
  intros Hn. induction todo as [|todo IH]; intros k bytes Hk Hlen Hbytes.
  - split; reflexivity.
  - cbn [roll seq map].
    destruct (compose_value orig k n ltac:(lia) bytes 0 0 Hlen Hbytes)
      as (Hfst & Hl & Hlow & _); [simpl; lia|lia|].
    destruct (compose n bytes 0) as [value bytes1]. cbn [fst snd] in *.
    destruct (IH (S k) bytes1) as (Hpix & Hl2);
      [lia|lia|intros p Hp; rewrite Hlow by exact Hp; apply to_uchar_idem|].
    destruct (roll todo n bytes1) as [pixels bytes2]. cbn [fst snd] in *.
    split; [|lia]. rewrite Hfst, Hpix. reflexivity.
Qed.

End ComposeFacts.

Section GatherFacts.

Import CInt Deinterleave.

Variable buf : list Z.

Lemma peek_inside (i : nat) :
  (i < length buf)%nat -> peek buf (Z.of_nat i) = Some (buf !!! i).
Proof.
  intros Hi. unfold peek. destruct (Z.of_nat i <? 0) eqn:E; [lia|].
  rewrite Nat2Z.id. apply list_lookup_lookup_total_lt. exact Hi.
Qed.

(** The first loop of a group reads plane [p] 40 bytes after plane [p - 1]. *)
Lemma gather_planes (s : nat) (todo : nat) :
  forall (bplane : nat) (bytes : list Z),
  (bplane + todo <= length bytes)%nat ->
  (todo = 0%nat \/ (s + (bplane + todo - 1) * 40 < length buf)%nat) ->
  exists bytes',
    gather todo bplane buf (Z.of_nat s) bytes = Some bytes'
    /\ length bytes' = length bytes
    /\ (forall p, (bplane <= p < bplane + todo)%nat ->
          bytes' !!! p = buf !!! (s + p * 40)%nat)
    /\ (forall p, (p < bplane)%nat -> bytes' !!! p = bytes !!! p).
Proof.
  induction todo as [|todo IH]; intros bplane bytes Hlen Hin.
  - exists bytes. cbn [gather]. repeat split; intros; lia.
  - cbn [gather].
    destruct (Nat.leb_spec (length bytes) bplane) as [Hle|_]; [lia|].
    replace (Z.of_nat s + Z.of_nat bplane * 40)
      with (Z.of_nat (s + bplane * 40)) by lia.
    rewrite peek_inside by lia.
    set (b := buf !!! (s + bplane * 40)%nat).
    destruct (IH (S bplane) (<[bplane := b]> bytes))
      as (bytes' & Hg & Hl & Hnew & Hold).
    + rewrite length_insert. lia.
    + destruct todo; [left; reflexivity|right; lia].
    + exists bytes'. rewrite length_insert in Hl. repeat split.
      * exact Hg.
      * exact Hl.
      * intros p Hp. destruct (decide (p = bplane)) as [->|Hne].
        -- rewrite Hold by lia. apply list_lookup_total_insert_eq. lia.
        -- apply Hnew. lia.
      * intros p Hp. rewrite Hold by lia.
        apply list_lookup_total_insert_ne. lia.
Qed.

(** One group: the 8 pixels of the bytes found at [s], [s + 40], ... *)
Lemma group_pixels (n s : nat) (bytes : list Z) :
  (n <= 8)%nat -> length bytes = 8%nat ->
  (n = 0%nat \/ (s + (n - 1) * 40 < length buf)%nat) ->
  exists gathered bytes',
    gather n 0 buf (Z.of_nat s) bytes = Some gathered
    /\ roll 8 n gathered
       = (map (pixel_value n (fun p => buf !!! (s + p * 40)%nat)) (seq 0 8),
          bytes')
    /\ length bytes' = 8%nat.
Proof.
  intros Hn Hlen Hin.
  destruct (gather_planes s n 0 bytes) as (gathered & Hg & Hl & Hnew & _);
    [lia|exact Hin|].
  destruct (roll_pixels (fun p => buf !!! (s + p * 40)%nat) n 8 Hn 0 gathered)
    as (Hpix & Hl2); [lia|lia| |].
  - intros p Hp. rewrite Hnew by lia. rewrite Z.shiftl_0_r. reflexivity.
  - exists gathered, (snd (roll 8 n gathered)).
    split; [exact Hg|]. split; [|lia].
    rewrite <- Hpix. destruct (roll 8 n gathered); reflexivity.
Qed.

End GatherFacts.

Section PictureFacts.

Import CInt Deinterleave.

Variable buf : list Z.
Variable n : nat.
Hypothesis n_le_8 : (n <= 8)%nat.

Lemma chunky_group_320 (row g : nat) :
  chunky_group 320 n buf row g
  = map (pixel_value n (fun p => buf !!! (row * (n * 40) + g + p * 40)%nat))
        (seq 0 8).
Proof.
  unfold chunky_group. apply map_ext. intros k. unfold chunky_pixel.
  change (Z.to_nat (320 / 8)) with 40%nat.
  apply pixel_value_ext. intros p _. f_equal. lia.
Qed.

(** The groups of row [row] from group [g] on: the source pointer moves
    one byte per group. *)
Lemma groups_pixels (row : nat) (todo : nat) :
  (row * (n * 40) + n * 40 <= length buf)%nat ->
  forall (g : nat) (bytes : list Z),
  (g + todo <= 40)%nat -> length bytes = 8%nat ->
  exists bytes',
    groups todo (Z.of_nat n) buf (Cursor (Z.of_nat (row * (n * 40) + g)) bytes)
    = Some (concat (map (chunky_group 320 n buf row) (seq g todo)),
            Cursor (Z.of_nat (row * (n * 40) + g + todo)) bytes')
    /\ length bytes' = 8%nat.
Proof.
  intros Hbuf. induction todo as [|todo IH]; intros g bytes Hg Hlen.
  - exists bytes. cbn [groups seq map concat]. rewrite Nat.add_0_r.
    split; [reflexivity|exact Hlen].
  - cbn [groups seq map concat source Deinterleave.bytes].
    rewrite Nat2Z.id.
    destruct (group_pixels buf n (row * (n * 40) + g) bytes n_le_8 Hlen)
      as (gathered & bytes1 & Hgather & Hroll & Hlen1).
    { destruct n; [left; reflexivity|right; lia]. }
    rewrite Hgather, Hroll.
    replace (Z.of_nat (row * (n * 40) + g) + 1)
      with (Z.of_nat (row * (n * 40) + S g)) by lia.
    destruct (IH (S g) bytes1) as (bytes' & Hrest & Hlen'); [lia|exact Hlen1|].
    rewrite Hrest. exists bytes'. split; [|exact Hlen'].
    rewrite chunky_group_320. do 3 f_equal. lia.
Qed.

Lemma chunky_row_320 (row : nat) :
  chunky_row 320 n buf row
  = concat (map (chunky_group 320 n buf row) (seq 0 40)).
Proof. reflexivity. Qed.

(** The rows from [row] on: the source pointer moves [n * 40] bytes a row. *)
Lemma rows_pixels (todo : nat) :
  forall (row : nat) (bytes : list Z),
  ((row + todo) * (n * 40) <= length buf)%nat -> length bytes = 8%nat ->
  exists bytes',
    rows todo (Z.of_nat n) buf (Cursor (Z.of_nat (row * (n * 40))) bytes)
    = Some (concat (map (chunky_row 320 n buf) (seq row todo)),
            Cursor (Z.of_nat ((row + todo) * (n * 40))) bytes')
    /\ length bytes' = 8%nat.
Proof.
  induction todo as [|todo IH]; intros row bytes Hbuf Hlen.
  - exists bytes. cbn [rows seq map concat]. rewrite Nat.add_0_r.
    split; [reflexivity|exact Hlen].
  - cbn [rows seq map concat].
    destruct (groups_pixels row 40 ltac:(lia) 0 bytes ltac:(lia) Hlen)
      as (bytes1 & Hgroups & Hlen1).
    rewrite Nat.add_0_r in Hgroups. rewrite Hgroups.
    cbn [source Deinterleave.bytes].
    replace (Z.of_nat (row * (n * 40) + 40) + 40 * (Z.of_nat n - 1))
      with (Z.of_nat (S row * (n * 40))) by lia.
    destruct (IH (S row) bytes1) as (bytes' & Hrest & Hlen'); [lia|exact Hlen1|].
    rewrite Hrest. exists bytes'. split; [|exact Hlen'].
    rewrite chunky_row_320. do 3 f_equal. lia.
Qed.

End PictureFacts.

Section BlockFacts.

Variable f : nat -> list Z.
Variable m : nat.
Hypothesis block : forall x, length (f x) = m.

Lemma length_blocks (start len : nat) :
  length (concat (map f (seq start len))) = (len * m)%nat.
Proof.
  revert start. induction len as [|len IH]; intros start; [reflexivity|].
  cbn [seq map concat]. rewrite length_app, block, IH. lia.
Qed.

(** Entry [j] of block [i] in a sequence of blocks of [m] entries. *)
Lemma lookup_blocks (start len i j : nat) :
  (i < len)%nat -> (j < m)%nat ->
  concat (map f (seq start len)) !!! (i * m + j)%nat = f (start + i)%nat !!! j.
Proof.
  revert start i. induction len as [|len IH]; intros start i Hi Hj; [lia|].
  cbn [seq map concat]. destruct i as [|i].
  - rewrite lookup_total_app_l by (rewrite block; lia).
    rewrite Nat.add_0_r. reflexivity.
  - rewrite lookup_total_app_r by (rewrite block; lia).
    rewrite block.
    replace (S i * m + j - m)%nat with (i * m + j)%nat by lia.
    rewrite IH by lia. f_equal. f_equal. lia.
Qed.

End BlockFacts.

Section ConversionClaim.

Import CInt Deinterleave.

Lemma length_chunky_group (width : Z) (n : nat) (buf : list Z) (row g : nat) :
  length (chunky_group width n buf row g) = 8%nat.
Proof. unfold chunky_group. rewrite length_map. reflexivity. Qed.

Lemma length_chunky_row (width : Z) (n : nat) (buf : list Z) (row : nat) :
  length (chunky_row width n buf row) = (Z.to_nat (width / 8) * 8)%nat.
Proof.
  unfold chunky_row. apply length_blocks. intros g. apply length_chunky_group.
Qed.

(** Pixel [k] of group [g] of row [row] in the converted picture. *)
Lemma chunky_lookup (n : nat) (buf : list Z) (row g k : nat) :
  (row < 200)%nat -> (g < 40)%nat -> (k < 8)%nat ->
  chunky 320 200 n buf !!! (row * 320 + g * 8 + k)%nat
  = chunky_pixel 320 n buf row g k.
Proof.
  intros Hrow Hg Hk. unfold chunky.
  rewrite <- Nat.add_assoc.
  rewrite (lookup_blocks (chunky_row 320 n buf) 320)
    by (try (intros; apply length_chunky_row); lia).
  cbn [Nat.add]. unfold chunky_row.
  rewrite (lookup_blocks (chunky_group 320 n buf row) 8)
    by (try (intros; apply length_chunky_group);
        try change (Z.to_nat (320 / 8)) with 40%nat; lia).
  cbn [Nat.add]. unfold chunky_group.
  rewrite list_lookup_total_alt, list_lookup_fmap.
  rewrite lookup_seq_lt by lia. reflexivity.
Qed.

(** C2 (amended): [ILBM_To_MCGA] works to a fixed picture of 200 rows of
    40 groups of 8 pixels, whatever the header says. For 0 to 8 planes and a
    source holding the 200 rows, it writes 64000 pixels; in pixel [k] of
    group [g] of row [row], bit [i] (for [i] below [planes]) is bit [7 - k]
    of the source byte [i * 40] after the base of the group, the higher
    planes giving the higher bits, and the bits from [planes] on are clear;
    each row takes the source pointer [planes * 40] bytes on and adds 320
    pixels to the destination. *)
Theorem ILBM_To_MCGA_pixels (buf : list Z) (planes : Z) :
  0 <= planes <= 8 -> 8000 * planes <= Z.of_nat (length buf) ->
  exists pixels,
    ILBM_To_MCGA buf planes = Some pixels
    /\ Z.of_nat (length pixels) = 64000
    /\ (forall row g k i : nat,
          (row < 200)%nat -> (g < 40)%nat -> (k < 8)%nat ->
          Z.testbit (pixels !!! (row * 320 + g * 8 + k)%nat) (Z.of_nat i)
          = (i <? Z.to_nat planes)%nat
            && Z.testbit
                 (buf !!! (row * (Z.to_nat planes * 40) + i * 40 + g)%nat)
                 (7 - Z.of_nat k))
    /\ (forall (row : nat) (bytes : list Z),
          (row < 200)%nat -> length bytes = 8%nat ->
          exists row_pixels bytes',
            rows 1 planes buf (Cursor (Z.of_nat row * (planes * 40)) bytes)
            = Some (row_pixels,
                    Cursor (Z.of_nat row * (planes * 40) + planes * 40) bytes')
            /\ Z.of_nat (length row_pixels) = 320).
Proof.
  intros Hplanes Hbuf.
  set (n := Z.to_nat planes).
  assert (Hn : (n <= 8)%nat) by lia.
  assert (Hp : planes = Z.of_nat n) by lia.
  exists (chunky 320 200 n buf). split; [|split; [|split]].
  - unfold ILBM_To_MCGA.
    destruct (rows_pixels buf n Hn 200 0 (replicate 8 0))
      as (bytes' & Hrows & _); [lia|reflexivity|].
    change (Z.of_nat (0 * (n * 40))) with 0 in Hrows.
    rewrite Hp, Hrows. reflexivity.
  - unfold chunky.
    rewrite (length_blocks (chunky_row 320 n buf) 320)
      by (intros; apply length_chunky_row).
    reflexivity.
  - intros row g k i Hrow Hg Hk. rewrite chunky_lookup by assumption.
    unfold chunky_pixel. rewrite pixel_value_bits.
    change (Z.to_nat (320 / 8)) with 40%nat. reflexivity.
  - intros row bytes Hrow Hlen.
    destruct (rows_pixels buf n Hn 1 row bytes) as (bytes' & Hrows & _);
      [|exact Hlen|].
    { apply Nat.le_trans with (200 * (n * 40))%nat;
        [apply Nat.mul_le_mono_r|]; lia. }
    exists (chunky_row 320 n buf row), bytes'. split.
    + rewrite Hp.
      replace (Z.of_nat row * (Z.of_nat n * 40))
        with (Z.of_nat (row * (n * 40))) by lia.
      rewrite Hrows. cbn [seq map concat]. rewrite app_nil_r.
      do 3 f_equal. lia.
    + rewrite length_chunky_row. reflexivity.
Qed.

Lemma ILBM_To_MCGA_pixels_witness :
  exists pixels,
    ILBM_To_MCGA Sample.picture 1 = Some pixels
    /\ Z.of_nat (length pixels) = 64000
    /\ Z.testbit (pixels !!! 7%nat) 0 = Z.testbit (Sample.picture !!! 0%nat) 0.
Proof.
  destruct (ILBM_To_MCGA_pixels Sample.picture 1) as (pixels & Hrun & Hlen & Hbits & _).
  - lia.
  - vm_compute. discriminate.
  - exists pixels. split; [exact Hrun|]. split; [exact Hlen|].
    apply (Hbits 0%nat 0%nat 7%nat 0%nat); lia.
Defined.

(** C2 as worded fails on a header that is not 320 by 200: for a picture
    of 8 by 1 pixels the header asks for one group of one row, 8 pixels,
    and the code still converts 200 rows of 40 groups. *)
Lemma conversion_ignores_header :
  (fun pixels => Z.of_nat (length pixels)) <$> ILBM_To_MCGA Sample.picture 1
  = Some 64000
  /\ Z.of_nat (length (chunky 8 1 1 Sample.picture)) = 8
  /\ ~ Stated.follows_header (Sample.header 0 0) Sample.picture.
Proof.
  assert (Hcode : (fun pixels => Z.of_nat (length pixels))
                    <$> ILBM_To_MCGA Sample.picture 1 = Some 64000)
    by (vm_compute; reflexivity).
  assert (Hspec : Z.of_nat (length (chunky 8 1 1 Sample.picture)) = 8)
    by (vm_compute; reflexivity).
  split; [exact Hcode|]. split; [exact Hspec|].
  unfold Stated.follows_header. cbn [BMHD.BPlanes BMHD.W BMHD.H Sample.header].
  intros Hclaim. rewrite Hclaim in Hcode. cbn [fmap option_fmap option_map] in Hcode.
  change (Z.to_nat 1) with 1%nat in Hcode. rewrite Hspec in Hcode.
  discriminate Hcode.
Qed.

End ConversionClaim.

(** ** The header on the IBM host *)

Section HeaderFacts.

Import CInt Header.

Lemma lor_bytes (hi lo : Z) :
  0 <= hi -> 0 <= lo < 256 -> Z.lor (Z.shiftl hi 8) lo = 256 * hi + lo.
Proof.
  intros Hhi Hlo. rewrite <- Z.add_nocarry_lor.
  - rewrite Z.shiftl_mul_pow2 by lia. lia.
  - apply Z.bits_inj'. intros j Hj. rewrite Z.land_spec, Z.bits_0.
    destruct (Z.ltb_spec j 8) as [Hlt|Hge].
    + rewrite Z.shiftl_spec_low by lia. reflexivity.
    + rewrite andb_comm.
      destruct (Z.eqb_spec lo 0) as [->|Hne]; [rewrite Z.bits_0; reflexivity|].
      rewrite (Z.bits_above_log2 lo j); [reflexivity|lia|].
      apply Z.lt_le_trans with 8; [|exact Hge].
      apply Z.log2_lt_pow2; lia.
Qed.

(** Exchanging the bytes of what the host read gives the big-endian value. *)
Lemma Reverse_Short_host16 (first second : Z) :
  0 <= first < 256 -> 0 <= second < 256 ->
  Reverse_Short (host16 first second) = big_endian16 first second.
Proof.
  intros H1 H2. unfold Reverse_Short, host16, big_endian16, to_ushort, wrap_unsigned.
  rewrite Z.mod_small by lia.
  change 255 with (Z.ones 8). rewrite Z.land_ones by lia.
  rewrite Z.shiftr_div_pow2 by lia. change (2 ^ 8) with 256.
  replace (first + 256 * second) with (first + second * 256) by lia.
  rewrite Z.mod_add, Z.div_add by lia.
  rewrite Z.mod_small, Z.div_small by lia.
  rewrite Z.add_0_l. apply lor_bytes; lia.
Qed.

Lemma to_ushort_to_short (z : Z) : to_ushort (to_short z) = to_ushort z.
Proof.
  unfold to_ushort, to_short, wrap_unsigned, wrap_signed.
  change (2 ^ (16 - 1)) with 32768. change (2 ^ 16) with 65536.
  rewrite Zminus_mod_idemp_l. f_equal. lia.
Qed.

Lemma Reverse_Short_to_short (z : Z) :
  Reverse_Short (to_short z) = Reverse_Short z.
Proof. unfold Reverse_Short. rewrite to_ushort_to_short. reflexivity. Qed.

Lemma to_ushort_big_endian16 (first second : Z) :
  0 <= first < 256 -> 0 <= second < 256 ->
  to_ushort (big_endian16 first second) = big_endian16 first second.
Proof.
  intros H1 H2. unfold to_ushort, wrap_unsigned, big_endian16.
  apply Z.mod_small. lia.
Qed.

(** What the decoding does to each field: the 16-bit fields W, H, X, Y,
    PageWidth and PageHeight take the big-endian value of their bytes, the
    two aspect bytes change places, and Transparent stays as the host read
    it. *)
Lemma Decode_BMHD_fields (raw : list Z) :
  length raw = 20%nat -> Forall is_byte raw ->
  let r (i : nat) := raw !!! i in
  Decode_BMHD raw
  = BMHD.Build
      (big_endian16 (r 0%nat) (r 1%nat))
      (big_endian16 (r 2%nat) (r 3%nat))
      (to_short (big_endian16 (r 4%nat) (r 5%nat)))
      (to_short (big_endian16 (r 6%nat) (r 7%nat)))
      (r 8%nat) (r 9%nat) (r 10%nat) (r 11%nat)
      (host16 (r 12%nat) (r 13%nat))
      (r 15%nat)
      (r 14%nat)
      (to_short (big_endian16 (r 16%nat) (r 17%nat)))
      (to_short (big_endian16 (r 18%nat) (r 19%nat))).
Proof.
  intros Hlen Hbytes.
  do 20 (destruct raw as [|? raw]; [discriminate Hlen|]).
  destruct raw; [|discriminate Hlen].
  repeat match goal with
         | Hb : Forall _ (_ :: _) |- _ =>
             apply Forall_cons in Hb; destruct Hb as [? Hb]
         end.
  unfold is_byte in *.
  cbv zeta. unfold Decode_BMHD, IBM_conversions, overlay.
  cbn [BMHD.W BMHD.H BMHD.X BMHD.Y BMHD.BPlanes BMHD.Masking
       BMHD.Compression BMHD.pad BMHD.Transparent BMHD.XAspect BMHD.YAspect
       BMHD.PageWidth BMHD.PageHeight lookup_total list_lookup_total].
  rewrite !Reverse_Short_to_short.
  rewrite !Reverse_Short_host16 by assumption.
  rewrite !to_ushort_big_endian16 by assumption.
  f_equal. unfold to_uchar, wrap_unsigned. apply Z.mod_small. lia.
Qed.

(** C7, on the sample header chunk: the file stores the transparent colour
    as the bytes 1, 2, that is [0x0102 = 258]; the decoded header holds
    [0x0201 = 513], the value the host reads before any correction, because
    [Load_Picture] passes every 16-bit field but this one through
    [Reverse_Short] (so whatever [Reverse_Short] computes, Transparent stays
    as the host read it). The aspect bytes 10, 11 come out as 11, 10, and
    the width and height as 320 and 200. *)
Theorem Transparent_not_reversed :
  (forall (reverse : Z -> Z) (raw : list Z),
     BMHD.Transparent (IBM_conversions reverse (overlay raw))
     = host16 (raw !!! 12%nat) (raw !!! 13%nat))
  /\ BMHD.Transparent (Decode_BMHD Sample.bmhd_chunk) = 513
  /\ BMHD.Transparent (Decode_BMHD_spec Sample.bmhd_chunk) = 258
  /\ BMHD.XAspect (Decode_BMHD Sample.bmhd_chunk) = 11
  /\ BMHD.YAspect (Decode_BMHD Sample.bmhd_chunk) = 10
  /\ BMHD.W (Decode_BMHD Sample.bmhd_chunk) = 320
  /\ BMHD.H (Decode_BMHD Sample.bmhd_chunk) = 200
  /\ BMHD.PageWidth (Decode_BMHD Sample.bmhd_chunk) = 320
  /\ BMHD.PageHeight (Decode_BMHD Sample.bmhd_chunk) = 200.
Proof. split; [reflexivity|]. repeat split; vm_compute; reflexivity. Qed.

End HeaderFacts.

(** ** The load as a whole *)

Section LoaderFacts.

Import CInt Loader.

Variable io : Collaborators.

(** Past a header that could be read, the load is decided by the checks of
    lines 391-392. *)
Lemma Load_Picture_header (formtype : IFFForm_Type) (raw : list Z)
    (fh : handle io) (bufs : Buffers) (format : PicturePlaneType) :
  reads_header io formtype raw fh ->
  Load_Picture io bufs format
  = match Check_BMHD (Header.Decode_BMHD raw) with
    | Some failure => Returned FALSE failure bufs
    | None =>
        Load_Chunks io fh (Header.Decode_BMHD raw) formtype format bufs
    end.
Proof.
  intros (fh0 & fh1 & fh2 & tag & Hopen & Hmagic & Hiff & Hform & Htag
          & Hchunk & Hlen).
  unfold Load_Picture. rewrite Hopen.
  destruct (decide (Read_File io fh0 = ID_FORM)) as [_|Hne]; [|contradiction].
  rewrite Hiff, Hform, Htag. unfold Load_Header. rewrite Hchunk, Hlen.
  reflexivity.
Qed.

(** C5 (amended): when the masking byte of the header is above 2 the load
    returns FALSE from the check of line 391, whatever the compression
    byte; when the masking byte is at most 2 and the compression byte is
    above 1 it returns FALSE from the check of line 392. The value
    returned is the same FALSE in both cases, the code has no kinds of
    failure; in both the buffers are left as they were. *)
Theorem bad_header_rejected (formtype : IFFForm_Type) (raw : list Z)
    (fh : handle io) (bufs : Buffers) (format : PicturePlaneType) :
  reads_header io formtype raw fh ->
  (BMHD.Masking (Header.Decode_BMHD raw) > 2 ->
   Load_Picture io bufs format = Returned FALSE Bad_Masking bufs)
  /\ (BMHD.Masking (Header.Decode_BMHD raw) <= 2 ->
      BMHD.Compression (Header.Decode_BMHD raw) > 1 ->
      Load_Picture io bufs format = Returned FALSE Bad_Compression bufs).
Proof.
  intros Hreads. rewrite (Load_Picture_header formtype raw fh) by exact Hreads.
  unfold Check_BMHD. split.
  - intros HM. destruct (Z.gtb_spec (BMHD.Masking (Header.Decode_BMHD raw)) 2);
      [reflexivity|lia].
  - intros HM HC.
    destruct (Z.gtb_spec (BMHD.Masking (Header.Decode_BMHD raw)) 2); [lia|].
    destruct (Z.gtb_spec (BMHD.Compression (Header.Decode_BMHD raw)) 1);
      [reflexivity|lia].
Qed.

(** C8: when the file opens and its first four bytes are not FORM, the
    load returns what [Load_Uncompress] returns (a value of [int] range)
    divided by 8000, with the buffers as [Load_Uncompress] left them;
    nothing else is read from the file. *)
Theorem raw_file_delegated (fh0 : handle io) (bufs : Buffers)
    (format : PicturePlaneType) :
  Open_File io = Some fh0 ->
  Read_File io fh0 <> ID_FORM ->
  INT_MIN <= fst (Load_Uncompress io bufs) <= INT_MAX ->
  Load_Picture io bufs format
  = Returned (Z.quot (fst (Load_Uncompress io bufs)) 8000) Not_Iff
             (snd (Load_Uncompress io bufs)).
Proof.
  intros Hopen Hmagic Hsize. unfold Load_Picture. rewrite Hopen.
  destruct (decide (Read_File io fh0 = ID_FORM)) as [Heq|_]; [contradiction|].
  destruct (Load_Uncompress io bufs) as [size bufs'] eqn:Hraw.
  cbn [fst snd] in *. rewrite to_int_id by exact Hsize. reflexivity.
Qed.

Lemma store_prefix (data buf : list Z) :
  (length data <= length buf)%nat ->
  exists buf',
    store data buf = Some buf'
    /\ length buf' = length buf
    /\ (forall i b, data !! i = Some b -> buf' !! i = Some b)
    /\ (forall i, (length data <= i)%nat -> buf' !! i = buf !! i).
Proof.
  intros Hlen. exists (data ++ drop (length data) buf). unfold store.
  destruct (Nat.ltb_spec (length buf) (length data)) as [Hlt|_]; [lia|].
  split; [reflexivity|]. split; [|split].
  - rewrite length_app, length_drop. lia.
  - intros i b Hi. apply lookup_app_l_Some. exact Hi.
  - intros i Hi. rewrite lookup_app_r by exact Hi.
    rewrite lookup_drop. f_equal. lia.
Qed.

(** C9: every byte [b] read from the CMAP chunk is written to the palette
    as [b >> 2], one byte for one byte from the start of the palette; the
    palette beyond the bytes read is left alone; whatever the chunk gives,
    nothing at all included, the load goes on to the body with the palette
    so converted. *)
Theorem palette_truncated (fh : handle io) (bmhd : BMHD.BitMapHeader_Type)
    (formtype : IFFForm_Type) (format : PicturePlaneType)
    (scratch dest pal : list Z) :
  let cmap := fst (Read_Iff_Chunk io fh ID_CMAP (cmap_bytes bmhd)) in
  let fh' := snd (Read_Iff_Chunk io fh ID_CMAP (cmap_bytes bmhd)) in
  (length cmap <= length pal)%nat ->
  exists pal',
    Load_Palette io fh bmhd format pal = (Some pal', fh')
    /\ length pal' = length pal
    /\ (forall i b, cmap !! i = Some b -> pal' !! i = Some (Z.shiftr b 2))
    /\ (forall i, (length cmap <= i)%nat -> pal' !! i = pal !! i)
    /\ Load_Chunks io fh bmhd formtype format (Bufs scratch dest (Some pal))
       = Load_Body io fh' bmhd formtype format
                   (Bufs scratch dest (Some pal')).
Proof.
  cbv zeta. intros Hlen. unfold Load_Chunks, Load_Palette. cbn [palette].
  destruct (Read_Iff_Chunk io fh ID_CMAP (cmap_bytes bmhd)) as [cmap fh'].
  cbn [fst snd] in *.
  destruct (Nat.eqb_spec (length cmap) 0) as [Hnone|Hsome].
  - exists pal. split; [reflexivity|]. split; [reflexivity|].
    destruct cmap; [|discriminate Hnone].
    split; [intros i b Hi; rewrite lookup_nil in Hi; discriminate Hi|].
    split; reflexivity.
  - destruct (store_prefix (Convert_CMAP format cmap) pal)
      as (pal' & Hstore & Hl & Hlow & Hhigh).
    { destruct format; cbn [Convert_CMAP]; rewrite length_map; exact Hlen. }
    exists pal'. rewrite Hstore. split; [reflexivity|]. split; [exact Hl|].
    split; [|split; [|reflexivity]].
    + intros i b Hi. apply Hlow.
      destruct format; cbn [Convert_CMAP];
        rewrite list_lookup_fmap, Hi; reflexivity.
    + intros i Hi. apply Hhigh.
      destruct format; cbn [Convert_CMAP]; rewrite length_map; exact Hi.
Qed.

Lemma Load_Body_empty (fh : handle io) (bmhd : BMHD.BitMapHeader_Type)
    (formtype : IFFForm_Type) (format : PicturePlaneType) (bufs : Buffers) :
  fst (Read_Iff_Chunk io fh ID_BODY (Z.of_nat (length (destbuf bufs)))) = [] ->
  0 <= BMHD.BPlanes bmhd < 256 ->
  Load_Body io fh bmhd formtype format bufs
  = Returned (BMHD.BPlanes bmhd) Loaded bufs.
Proof.
  intros Hbody HB. unfold Load_Body.
  destruct (Read_Iff_Chunk io fh ID_BODY _) as [body fh'].
  cbn [fst] in Hbody. subst body. cbn [length Nat.eqb].
  rewrite to_short_id by lia. reflexivity.
Qed.

End LoaderFacts.

(** ** The load on sample files *)

Section LoaderSamples.

Import CInt Loader Sample.

Lemma sample_reads_header (raw : list Z) (rest : list chunk) :
  length raw = 20%nat ->
  reads_header (io (ilbm (Chunk ID_BMHD raw :: rest))) FORM_ILBM raw rest.
Proof.
  intros Hlen. exists (Chunk ID_BMHD raw :: rest), (Chunk ID_BMHD raw :: rest),
    (Chunk ID_BMHD raw :: rest), ID_ILBM.
  repeat split; try reflexivity; try exact Hlen.
  cbn. rewrite take_ge by lia. reflexivity.
Defined.

Lemma bad_header_rejected_witness :
  Load_Picture (io (ilbm [Chunk ID_BMHD (header_bytes 3 0)])) blank BM_MCGA
  = Returned FALSE Bad_Masking blank
  /\ Load_Picture (io (ilbm [Chunk ID_BMHD (header_bytes 0 2)])) blank BM_MCGA
     = Returned FALSE Bad_Compression blank.
Proof.
  split.
  - apply (proj1 (bad_header_rejected
                    (io (ilbm [Chunk ID_BMHD (header_bytes 3 0)]))
                    FORM_ILBM (header_bytes 3 0) [] blank BM_MCGA
                    (sample_reads_header (header_bytes 3 0) [] eq_refl))).
    reflexivity.
  - apply (proj2 (bad_header_rejected
                    (io (ilbm [Chunk ID_BMHD (header_bytes 0 2)]))
                    FORM_ILBM (header_bytes 0 2) [] blank BM_MCGA
                    (sample_reads_header (header_bytes 0 2) [] eq_refl))).
    + vm_compute. discriminate.
    + reflexivity.
Defined.

(** C5 as worded fails on a header whose two fields are both bad: with
    masking 3 and compression 2 the load comes back from the masking check
    of line 391 and never reaches the compression check; the caller gets
    FALSE, as from every other failure. *)
Lemma masking_checked_first :
  Load_Picture (io (ilbm [Chunk ID_BMHD (header_bytes 3 2)])) blank BM_MCGA
  = Returned FALSE Bad_Masking blank
  /\ ~ Stated.failure_kinds (io (ilbm [Chunk ID_BMHD (header_bytes 3 2)]))
         (header_bytes 3 2) BM_MCGA blank.
Proof.
  assert (Hcode : Load_Picture (io (ilbm [Chunk ID_BMHD (header_bytes 3 2)]))
                    blank BM_MCGA
                  = Returned FALSE Bad_Masking blank) by reflexivity.
  split; [exact Hcode|].
  intros [_ Hclaim]. rewrite Hcode in Hclaim.
  assert (Hbad : BMHD.Compression (Header.Decode_BMHD (header_bytes 3 2)) > 1)
    by (vm_compute; reflexivity).
  specialize (Hclaim Hbad). discriminate Hclaim.
Qed.

Lemma raw_file_delegated_witness :
  Load_Picture (io (File [1; 2; 3; 4] [] [] 16000)) blank BM_MCGA
  = Returned 2 Not_Iff blank.
Proof.
  apply (raw_file_delegated (io (File [1; 2; 3; 4] [] [] 16000)) []
           blank BM_MCGA).
  - reflexivity.
  - discriminate.
  - vm_compute. split; discriminate.
Defined.

Lemma palette_truncated_witness :
  exists pal',
    Load_Palette (io (ilbm [Chunk ID_CMAP [255; 128; 7]]))
                 [Chunk ID_CMAP [255; 128; 7]] (header 0 0) BM_MCGA
                 [9; 9; 9; 9]
    = (Some pal', [])
    /\ length pal' = 4%nat
    /\ (forall i b, [255; 128; 7] !! i = Some b ->
          pal' !! i = Some (Z.shiftr b 2))
    /\ (forall i, (3 <= i)%nat -> pal' !! i = [9; 9; 9; 9] !! i)
    /\ Load_Chunks (io (ilbm [Chunk ID_CMAP [255; 128; 7]]))
                   [Chunk ID_CMAP [255; 128; 7]] (header 0 0) FORM_ILBM
                   BM_MCGA (Bufs [] [] (Some [9; 9; 9; 9]))
       = Load_Body (io (ilbm [Chunk ID_CMAP [255; 128; 7]])) []
                   (header 0 0) FORM_ILBM BM_MCGA (Bufs [] [] (Some pal')).
Proof.
  apply (palette_truncated (io (ilbm [Chunk ID_CMAP [255; 128; 7]]))
           [Chunk ID_CMAP [255; 128; 7]] (header 0 0) FORM_ILBM BM_MCGA
           [] [] [9; 9; 9; 9]).
  vm_compute. lia.
Defined.

(** What reaches the caller of a load, seen through the first byte of the
    scratch buffer and the first eight bytes of the destination. *)
Lemma short_body_loaded :
  match Load_Body (io (ilbm [Chunk ID_BODY [1]])) [Chunk ID_BODY [1]]
                  (header 0 0) FORM_ILBM BM_MCGA blank with
  | Returned value at_ bufs =>
      value = 1 /\ at_ = Loaded
      /\ take 1 (scratchbuf bufs) = [1]
      /\ take 8 (destbuf bufs) = [0; 0; 0; 0; 0; 0; 0; 1]
  | Undefined => False
  end.
Proof. vm_compute. repeat split; reflexivity. Qed.

(** C6 as worded fails on a body that is short but not empty: a BODY chunk
    of one byte, read into a destination of 64000 bytes, is transferred to
    the scratch buffer and converted like any other. *)
Lemma short_body_not_skipped :
  ~ Stated.short_body_skipped (io (ilbm [Chunk ID_BODY [1]]))
      [Chunk ID_BODY [1]] (header 0 0) FORM_ILBM BM_MCGA blank.
Proof.
  unfold Stated.short_body_skipped. intros Hclaim.
  pose proof short_body_loaded as Hcode.
  rewrite Hclaim in Hcode.
  - destruct Hcode as (_ & _ & Hscratch & _). vm_compute in Hscratch.
    discriminate Hscratch.
  - unfold blank. cbn [destbuf]. rewrite length_replicate.
    cbn [io Read_Iff_Chunk ilbm chunks scan chunk_id payload].
    destruct (decide (ID_BODY = ID_BODY)) as [_|Hne]; [|contradiction].
    cbn [fst]. rewrite length_take. cbn [length]. lia.
Qed.

(** The smallest picture of the specification read as a file: one plane of
    8 by 1 pixels, not compressed, whose body is the byte 1. *)
Example minimal_picture :
  match Load_Picture
          (io (ilbm [Chunk ID_BMHD (header_bytes 0 0); Chunk ID_BODY [1]]))
          blank BM_MCGA with
  | Returned value at_ bufs =>
      value = 1 /\ at_ = Loaded
      /\ take 8 (destbuf bufs) = [0; 0; 0; 0; 0; 0; 0; 1]
  | Undefined => False
  end.
Proof. vm_compute. repeat split; reflexivity. Qed.

End LoaderSamples.

(** * Further properties of the body transfer *)

Section TransferFacts.

Import CInt ByteRun Packets.

Variable bmhd : BMHD.BitMapHeader_Type.

Lemma emitted_unmasked (c : Z) (ps : list packet) :
  BMHD.Masking bmhd <> 1 -> emitted bmhd c ps = expand_all ps.
Proof.
  intros HM. revert c. induction ps as [|p ps IH]; intros c; [reflexivity|].
  cbn [emitted]. rewrite IH. unfold write_run.
  destruct (Z.eqb_spec (BMHD.Masking bmhd) 1); [contradiction|]. reflexivity.
Qed.

(** X1: without a mask plane, decompressing the rows an encoder wrote as
    runs (literal runs, replicate runs, no-op codes between them) that add
    up to the row counter gives back, row after row, exactly the bytes the
    runs stand for, and leaves the input right behind the last run. *)
Theorem unmasked_round_trip (rws : list (list packet)) (rest : list Z) :
  BMHD.Masking bmhd <> 1 ->
  BMHD.Compression bmhd = 1 ->
  BMHD.H bmhd < 32768 ->
  Z.of_nat (length rws) = BMHD.H bmhd ->
  Forall (fun ps => Forall valid ps /\ total ps = row_counter bmhd) rws ->
  Transfer_Body bmhd (concat (map encode_all rws) ++ rest)
  = Done (State rest (concat (map expand_all rws)) 0).
Proof.
  intros HM HC HH Hlen Hrws. unfold Transfer_Body, row_count.
  rewrite to_short_id by lia. rewrite <- Hlen, Nat2Z.id.
  rewrite Transfer_Rows_exact by assumption. cbn [app].
  do 3 f_equal. apply map_ext. intros ps. apply emitted_unmasked. exact HM.
Qed.

(** Rows that are not compressed: [n] rows move [n] times the row counter
    from the data to the output. *)
Lemma Transfer_Rows_plain (n : nat) :
  BMHD.Compression bmhd <> 1 -> 0 <= row_counter bmhd ->
  forall data out : list Z,
  Z.of_nat n * row_counter bmhd <= Z.of_nat (length data) ->
  exists c,
    Transfer_Rows n bmhd data out
    = Done (State (drop (n * Z.to_nat (row_counter bmhd)) data)
                  (out ++ take (n * Z.to_nat (row_counter bmhd)) data)
                  c).
Proof.
  intros HC Hrc. induction n as [|n IH]; intros data out Hlen.
  - exists 0. cbn [Transfer_Rows Nat.mul]. rewrite drop_0, take_0, app_nil_r.
    reflexivity.
  - cbn [Transfer_Rows]. unfold Transfer_Row.
    destruct (Z.eqb_spec (BMHD.Compression bmhd) 1) as [|_]; [contradiction|].
    destruct (Z.leb_spec 0 (row_counter bmhd)) as [_|]; [|lia].
    destruct (Z.leb_spec (row_counter bmhd) (Z.of_nat (length data)))
      as [_|]; [|nia].
    cbn [andb src dest].
    set (k := Z.to_nat (row_counter bmhd)) in *.
    destruct (IH (drop k data) (out ++ take k data)) as (c & Hrows).
    { rewrite length_drop. nia. }
    exists c. rewrite Hrows, drop_drop, <- app_assoc, take_take_drop.
    reflexivity.
Qed.

(** A body that is not compressed, on a header that fits its types. *)
Lemma Transfer_Body_plain (data : list Z) :
  BMHD.in_range bmhd ->
  BMHD.Compression bmhd <> 1 ->
  BMHD.H bmhd < 32768 ->
  let row :=
    (BMHD.BPlanes bmhd + (if BMHD.Masking bmhd =? 1 then 1 else 0))
    * plane_width bmhd in
  BMHD.H bmhd * row <= Z.of_nat (length data) ->
  exists st,
    Transfer_Body bmhd data = Done st
    /\ dest st = take (Z.to_nat (BMHD.H bmhd * row)) data
    /\ src st = drop (Z.to_nat (BMHD.H bmhd * row)) data.
Proof.
  intros Hrange HC HH row Hlen.
  assert (Hrow : row_counter bmhd = row).
  { rewrite row_counter_value by exact Hrange. unfold row.
    destruct (BMHD.Masking bmhd =? 1); lia. }
  destruct Hrange as [HW [HH0 _] HB _ _].
  pose proof (plane_width_range bmhd HW) as Hpw.
  assert (Hrow0 : 0 <= row) by (unfold row; destruct (BMHD.Masking bmhd =? 1); nia).
  unfold Transfer_Body, row_count. rewrite to_short_id by lia.
  destruct (Transfer_Rows_plain (Z.to_nat (BMHD.H bmhd)) HC
              ltac:(rewrite Hrow; exact Hrow0) data [])
    as (c & Hrows).
  { rewrite Hrow. lia. }
  rewrite Hrows, Hrow. eexists. split; [reflexivity|]. cbn [dest src app].
  replace (Z.to_nat (BMHD.H bmhd) * Z.to_nat row)%nat
    with (Z.to_nat (BMHD.H bmhd * row)) by nia.
  split; reflexivity.
Qed.

(** X2: a body that is not compressed is copied as it is: the H rows
    (H below 32768) move the first H times [BPlanes * (W >> 3)] bytes of the
    data to the output, and with a mask plane H times
    [(BPlanes + 1) * (W >> 3)] bytes: the mask plane is copied too, not
    dropped as it is from compressed rows. *)
Theorem plain_body_copied (data : list Z) :
  BMHD.in_range bmhd ->
  BMHD.Compression bmhd <> 1 ->
  BMHD.H bmhd < 32768 ->
  let row :=
    (BMHD.BPlanes bmhd + (if BMHD.Masking bmhd =? 1 then 1 else 0))
    * plane_width bmhd in
  BMHD.H bmhd * row <= Z.of_nat (length data) ->
  exists st,
    Transfer_Body bmhd data = Done st
    /\ dest st = take (Z.to_nat (BMHD.H bmhd * row)) data
    /\ src st = drop (Z.to_nat (BMHD.H bmhd * row)) data.
Proof. exact (Transfer_Body_plain data). Qed.

(** X3: for a height of 32768 and more the bound [(short)bmhd.H] of the
    row loop is negative: no row is transferred, whatever the data. *)
Theorem tall_picture_not_transferred (data : list Z) :
  32768 <= BMHD.H bmhd < 65536 ->
  Transfer_Body bmhd data = Done (State data [] 0).
Proof.
  intros HH. unfold Transfer_Body, row_count.
  assert (Hshort : to_short (BMHD.H bmhd) = BMHD.H bmhd - 65536).
  { unfold to_short, wrap_signed. change (2 ^ (16 - 1)) with 32768.
    change (2 ^ 16) with 65536.
    replace (BMHD.H bmhd + 32768)
      with (BMHD.H bmhd - 32768 + 1 * 65536) by lia.
    rewrite Z.mod_add by lia. rewrite Z.mod_small by lia. lia. }
  rewrite Hshort. replace (Z.to_nat (BMHD.H bmhd - 65536)) with 0%nat by lia.
  reflexivity.
Qed.

End TransferFacts.

Section ForwardFacts.

Import CInt ByteRun.

Variable bmhd : BMHD.BitMapHeader_Type.

(** A pass leaves a tail of the data, keeps what was written, and writes
    at most 64 bytes for every byte it takes. *)
Lemma step_forward (st st' : state) :
  step bmhd st = Some st' ->
  src st' `suffix_of` src st
  /\ dest st `prefix_of` dest st'
  /\ (length (dest st') + 64 * length (src st')
      <= length (dest st) + 64 * length (src st))%nat.
Proof.
  unfold step. destruct st as [[|code rest] out c]; cbn [src dest counter];
    [discriminate|].
  pose proof (to_schar_range code) as Hcode.
  rewrite to_short_schar.
  destruct (Z.eqb_spec (to_schar code) (-128)) as [|Hne].
  { intros [= <-]. cbn [src dest]. split; [apply suffix_cons_r; reflexivity|].
    split; [reflexivity|]. cbn [length]. lia. }
  destruct (to_schar code >=? 0) eqn:Hsign.
  - destruct (write_run bmhd c).
    + destruct (Z.ltb_spec (Z.of_nat (length rest)) (to_schar code + 1));
        [discriminate|].
      intros [= <-]. cbn [src dest].
      split; [apply suffix_cons_r, suffix_drop|].
      split; [apply prefix_app_r; reflexivity|].
      rewrite length_app, length_take, length_drop. cbn [length]. lia.
    + intros [= <-]. cbn [src dest].
      split; [apply suffix_cons_r, suffix_drop|].
      split; [reflexivity|].
      rewrite length_drop. cbn [length]. lia.
  - destruct rest as [|v rest]; [discriminate|].
    destruct (write_run bmhd c); intros [= <-]; cbn [src dest].
    + split; [do 2 apply suffix_cons_r; reflexivity|].
      split; [apply prefix_app_r; reflexivity|].
      rewrite length_app, length_replicate. cbn [length]. lia.
    + split; [do 2 apply suffix_cons_r; reflexivity|].
      split; [reflexivity|]. cbn [length]. lia.
Qed.

Lemma run_forward (fuel : nat) (st st' : state) :
  run fuel bmhd st = Done st' \/ run fuel bmhd st = Overrun st' ->
  src st' `suffix_of` src st
  /\ dest st `prefix_of` dest st'
  /\ (length (dest st') + 64 * length (src st')
      <= length (dest st) + 64 * length (src st))%nat.
Proof.
  revert st. induction fuel as [|fuel IH]; intros st; cbn [run].
  - destruct (counter st =? 0); intros [Hr|Hr]; try discriminate Hr.
    injection Hr as <-. repeat split; reflexivity || lia.
  - destruct (counter st =? 0).
    { intros [Hr|Hr]; [|discriminate Hr]. injection Hr as <-.
      repeat split; reflexivity || lia. }
    destruct (step bmhd st) as [st1|] eqn:Hstep.
    + intros Hr. apply step_forward in Hstep.
      destruct Hstep as (Hs1 & Hd1 & Hn1).
      destruct (IH st1 Hr) as (Hs2 & Hd2 & Hn2).
      split; [etrans; eassumption|]. split; [etrans; eassumption|]. lia.
    + intros [Hr|Hr]; [discriminate Hr|]. injection Hr as <-.
      repeat split; reflexivity || lia.
Qed.

Lemma Transfer_Row_forward (data out : list Z) (st' : state) :
  Transfer_Row bmhd data out = Done st'
  \/ Transfer_Row bmhd data out = Overrun st' ->
  src st' `suffix_of` data
  /\ out `prefix_of` dest st'
  /\ (length (dest st') + 64 * length (src st')
      <= length out + 64 * length data)%nat.
Proof.
  unfold Transfer_Row. destruct (BMHD.Compression bmhd =? 1).
  - intros Hr. apply run_forward in Hr. exact Hr.
  - destruct (Z.leb_spec 0 (row_counter bmhd)) as [H0|];
      [destruct (Z.leb_spec (row_counter bmhd) (Z.of_nat (length data)))
         as [Hle|]|];
      cbn [andb]; intros [Hr|Hr]; try discriminate Hr;
      injection Hr as <-; cbn [src dest];
      try (repeat split; reflexivity || lia).
    split; [apply suffix_drop|]. split; [apply prefix_app_r; reflexivity|].
    rewrite length_app, length_take, length_drop. lia.
Qed.

Lemma Transfer_Rows_forward (rows : nat) (data out : list Z) (st' : state) :
  Transfer_Rows rows bmhd data out = Done st'
  \/ Transfer_Rows rows bmhd data out = Overrun st' ->
  src st' `suffix_of` data
  /\ out `prefix_of` dest st'
  /\ (length (dest st') + 64 * length (src st')
      <= length out + 64 * length data)%nat.
Proof.
  revert data out. induction rows as [|rows IH]; intros data out;
    cbn [Transfer_Rows].
  - intros [Hr|Hr]; [|discriminate Hr]. injection Hr as <-. cbn [src dest].
    repeat split; reflexivity || lia.
  - destruct (Transfer_Row bmhd data out) as [st1| st1|] eqn:Hrow.
    + intros Hr.
      destruct (Transfer_Row_forward data out st1 (or_introl Hrow))
        as (Hs1 & Hd1 & Hn1).
      destruct (IH _ _ Hr) as (Hs2 & Hd2 & Hn2).
      split; [etrans; eassumption|]. split; [etrans; eassumption|]. lia.
    + intros [Hr|Hr]; [discriminate Hr|]. injection Hr as <-.
      apply Transfer_Row_forward. right. exact Hrow.
    + intros [Hr|Hr]; discriminate Hr.
Qed.

(** X4: the transfer never writes more than 64 bytes for a byte of the
    body it takes (a replicate run of 128 bytes takes two): however it
    ends, the bytes written plus 64 times the bytes left of the data are at
    most 64 times the data. This bounds the scratch buffer a body needs. *)
Theorem transfer_expansion_bound (data : list Z) (st : state) :
  Transfer_Body bmhd data = Done st \/ Transfer_Body bmhd data = Overrun st ->
  (length (dest st) + 64 * length (src st) <= 64 * length data)%nat.
Proof.
  intros Hr. apply Transfer_Rows_forward in Hr.
  destruct Hr as (_ & _ & Hn). cbn [length] in Hn. lia.
Qed.

(** X5: the transfer reads the body strictly forward: however it ends, what
    is left of the input is a tail of the data it was given. *)
Theorem transfer_reads_forward (data : list Z) (st : state) :
  Transfer_Body bmhd data = Done st \/ Transfer_Body bmhd data = Overrun st ->
  src st `suffix_of` data.
Proof.
  intros Hr. apply Transfer_Rows_forward in Hr. apply Hr.
Qed.

(** X6: a picture less than 8 pixels wide has rows of no bytes
    ([W >> 3] is 0): the transfer takes nothing off the data and writes
    nothing, compressed or not, whatever the height. *)
Theorem narrow_picture_empty (data : list Z) :
  BMHD.in_range bmhd -> BMHD.W bmhd < 8 ->
  exists st,
    Transfer_Body bmhd data = Done st /\ src st = data /\ dest st = [].
Proof.
  intros Hrange HW.
  assert (Hrc : row_counter bmhd = 0).
  { rewrite row_counter_value by exact Hrange.
    assert (Hpw : plane_width bmhd = 0).
    { unfold plane_width. rewrite Z.shiftr_div_pow2 by lia.
      destruct Hrange as [[? ?] _ _ _ _]. apply Z.div_small. simpl. lia. }
    rewrite Hpw. destruct (BMHD.Masking bmhd =? 1); lia. }
  assert (Hrow : forall out, Transfer_Row bmhd data out = Done (State data out 0)).
  { intros out. unfold Transfer_Row. rewrite Hrc.
    destruct (BMHD.Compression bmhd =? 1).
    - rewrite loop_unfold. reflexivity.
    - cbn [Z.leb Z.compare andb Z.to_nat].
      destruct (Z.leb_spec 0 (Z.of_nat (length data))) as [_|]; [|lia].
      rewrite drop_0, take_0, app_nil_r. reflexivity. }
  unfold Transfer_Body. generalize (row_count bmhd). intros n.
  assert (Hrows : forall out, Transfer_Rows n bmhd data out = Done (State data out 0)).
  { induction n as [|n IH]; intros out; cbn [Transfer_Rows]; [reflexivity|].
    rewrite Hrow. cbn [src dest]. apply IH. }
  exists (State data [] 0). rewrite Hrows. repeat split.
Qed.

End ForwardFacts.

(** ** Rows whose runs do not meet the counter *)

Section OvershootFacts.

Import CInt ByteRun Packets.

Variable bmhd : BMHD.BitMapHeader_Type.





End OvershootFacts.

Section OvershootSamples.

Import CInt ByteRun Packets.


End OvershootSamples.

(** * Further properties of the conversion *)

Section ConversionFacts.

Import CInt Deinterleave.

(** The conversion as a whole, on a source that holds the 200 rows. *)
Lemma ILBM_To_MCGA_chunky (buf : list Z) (planes : Z) :
  0 <= planes <= 8 -> 8000 * planes <= Z.of_nat (length buf) ->
  ILBM_To_MCGA buf planes = Some (chunky 320 200 (Z.to_nat planes) buf).
Proof.
  intros Hplanes Hbuf. unfold ILBM_To_MCGA.
  destruct (rows_pixels buf (Z.to_nat planes) ltac:(lia) 200 0 (replicate 8 0))
    as (bytes' & Hrows & _); [lia|reflexivity|].
  change (Z.of_nat (0 * (Z.to_nat planes * 40))) with 0 in Hrows.
  rewrite Z2Nat.id in Hrows by lia. rewrite Hrows. reflexivity.
Qed.

Lemma Forall_blocks (P : Z -> Prop) (f : nat -> list Z) (l : list nat) :
  (forall x, Forall P (f x)) -> Forall P (concat (map f l)).
Proof.
  intros Hf. induction l as [|x l IH]; cbn [map concat]; [constructor|].
  apply Forall_app. split; [apply Hf|exact IH].
Qed.

(** X7: every pixel the conversion writes is a colour number below
    [2 ^ planes]: it fits the palette of [2 ^ planes] colours. *)
Theorem pixels_below_colours (buf : list Z) (planes : Z) (pixels : list Z) :
  0 <= planes <= 8 -> 8000 * planes <= Z.of_nat (length buf) ->
  ILBM_To_MCGA buf planes = Some pixels ->
  Forall (fun pixel => 0 <= pixel < 2 ^ planes) pixels.
Proof.
  intros Hplanes Hbuf Hrun.
  rewrite ILBM_To_MCGA_chunky in Hrun by assumption.
  apply (inj Some) in Hrun. subst pixels.
  unfold chunky. apply Forall_blocks. intros row.
  unfold chunky_row. apply Forall_blocks. intros g.
  unfold chunky_group. apply Forall_fmap, Forall_forall. intros k _.
  unfold chunky_pixel. cbn [compose].
  pose proof (pixel_value_range (Z.to_nat planes)
                (fun p => buf !!! (row * (Z.to_nat planes * Z.to_nat (320 / 8))
                                   + p * Z.to_nat (320 / 8) + g)%nat) k) as Hr.
  rewrite Z2Nat.id in Hr by lia. exact Hr.
Qed.

Lemma gather_overflow (buf : list Z) (s : Z) (todo : nat) :
  forall (bplane : nat) (bytes : list Z),
  (bplane <= length bytes < bplane + todo)%nat ->
  gather todo bplane buf s bytes = None.
Proof.
  induction todo as [|todo IH]; intros bplane bytes Hlen; [lia|].
  cbn [gather].
  destruct (Nat.leb_spec (length bytes) bplane); [reflexivity|].
  destruct (peek buf (s + Z.of_nat bplane * 40)); [|reflexivity].
  apply IH. rewrite length_insert. lia.
Qed.

(** X8: with more than 8 planes the first loop of a group leaves the array
    [bytes[8]]: the conversion has no defined result, whatever the source. *)
Theorem too_many_planes (buf : list Z) (planes : Z) :
  8 < planes -> ILBM_To_MCGA buf planes = None.
Proof.
  intros Hplanes. unfold ILBM_To_MCGA.
  change 200%nat with (S 199). cbn [rows].
  change 40%nat with (S 39). cbn [groups source bytes].
  rewrite gather_overflow; [reflexivity|].
  rewrite length_replicate. lia.
Qed.

(** Bytes with the same eight bits are the same. *)
Lemma byte_bits_eq (a b : Z) :
  is_byte a -> is_byte b ->
  (forall k : nat, (k < 8)%nat ->
     Z.testbit a (7 - Z.of_nat k) = Z.testbit b (7 - Z.of_nat k)) ->
  a = b.
Proof.
  unfold is_byte. intros Ha Hb Hbits. apply Z.bits_inj'. intros j Hj.
  destruct (Z.ltb_spec j 8) as [Hlt|Hge].
  - specialize (Hbits (Z.to_nat (7 - j)) ltac:(lia)).
    replace (7 - Z.of_nat (Z.to_nat (7 - j))) with j in Hbits by lia.
    exact Hbits.
  - assert (Hhigh : forall c, 0 <= c < 256 -> Z.testbit c j = false).
    { intros c Hc. destruct (Z.eqb_spec c 0) as [->|Hne]; [apply Z.bits_0|].
      apply Z.bits_above_log2; [lia|].
      apply Z.lt_le_trans with 8; [|exact Hge].
      apply Z.log2_lt_pow2; lia. }
    rewrite !Hhigh by assumption. reflexivity.
Qed.

(** X9: the conversion loses nothing: two sources of bytes that give the
    same pixels agree on the [8000 * planes] bytes the conversion reads. *)
Theorem conversion_injective (buf1 buf2 : list Z) (planes : Z) :
  0 <= planes <= 8 ->
  8000 * planes <= Z.of_nat (length buf1) ->
  8000 * planes <= Z.of_nat (length buf2) ->
  Forall is_byte buf1 -> Forall is_byte buf2 ->
  ILBM_To_MCGA buf1 planes = ILBM_To_MCGA buf2 planes ->
  take (Z.to_nat (8000 * planes)) buf1 = take (Z.to_nat (8000 * planes)) buf2.
Proof.
  intros Hplanes Hlen1 Hlen2 Hb1 Hb2 Hsame.
  rewrite !ILBM_To_MCGA_chunky in Hsame by assumption.
  apply (inj Some) in Hsame.
  set (n := Z.to_nat planes) in *.
  assert (Hn : (Z.to_nat (8000 * planes) = 200 * (n * 40))%nat) by lia.
  rewrite Hn.
  apply (list_eq_same_length _ _ (200 * (n * 40))%nat);
    [rewrite length_take; lia|rewrite length_take; lia|].
  intros j a b Hj Ha Hb.
  rewrite lookup_take_lt in Ha by exact Hj.
  rewrite lookup_take_lt in Hb by exact Hj.
  assert (Hia : is_byte a)
    by (eapply Forall_lookup_1; [exact Hb1|exact Ha]).
  assert (Hib : is_byte b)
    by (eapply Forall_lookup_1; [exact Hb2|exact Hb]).
  apply list_lookup_total_correct in Ha, Hb.
  assert (Hn0 : (0 < n)%nat) by lia.
  set (row := (j / (n * 40))%nat).
  set (i := ((j mod (n * 40)) / 40)%nat).
  set (g := ((j mod (n * 40)) mod 40)%nat).
  assert (Hrow : (row < 200)%nat)
    by (apply Nat.Div0.div_lt_upper_bound; lia).
  assert (Hi : (i < n)%nat).
  { apply Nat.Div0.div_lt_upper_bound.
    pose proof (Nat.mod_upper_bound j (n * 40)). lia. }
  assert (Hg : (g < 40)%nat) by (apply Nat.mod_upper_bound; lia).
  assert (Hj' : j = (row * (n * 40) + i * 40 + g)%nat).
  { unfold row, i, g.
    pose proof (Nat.div_mod_eq j (n * 40)) as H1.
    pose proof (Nat.div_mod_eq (j mod (n * 40)) 40) as H2.
    lia. }
  apply byte_bits_eq; [exact Hia|exact Hib|]. intros k Hk.
  pose proof (f_equal (fun l => l !!! (row * 320 + g * 8 + k)%nat) Hsame)
    as Hpixel.
  cbv beta in Hpixel. rewrite !chunky_lookup in Hpixel by assumption.
  apply (f_equal (fun v => Z.testbit v (Z.of_nat i))) in Hpixel.
  cbv beta in Hpixel. unfold chunky_pixel in Hpixel.
  rewrite !pixel_value_bits in Hpixel.
  change (Z.to_nat (320 / 8)) with 40%nat in Hpixel.
  destruct (Nat.ltb_spec i n) as [_|]; [|lia]. cbn [andb] in Hpixel.
  rewrite <- Hj' in Hpixel. rewrite <- Ha, <- Hb. exact Hpixel.
Qed.

End ConversionFacts.

(** * Further properties of the load *)

Section LoadFacts.

Import CInt Loader.

Variable io : Collaborators.

Lemma store_length (data buf buf' : list Z) :
  store data buf = Some buf' -> length buf' = length buf.
Proof.
  unfold store. destruct (Nat.ltb_spec (length buf) (length data)) as [|Hle];
    [discriminate|].
  intros [= <-]. rewrite length_app, length_drop. lia.
Qed.

(** What comes back from the part of the load that reads the body. *)
Lemma Load_Body_returns (fh : handle io) (bmhd : BMHD.BitMapHeader_Type)
    (formtype : IFFForm_Type) (format : PicturePlaneType) (bufs bufs' : Buffers)
    (value : Z) (at_ : exit_point) :
  Load_Body io fh bmhd formtype format bufs = Returned value at_ bufs' ->
  at_ = Loaded
  /\ value = to_short (BMHD.BPlanes bmhd)
  /\ length (scratchbuf bufs') = length (scratchbuf bufs)
  /\ length (destbuf bufs') = length (destbuf bufs)
  /\ palette bufs' = palette bufs.
Proof.
  unfold Load_Body.
  destruct (Read_Iff_Chunk io fh ID_BODY _) as [body fh'].
  destruct (length body =? 0)%nat.
  { intros [= <- <- <-]. repeat split. }
  destruct (store body (destbuf bufs)) as [data|] eqn:Hdata; [|discriminate].
  destruct (ByteRun.Transfer_Body bmhd data) as [st|st|]; try discriminate.
  destruct (store (ByteRun.dest st) (scratchbuf bufs)) as [scratch|] eqn:Hscratch;
    [|discriminate].
  destruct (Convert_Body format formtype bmhd scratch data) as [dest|] eqn:Hdest;
    [|discriminate].
  intros [= <- <- <-]. cbn [scratchbuf destbuf palette].
  apply store_length in Hdata, Hscratch.
  split; [reflexivity|]. split; [reflexivity|]. split; [exact Hscratch|].
  split; [|reflexivity].
  rewrite <- Hdata. unfold Convert_Body in Hdest.
  destruct format, formtype;
    repeat match type of Hdest with
           | match ?x with _ => _ end = _ => destruct x eqn:?; try discriminate
           | (if ?x then _ else _) = _ => destruct x eqn:?; try discriminate
           end;
    apply store_length in Hdest; exact Hdest.
Qed.

Lemma Load_Chunks_returns (fh : handle io) (bmhd : BMHD.BitMapHeader_Type)
    (formtype : IFFForm_Type) (format : PicturePlaneType) (bufs bufs' : Buffers)
    (value : Z) (at_ : exit_point) :
  Load_Chunks io fh bmhd formtype format bufs = Returned value at_ bufs' ->
  at_ = Loaded
  /\ value = to_short (BMHD.BPlanes bmhd)
  /\ length (scratchbuf bufs') = length (scratchbuf bufs)
  /\ length (destbuf bufs') = length (destbuf bufs)
  /\ length <$> palette bufs' = length <$> palette bufs.
Proof.
  unfold Load_Chunks. destruct (palette bufs) as [pal|] eqn:Hpal.
  - destruct (Load_Palette io fh bmhd format pal) as [[pal'|] fh'] eqn:Hload;
      [|discriminate].
    intros Hbody. apply Load_Body_returns in Hbody.
    destruct Hbody as (Hat & Hv & Hs & Hd & Hp). cbn [scratchbuf destbuf palette] in *.
    repeat split; try assumption. rewrite Hp. cbn. f_equal.
    unfold Load_Palette in Hload.
    destruct (Read_Iff_Chunk io fh ID_CMAP _) as [cmap fh''].
    destruct (length cmap =? 0)%nat.
    + injection Hload as <- _. reflexivity.
    + injection Hload as Hstore _. apply store_length in Hstore. exact Hstore.
  - intros Hbody. apply Load_Body_returns in Hbody.
    destruct Hbody as (Hat & Hv & Hs & Hd & Hp).
    repeat split; try assumption. rewrite Hp, Hpal. reflexivity.
Qed.

(** X10: whenever the load comes back through one of its failure exits
    (the file does not open, as a plain file or as an IFF file; the form tag
    is neither ILBM nor PBM; there is no BMHD chunk; the masking or the
    compression of the header is not supported), it returns FALSE and has
    written nothing to the buffers or the palette. *)
Theorem failed_load_untouched (bufs bufs' : Buffers)
    (format : PicturePlaneType) (value : Z) (at_ : exit_point) :
  Load_Picture io bufs format = Returned value at_ bufs' ->
  at_ <> Loaded -> at_ <> Not_Iff ->
  value = FALSE /\ bufs' = bufs.
Proof.
  unfold Load_Picture. intros Hload Hl Hn.
  destruct (Open_File io) as [fh0|]; [|injection Hload as <- <- <-; split; reflexivity].
  destruct (decide (Read_File io fh0 = ID_FORM)) as [_|_].
  - destruct (Open_Iff_File io) as [fh1|];
      [|injection Hload as <- <- <-; split; reflexivity].
    destruct (Read_Form io fh1) as [tag fh2].
    destruct (form_of tag) as [formtype|];
      [|injection Hload as <- <- <-; split; reflexivity].
    unfold Load_Header in Hload.
    destruct (Read_Iff_Chunk io fh2 ID_BMHD 20) as [raw fh].
    destruct (length raw =? 0)%nat;
      [injection Hload as <- <- <-; split; reflexivity|].
    destruct (length raw <? 20)%nat; [discriminate Hload|].
    destruct (Check_BMHD (Header.Decode_BMHD raw)) as [failure|];
      [injection Hload as <- <- <-; split; reflexivity|].
    apply Load_Chunks_returns in Hload. destruct Hload as (Hat & _).
    contradiction.
  - destruct (Load_Uncompress io bufs) as [size bufs1].
    injection Hload as <- <- <-. contradiction.
Qed.

(** X11: a load that comes back through its last [return] has found FORM
    at the start of the file and a BMHD chunk of 20 bytes whose masking is
    at most 2 and whose compression is at most 1, and returns the bitplane
    count of that header. *)
Theorem loaded_means_valid_header (bufs bufs' : Buffers)
    (format : PicturePlaneType) (value : Z) :
  Load_Picture io bufs format = Returned value Loaded bufs' ->
  (exists fh0, Open_File io = Some fh0 /\ Read_File io fh0 = ID_FORM)
  /\ (exists (fh fh' : handle io) (raw : list Z),
        Read_Iff_Chunk io fh ID_BMHD 20 = (raw, fh')
        /\ (20 <= length raw)%nat
        /\ BMHD.Masking (Header.Decode_BMHD raw) <= 2
        /\ BMHD.Compression (Header.Decode_BMHD raw) <= 1
        /\ value = to_short (BMHD.BPlanes (Header.Decode_BMHD raw))).
Proof.
  unfold Load_Picture. intros Hload.
  destruct (Open_File io) as [fh0|]; [|discriminate Hload].
  destruct (decide (Read_File io fh0 = ID_FORM)) as [Hmagic|_].
  - split; [exists fh0; split; [reflexivity|exact Hmagic]|].
    destruct (Open_Iff_File io) as [fh1|]; [|discriminate Hload].
    destruct (Read_Form io fh1) as [tag fh2].
    destruct (form_of tag) as [formtype|]; [|discriminate Hload].
    unfold Load_Header in Hload.
    destruct (Read_Iff_Chunk io fh2 ID_BMHD 20) as [raw fh] eqn:Hraw.
    destruct (length raw =? 0)%nat; [discriminate Hload|].
    destruct (Nat.ltb_spec (length raw) 20) as [|Hlen]; [discriminate Hload|].
    unfold Check_BMHD in Hload.
    destruct (Z.gtb_spec (BMHD.Masking (Header.Decode_BMHD raw)) 2) as [|HM];
      [discriminate Hload|].
    destruct (Z.gtb_spec (BMHD.Compression (Header.Decode_BMHD raw)) 1)
      as [|HC]; [discriminate Hload|].
    apply Load_Chunks_returns in Hload. destruct Hload as (_ & Hv & _).
    exists fh2, fh, raw. repeat split; assumption.
  - destruct (Load_Uncompress io bufs) as [size bufs1]. discriminate Hload.
Qed.

(** The load of an IFF file keeps the sizes of the buffers: when it
    returns (through any exit but the one that hands the file to
    [Load_Uncompress]), the scratch buffer, the destination buffer and the
    palette are as long as they were, and a NULL palette is still NULL. *)
Lemma buffers_keep_size (bufs bufs' : Buffers)
    (format : PicturePlaneType) (value : Z) (at_ : exit_point) :
  Load_Picture io bufs format = Returned value at_ bufs' ->
  at_ <> Not_Iff ->
  length (scratchbuf bufs') = length (scratchbuf bufs)
  /\ length (destbuf bufs') = length (destbuf bufs)
  /\ length <$> palette bufs' = length <$> palette bufs.
Proof.
  unfold Load_Picture. intros Hload Hn.
  destruct (Open_File io) as [fh0|];
    [|injection Hload as <- <- <-; repeat split].
  destruct (decide (Read_File io fh0 = ID_FORM)) as [_|_].
  - destruct (Open_Iff_File io) as [fh1|];
      [|injection Hload as <- <- <-; repeat split].
    destruct (Read_Form io fh1) as [tag fh2].
    destruct (form_of tag) as [formtype|];
      [|injection Hload as <- <- <-; repeat split].
    unfold Load_Header in Hload.
    destruct (Read_Iff_Chunk io fh2 ID_BMHD 20) as [raw fh].
    destruct (length raw =? 0)%nat;
      [injection Hload as <- <- <-; repeat split|].
    destruct (length raw <? 20)%nat; [discriminate Hload|].
    destruct (Check_BMHD (Header.Decode_BMHD raw)) as [failure|];
      [injection Hload as <- <- <-; repeat split|].
    apply Load_Chunks_returns in Hload.
    destruct Hload as (_ & _ & Hs & Hd & Hp). repeat split; assumption.
  - destruct (Load_Uncompress io bufs) as [size bufs1].
    injection Hload as <- <- <-. contradiction.
Qed.

End LoadFacts.

Section PictureLoads.

Import CInt Loader.

Variable io : Collaborators.

(** The load past a header that passed the checks, without a palette. *)
Lemma Load_Picture_body (formtype : IFFForm_Type) (raw : list Z)
    (fh : handle io) (bufs : Buffers) (format : PicturePlaneType) :
  reads_header io formtype raw fh ->
  Check_BMHD (Header.Decode_BMHD raw) = None ->
  palette bufs = None ->
  Load_Picture io bufs format
  = Load_Body io fh (Header.Decode_BMHD raw) formtype format bufs.
Proof.
  intros Hreads Hcheck Hpal.
  rewrite (Load_Picture_header io formtype raw fh) by exact Hreads.
  rewrite Hcheck. unfold Load_Chunks. rewrite Hpal. reflexivity.
Qed.

(** C6 (amended): what decides is whether the read of the BODY chunk gives
    any byte, not whether it fills the destination buffer. When it gives
    none (the chunk is missing or empty), nothing is transferred or
    converted, the buffers stay as they were, and the load still returns
    the bitplane count of the header. When it gives at least one byte,
    however few, the rows of the header are transferred from the
    destination buffer to the scratch buffer and the conversion is made
    from the scratch buffer into the first 64000 bytes of the destination
    buffer, by [ILBM_To_MCGA] for a file of form ILBM and by a copy for a
    file of form PBM; the load returns the bitplane count. The second part
    is stated for a transfer that stays inside the buffers, at most 8
    planes and buffers of at least 64000 bytes; both parts for a call
    without palette, which reads no chunk between the header and the
    body. *)
Theorem body_read_decides (formtype : IFFForm_Type)
    (format : PicturePlaneType) (bufs : Buffers) :
  (forall (fh : handle io) (bmhd : BMHD.BitMapHeader_Type),
     fst (Read_Iff_Chunk io fh ID_BODY (Z.of_nat (length (destbuf bufs))))
     = [] ->
     0 <= BMHD.BPlanes bmhd < 256 ->
     Load_Body io fh bmhd formtype format bufs
     = Returned (BMHD.BPlanes bmhd) Loaded bufs)
  /\ (forall (raw : list Z) (fh : handle io),
        reads_header io formtype raw fh ->
        Check_BMHD (Header.Decode_BMHD raw) = None ->
        0 <= BMHD.BPlanes (Header.Decode_BMHD raw) < 256 ->
        palette bufs = None ->
        fst (Read_Iff_Chunk io fh ID_BODY (Z.of_nat (length (destbuf bufs))))
        = [] ->
        Load_Picture io bufs format
        = Returned (BMHD.BPlanes (Header.Decode_BMHD raw)) Loaded bufs)
  /\ (forall (raw : list Z) (fh : handle io) (st : ByteRun.state),
        let bmhd := Header.Decode_BMHD raw in
        let body :=
          fst (Read_Iff_Chunk io fh ID_BODY
                 (Z.of_nat (length (destbuf bufs)))) in
        let data := body ++ drop (length body) (destbuf bufs) in
        reads_header io formtype raw fh ->
        Check_BMHD bmhd = None ->
        palette bufs = None ->
        (0 < length body <= length (destbuf bufs))%nat ->
        ByteRun.Transfer_Body bmhd data = ByteRun.Done st ->
        (length (ByteRun.dest st) <= length (scratchbuf bufs))%nat ->
        0 <= BMHD.BPlanes bmhd <= 8 ->
        64000 <= Z.of_nat (length (scratchbuf bufs)) ->
        64000 <= Z.of_nat (length (destbuf bufs)) ->
        exists scratch' dest',
          Load_Picture io bufs format
          = Returned (BMHD.BPlanes bmhd) Loaded (Bufs scratch' dest' None)
          /\ scratch'
             = ByteRun.dest st
                 ++ drop (length (ByteRun.dest st)) (scratchbuf bufs)
          /\ match formtype with
             | FORM_ILBM =>
                 Deinterleave.ILBM_To_MCGA scratch' (BMHD.BPlanes bmhd)
                 = Some (take (Z.to_nat 64000) dest')
             | FORM_PBM =>
                 take (Z.to_nat 64000) dest' = take (Z.to_nat 64000) scratch'
             end
          /\ drop (Z.to_nat 64000) dest' = drop (Z.to_nat 64000) data).
Proof.
  split; [|split].
  - intros fh bmhd. apply Load_Body_empty.
  - intros raw fh Hreads Hcheck HB Hpal Hbody.
    rewrite (Load_Picture_body formtype raw fh) by assumption.
    apply Load_Body_empty; assumption.
  - intros raw fh st bmhd body data Hreads Hcheck Hpal Hbody Hrun Hfit HB
           Hscratch Hdest.
    rewrite (Load_Picture_body formtype raw fh) by assumption.
    unfold Load_Body. fold bmhd.
    destruct (Read_Iff_Chunk io fh ID_BODY _) as [body' fh'] eqn:Hread.
    cbn [fst] in body. subst body.
    destruct (Nat.eqb_spec (length body') 0) as [|_]; [lia|].
    unfold store at 1.
    destruct (Nat.ltb_spec (length (destbuf bufs)) (length body')) as [|_];
      [lia|].
    fold data. rewrite Hrun. unfold store at 1.
    destruct (Nat.ltb_spec (length (scratchbuf bufs))
                (length (ByteRun.dest st))) as [|_]; [lia|].
    set (scratch' := ByteRun.dest st
                       ++ drop (length (ByteRun.dest st)) (scratchbuf bufs)).
    assert (Hlen' : length scratch' = length (scratchbuf bufs)).
    { unfold scratch'. rewrite length_app, length_drop. lia. }
    assert (Hdata : length data = length (destbuf bufs)).
    { unfold data. rewrite length_app, length_drop. lia. }
    rewrite to_short_id by lia. rewrite Hpal.
    assert (Hconv : match formtype with
                    | FORM_ILBM =>
                        Deinterleave.ILBM_To_MCGA scratch' (BMHD.BPlanes bmhd)
                    | FORM_PBM => Some (take (Z.to_nat 64000) scratch')
                    end
                    = Some (match formtype with
                            | FORM_ILBM =>
                                Deinterleave.chunky 320 200
                                  (Z.to_nat (BMHD.BPlanes bmhd)) scratch'
                            | FORM_PBM => take (Z.to_nat 64000) scratch'
                            end)).
    { destruct formtype; [|reflexivity].
      apply ILBM_To_MCGA_chunky; [exact HB|lia]. }
    set (pixels := match formtype with
                   | FORM_ILBM =>
                       Deinterleave.chunky 320 200
                         (Z.to_nat (BMHD.BPlanes bmhd)) scratch'
                   | FORM_PBM => take (Z.to_nat 64000) scratch'
                   end) in *.
    assert (Hpixels : length pixels = Z.to_nat 64000).
    { unfold pixels. destruct formtype.
      - unfold Deinterleave.chunky.
        rewrite (length_blocks (Deinterleave.chunky_row 320 _ scratch') 320)
          by (intros; apply length_chunky_row).
        reflexivity.
      - rewrite length_take. lia. }
    assert (Hmade : Convert_Body format formtype bmhd scratch' data
                    = Some (pixels ++ drop (Z.to_nat 64000) data)).
    { unfold Convert_Body.
      assert (Hstore : store pixels data
                       = Some (pixels ++ drop (Z.to_nat 64000) data)).
      { unfold store. rewrite Hpixels.
        destruct (Nat.ltb_spec (length data) (Z.to_nat 64000)) as [|_];
          [lia|reflexivity]. }
      destruct format, formtype;
        try (rewrite Hconv; exact Hstore);
        (destruct (Z.ltb_spec (Z.of_nat (length scratch')) 64000) as [|_];
         [lia|exact Hstore]). }
    rewrite Hmade.
    exists scratch', (pixels ++ drop (Z.to_nat 64000) data).
    split; [reflexivity|]. split; [reflexivity|].
    rewrite take_app_length' by exact (eq_sym Hpixels).
    rewrite drop_app_length' by exact (eq_sym Hpixels).
    split; [|reflexivity].
    destruct formtype; [exact Hconv|reflexivity].
Qed.

(** X12: the load of an ILBM file, end to end. When the body read gives
    some bytes, the row transfer of those bytes (followed by what the
    destination buffer held behind them) ends in [st], and the buffers are
    large enough, the load returns the bitplane count; the scratch buffer
    starts with the bytes the transfer wrote; and in the destination
    buffer bit [i] of pixel [k] of group [g] of row [row] is bit [7 - k]
    of the scratch byte of plane [i] of that group, for the [BPlanes]
    planes of the header, the higher bits being clear. The destination
    beyond the 64000 pixels keeps what the body read left there. *)
Theorem ilbm_picture_loaded (raw : list Z) (fh : handle io) (bufs : Buffers)
    (format : PicturePlaneType) (st : ByteRun.state) :
  let bmhd := Header.Decode_BMHD raw in
  let body :=
    fst (Read_Iff_Chunk io fh ID_BODY (Z.of_nat (length (destbuf bufs)))) in
  let data := body ++ drop (length body) (destbuf bufs) in
  let n := Z.to_nat (BMHD.BPlanes bmhd) in
  reads_header io FORM_ILBM raw fh ->
  Check_BMHD bmhd = None ->
  palette bufs = None ->
  (0 < length body <= length (destbuf bufs))%nat ->
  ByteRun.Transfer_Body bmhd data = ByteRun.Done st ->
  (length (ByteRun.dest st) <= length (scratchbuf bufs))%nat ->
  0 <= BMHD.BPlanes bmhd <= 8 ->
  8000 * BMHD.BPlanes bmhd <= Z.of_nat (length (scratchbuf bufs)) ->
  64000 <= Z.of_nat (length (destbuf bufs)) ->
  exists scratch' dest',
    Load_Picture io bufs format
    = Returned (BMHD.BPlanes bmhd) Loaded (Bufs scratch' dest' None)
    /\ scratch'
       = ByteRun.dest st
           ++ drop (length (ByteRun.dest st)) (scratchbuf bufs)
    /\ (forall row g k i : nat,
          (row < 200)%nat -> (g < 40)%nat -> (k < 8)%nat ->
          Z.testbit (dest' !!! (row * 320 + g * 8 + k)%nat) (Z.of_nat i)
          = (i <? n)%nat
            && Z.testbit (scratch' !!! (row * (n * 40) + i * 40 + g)%nat)
                         (7 - Z.of_nat k))
    /\ drop (Z.to_nat 64000) dest' = drop (Z.to_nat 64000) data.
Proof.
  intros bmhd body data n Hreads Hcheck Hpal Hbody Hrun Hfit HB Hscratch Hdest.
  rewrite (Load_Picture_body FORM_ILBM raw fh) by assumption.
  unfold Load_Body. fold bmhd.
  destruct (Read_Iff_Chunk io fh ID_BODY _) as [body' fh'] eqn:Hread.
  cbn [fst] in body. subst body.
  destruct (Nat.eqb_spec (length body') 0) as [|_]; [lia|].
  unfold store at 1.
  destruct (Nat.ltb_spec (length (destbuf bufs)) (length body')) as [|_]; [lia|].
  fold data. rewrite Hrun. unfold store at 1.
  destruct (Nat.ltb_spec (length (scratchbuf bufs)) (length (ByteRun.dest st)))
    as [|_]; [lia|].
  set (scratch' := ByteRun.dest st
                     ++ drop (length (ByteRun.dest st)) (scratchbuf bufs)).
  assert (Hlen' : length scratch' = length (scratchbuf bufs)).
  { unfold scratch'. rewrite length_app, length_drop. lia. }
  assert (Hdata : length data = length (destbuf bufs)).
  { unfold data. rewrite length_app, length_drop. lia. }
  unfold Convert_Body.
  assert (Hconv : Deinterleave.ILBM_To_MCGA scratch' (BMHD.BPlanes bmhd)
                  = Some (Deinterleave.chunky 320 200 n scratch')).
  { apply ILBM_To_MCGA_chunky; [exact HB|rewrite Hlen'; exact Hscratch]. }
  assert (Hpixels : length (Deinterleave.chunky 320 200 n scratch')
                    = Z.to_nat 64000).
  { unfold Deinterleave.chunky.
    rewrite (length_blocks (Deinterleave.chunky_row 320 n scratch') 320)
      by (intros; apply length_chunky_row).
    reflexivity. }
  destruct format; rewrite Hconv; unfold store; rewrite Hpixels;
    (destruct (Nat.ltb_spec (length data) (Z.to_nat 64000)) as [|_]; [lia|]);
    rewrite to_short_id by lia; rewrite Hpal;
    (eexists _, _; split; [reflexivity|]; split; [reflexivity|]; split;
     [intros row g k i Hrow Hg Hk;
      rewrite lookup_total_app_l by (rewrite Hpixels; lia);
      rewrite chunky_lookup by assumption;
      unfold Deinterleave.chunky_pixel; rewrite pixel_value_bits;
      reflexivity
     |rewrite drop_app_length' by exact (eq_sym Hpixels); reflexivity]).
Qed.

(** X13: the load of a PBM file that is not compressed, end to end. When
    the rows of the header cover at least the 64000 bytes of a picture and
    the buffers hold them, the picture in the destination buffer is the
    body as it was read, byte for byte: the destination ends as the body
    read left it, the scratch buffer starts with a copy of the rows, and
    the load returns the bitplane count. *)
Theorem plain_pbm_loaded (raw : list Z) (fh : handle io) (bufs : Buffers)
    (format : PicturePlaneType) :
  let bmhd := Header.Decode_BMHD raw in
  let body :=
    fst (Read_Iff_Chunk io fh ID_BODY (Z.of_nat (length (destbuf bufs)))) in
  let data := body ++ drop (length body) (destbuf bufs) in
  let total :=
    BMHD.H bmhd
    * ((BMHD.BPlanes bmhd + (if BMHD.Masking bmhd =? 1 then 1 else 0))
       * ByteRun.plane_width bmhd) in
  reads_header io FORM_PBM raw fh ->
  Check_BMHD bmhd = None ->
  palette bufs = None ->
  (0 < length body <= length (destbuf bufs))%nat ->
  BMHD.in_range bmhd ->
  BMHD.Compression bmhd <> 1 ->
  BMHD.H bmhd < 32768 ->
  64000 <= total ->
  total <= Z.of_nat (length (destbuf bufs)) ->
  total <= Z.of_nat (length (scratchbuf bufs)) ->
  Load_Picture io bufs format
  = Returned (BMHD.BPlanes bmhd) Loaded
      (Bufs (take (Z.to_nat total) data
               ++ drop (Z.to_nat total) (scratchbuf bufs))
            data None).
Proof.
  intros bmhd body data total Hreads Hcheck Hpal Hbody Hrange HC HH
         Htotal Hdest Hscratch.
  rewrite (Load_Picture_body FORM_PBM raw fh) by assumption.
  unfold Load_Body. fold bmhd.
  destruct (Read_Iff_Chunk io fh ID_BODY _) as [body' fh'] eqn:Hread.
  cbn [fst] in body. subst body.
  destruct (Nat.eqb_spec (length body') 0) as [|_]; [lia|].
  unfold store at 1.
  destruct (Nat.ltb_spec (length (destbuf bufs)) (length body')) as [|_]; [lia|].
  fold data.
  assert (Hdata : length data = length (destbuf bufs)).
  { unfold data. rewrite length_app, length_drop. lia. }
  destruct (Transfer_Body_plain bmhd data Hrange HC HH) as (st & Hrun & Hout & _).
  { fold total. rewrite Hdata. exact Hdest. }
  fold total in Hout. rewrite Hrun, Hout. unfold store at 1.
  rewrite length_take.
  destruct (Nat.ltb_spec (length (scratchbuf bufs))
              (Z.to_nat total `min` length data)) as [|_]; [lia|].
  replace (Z.to_nat total `min` length data)%nat with (Z.to_nat total) by lia.
  set (scratch' := take (Z.to_nat total) data
                     ++ drop (Z.to_nat total) (scratchbuf bufs)).
  assert (Hlen' : length scratch' = length (scratchbuf bufs)).
  { unfold scratch'. rewrite length_app, length_take, length_drop. lia. }
  assert (Htake : take (Z.to_nat 64000) scratch' = take (Z.to_nat 64000) data).
  { unfold scratch'. rewrite take_app_le by (rewrite length_take; lia).
    rewrite take_take. f_equal. lia. }
  unfold Convert_Body. destruct Hrange as [_ _ HB _ _].
  destruct format;
    (destruct (Z.ltb_spec (Z.of_nat (length scratch')) 64000) as [|_]; [lia|]);
    rewrite Htake; unfold store; rewrite length_take;
    (destruct (Nat.ltb_spec (length data) (Z.to_nat 64000 `min` length data))
       as [|_]; [lia|]);
    replace (Z.to_nat 64000 `min` length data)%nat with (Z.to_nat 64000) by lia;
    rewrite take_drop, to_short_id by lia; rewrite Hpal; reflexivity.
Qed.

(** X14: the palette conversion gives 6-bit values: every byte of a CMAP
    chunk comes out below 64, in the range of the MCGA colour registers. *)
Theorem palette_six_bits (format : PicturePlaneType) (cmap : list Z) :
  Forall is_byte cmap ->
  Forall (fun c => 0 <= c < 64) (Convert_CMAP format cmap).
Proof.
  intros Hbytes.
  assert (Hmap : Forall (fun c => 0 <= c < 64)
                        (map (fun b => Z.shiftr b 2) cmap)).
  { apply Forall_fmap. eapply Forall_impl; [exact Hbytes|].
    intros b Hb. unfold is_byte in Hb. unfold compose.
    rewrite Z.shiftr_div_pow2 by lia. change (2 ^ 2) with 4.
    split; [apply Z.div_pos; lia|apply Z.div_lt_upper_bound; lia]. }
  destruct format; exact Hmap.
Qed.

End PictureLoads.

(** * The further properties on sample inputs *)

Section TransferSamples.

Import CInt ByteRun Packets.

Lemma unmasked_round_trip_witness :
  Transfer_Body Cases.two_rows
    ([253; 7] ++ [128; 1; 1; 2; 255; 9] ++ [5])
  = Done (State [5] [7; 7; 7; 7; 1; 2; 9; 9] 0).
Proof.
  apply (unmasked_round_trip Cases.two_rows
           [[Packet 0 (Replicate 4 7)];
            [Packet 1 (Literal [1; 2]); Packet 0 (Replicate 2 9)]]
           [5]).
  - discriminate.
  - reflexivity.
  - reflexivity.
  - reflexivity.
  - repeat constructor.
Defined.

Lemma plain_body_copied_witness :
  exists st,
    Transfer_Body (Sample.header 1 0) [10; 11; 12] = Done st
    /\ dest st = [10; 11]
    /\ src st = [12].
Proof.
  apply (plain_body_copied (Sample.header 1 0) [10; 11; 12]).
  - constructor; vm_compute; split; discriminate || reflexivity.
  - discriminate.
  - reflexivity.
  - vm_compute. discriminate.
Defined.

Lemma tall_picture_not_transferred_witness :
  Transfer_Body Cases.tall [0; 10] = Done (State [0; 10] [] 0).
Proof.
  apply (tall_picture_not_transferred Cases.tall [0; 10]).
  vm_compute. split; discriminate || reflexivity.
Defined.

Lemma transfer_expansion_bound_witness :
  (length [9; 9; 9; 9] + 64 * length [77] <= 64 * length [253; 9; 77])%nat.
Proof.
  apply (transfer_expansion_bound (Sample.header 0 1) [253; 9; 77]
           (State [77] [9; 9; 9; 9] (-3))).
  right. reflexivity.
Defined.

Lemma transfer_reads_forward_witness : [77] `suffix_of` [253; 9; 77].
Proof.
  apply (transfer_reads_forward (Sample.header 0 1) [253; 9; 77]
           (State [77] [9; 9; 9; 9] (-3))).
  right. reflexivity.
Defined.

Lemma narrow_picture_empty_witness :
  exists st,
    Transfer_Body Cases.narrow [0; 10; 0; 11] = Done st
    /\ src st = [0; 10; 0; 11] /\ dest st = [].
Proof.
  apply (narrow_picture_empty Cases.narrow [0; 10; 0; 11]).
  - constructor; vm_compute; split; discriminate || reflexivity.
  - reflexivity.
Defined.

End TransferSamples.

Section ConversionSamples.

Import CInt Deinterleave.

Lemma picture_bytes : Forall is_byte Sample.picture.
Proof.
  unfold Sample.picture. constructor; [unfold is_byte; lia|].
  apply Forall_replicate. unfold is_byte. lia.
Defined.

Lemma picture_length : 8000 * 1 <= Z.of_nat (length Sample.picture).
Proof.
  unfold Sample.picture. cbn [length]. rewrite length_replicate. lia.
Defined.

Lemma pixels_below_colours_witness :
  Forall (fun pixel => 0 <= pixel < 2 ^ 1)
         (chunky 320 200 (Z.to_nat 1) Sample.picture).
Proof.
  apply (pixels_below_colours Sample.picture 1).
  - lia.
  - exact picture_length.
  - apply ILBM_To_MCGA_chunky; [lia|exact picture_length].
Defined.

Lemma too_many_planes_witness : ILBM_To_MCGA [1; 2; 3] 9 = None.
Proof. apply (too_many_planes [1; 2; 3] 9). lia. Defined.

Lemma conversion_injective_witness :
  take (Z.to_nat (8000 * 1)) Sample.picture
  = take (Z.to_nat (8000 * 1)) Sample.picture.
Proof.
  apply (conversion_injective Sample.picture Sample.picture 1).
  - lia.
  - exact picture_length.
  - exact picture_length.
  - exact picture_bytes.
  - exact picture_bytes.
  - reflexivity.
Defined.

End ConversionSamples.

Section LoadSamples.

Import CInt Loader Sample.

Lemma failed_load_untouched_witness :
  FALSE = FALSE /\ blank = blank.
Proof.
  apply (failed_load_untouched
           (io (ilbm [Chunk ID_BMHD (header_bytes 3 0)])) blank blank
           BM_MCGA FALSE Bad_Masking).
  - reflexivity.
  - discriminate.
  - discriminate.
Defined.

Lemma loaded_means_valid_header_witness :
  (exists fh0,
     Open_File (io Cases.ilbm_bare) = Some fh0
     /\ Read_File (io Cases.ilbm_bare) fh0 = ID_FORM)
  /\ (exists (fh fh' : list chunk) (raw : list Z),
        Read_Iff_Chunk (io Cases.ilbm_bare) fh ID_BMHD 20 = (raw, fh')
        /\ (20 <= length raw)%nat
        /\ BMHD.Masking (Header.Decode_BMHD raw) <= 2
        /\ BMHD.Compression (Header.Decode_BMHD raw) <= 1
        /\ 1 = to_short (BMHD.BPlanes (Header.Decode_BMHD raw))).
Proof.
  apply (loaded_means_valid_header (io Cases.ilbm_bare) blank blank
           BM_MCGA 1).
  reflexivity.
Defined.

Lemma ilbm_picture_loaded_witness :
  exists scratch' dest',
    Load_Picture (io Cases.ilbm_dot) blank BM_MCGA
    = Returned 1 Loaded (Bufs scratch' dest' None)
    /\ Z.testbit (dest' !!! 7%nat) 0 = Z.testbit (scratch' !!! 0%nat) 0.
Proof.
  pose (body := fst (Read_Iff_Chunk (io Cases.ilbm_dot) [Chunk ID_BODY [1]]
                       ID_BODY (Z.of_nat (length (destbuf blank))))).
  destruct (Transfer_Body_plain (Header.Decode_BMHD (header_bytes 0 0))
              (body ++ drop (length body) (destbuf blank)))
    as (st & Hrun & Hout & _).
  { constructor; vm_compute; split; discriminate || reflexivity. }
  { vm_compute. discriminate. }
  { vm_compute. reflexivity. }
  { vm_compute. discriminate. }
  destruct (ilbm_picture_loaded (io Cases.ilbm_dot) (header_bytes 0 0)
              [Chunk ID_BODY [1]] blank BM_MCGA st)
    as (scratch' & dest' & Hload & _ & Hbits & _).
  - apply sample_reads_header. reflexivity.
  - reflexivity.
  - reflexivity.
  - split; [apply Nat.ltb_lt|apply Nat.leb_le]; vm_compute; reflexivity.
  - exact Hrun.
  - rewrite Hout. apply Nat.leb_le. vm_compute. reflexivity.
  - vm_compute. split; discriminate.
  - vm_compute. discriminate.
  - vm_compute. discriminate.
  - exists scratch', dest'. split; [exact Hload|].
    apply (Hbits 0%nat 0%nat 7%nat 0%nat); lia.
Defined.

Lemma body_read_decides_witness :
  Load_Picture (io Cases.ilbm_bare) blank BM_MCGA = Returned 1 Loaded blank
  /\ (exists scratch' dest',
        Load_Picture (io Cases.ilbm_dot) blank BM_MCGA
        = Returned 1 Loaded (Bufs scratch' dest' None)
        /\ Deinterleave.ILBM_To_MCGA scratch' 1
           = Some (take (Z.to_nat 64000) dest')).
Proof.
  split.
  - apply (proj1 (proj2 (body_read_decides (io Cases.ilbm_bare) FORM_ILBM
                           BM_MCGA blank))
             (header_bytes 0 0) []).
    + apply sample_reads_header. reflexivity.
    + reflexivity.
    + vm_compute. split; [discriminate|reflexivity].
    + reflexivity.
    + reflexivity.
  - pose (body := fst (Read_Iff_Chunk (io Cases.ilbm_dot) [Chunk ID_BODY [1]]
                         ID_BODY (Z.of_nat (length (destbuf blank))))).
    destruct (Transfer_Body_plain (Header.Decode_BMHD (header_bytes 0 0))
                (body ++ drop (length body) (destbuf blank)))
      as (st & Hrun & Hout & _).
    { constructor; vm_compute; split; discriminate || reflexivity. }
    { vm_compute. discriminate. }
    { vm_compute. reflexivity. }
    { vm_compute. discriminate. }
    destruct (proj2 (proj2 (body_read_decides (io Cases.ilbm_dot) FORM_ILBM
                              BM_MCGA blank))
                (header_bytes 0 0) [Chunk ID_BODY [1]] st)
      as (scratch' & dest' & Hload & _ & Hconv & _).
    + apply sample_reads_header. reflexivity.
    + reflexivity.
    + reflexivity.
    + split; [apply Nat.ltb_lt|apply Nat.leb_le]; vm_compute; reflexivity.
    + exact Hrun.
    + rewrite Hout. apply Nat.leb_le. vm_compute. reflexivity.
    + vm_compute. split; discriminate.
    + vm_compute. discriminate.
    + vm_compute. discriminate.
    + exists scratch', dest'. split; [exact Hload|exact Hconv].
Defined.

Lemma plain_pbm_loaded_witness :
  exists scratch' dest',
    Load_Picture (io Cases.pbm_screen) blank BM_MCGA
    = Returned 8 Loaded (Bufs scratch' dest' None).
Proof.
  eexists _, _.
  apply (plain_pbm_loaded (io Cases.pbm_screen) Cases.screen_bytes
           [Chunk ID_BODY (replicate (Z.to_nat 64000) 7)] blank BM_MCGA).
  - exists (chunks Cases.pbm_screen), (chunks Cases.pbm_screen),
      (chunks Cases.pbm_screen), ID_PBM.
    repeat split; reflexivity.
  - reflexivity.
  - reflexivity.
  - split; [apply Nat.ltb_lt|apply Nat.leb_le]; vm_compute; reflexivity.
  - constructor; vm_compute; split; discriminate || reflexivity.
  - vm_compute. discriminate.
  - vm_compute. reflexivity.
  - vm_compute. discriminate.
  - vm_compute. discriminate.
  - vm_compute. discriminate.
Defined.

Lemma palette_six_bits_witness :
  Forall (fun c => 0 <= c < 64) (Convert_CMAP BM_MCGA [255; 128; 7]).
Proof.
  apply (palette_six_bits BM_MCGA [255; 128; 7]).
  repeat constructor; discriminate.
Defined.

End LoadSamples.

(** * The header, field by field *)

Section HeaderFields.

Import CInt Header.

(** X15: taking [Reverse_Short] to exchange the two bytes of a 16-bit
    value, the header decoded from any BMHD chunk of 20 bytes holds the
    big-endian value of the chunk's bytes in W, H, X, Y, PageWidth and
    PageHeight; the bitplane count, masking, compression and pad bytes as
    they are; the two aspect bytes in each other's place; and Transparent
    with its two bytes in host order, the second being the high one. *)
Theorem header_fields_decoded (raw : list Z) :
  length raw = 20%nat -> Forall is_byte raw ->
  let r (i : nat) := raw !!! i in
  Decode_BMHD raw
  = BMHD.Build
      (big_endian16 (r 0%nat) (r 1%nat))
      (big_endian16 (r 2%nat) (r 3%nat))
      (to_short (big_endian16 (r 4%nat) (r 5%nat)))
      (to_short (big_endian16 (r 6%nat) (r 7%nat)))
      (r 8%nat) (r 9%nat) (r 10%nat) (r 11%nat)
      (host16 (r 12%nat) (r 13%nat))
      (r 15%nat)
      (r 14%nat)
      (to_short (big_endian16 (r 16%nat) (r 17%nat)))
      (to_short (big_endian16 (r 18%nat) (r 19%nat))).
Proof. exact (Decode_BMHD_fields raw). Qed.

Lemma header_fields_decoded_witness :
  Decode_BMHD Cases.screen_bytes
  = BMHD.Build 320 200 0 0 8 0 0 0 0 11 10 320 200.
Proof.
  apply (header_fields_decoded Cases.screen_bytes).
  - reflexivity.
  - repeat constructor; discriminate.
Defined.

End HeaderFields.

(** * The conversion of ILBM rows to Amiga bitplanes *)

Section AmigaFacts.

Import CInt AmigaArt.

Lemma fetch_inside (buf : list Z) (at_ n : Z) :
  0 <= at_ -> 0 <= n -> at_ + n <= Z.of_nat (length buf) ->
  exists line,
    fetch buf at_ n = Some line
    /\ forall j, 0 <= j < n ->
         line !!! Z.to_nat j = buf !!! Z.to_nat (at_ + j).
Proof.
  intros Hat Hn Hlen. unfold fetch.
  destruct (Z.ltb_spec at_ 0); [lia|].
  destruct (Z.ltb_spec (Z.of_nat (length buf)) (at_ + n)); [lia|].
  cbn [orb]. eexists. split; [reflexivity|]. intros j Hj.
  rewrite !list_lookup_total_alt, lookup_take_lt, lookup_drop by lia.
  do 2 f_equal. lia.
Qed.

Lemma place_inside (buf data : list Z) (at_ : Z) :
  0 <= at_ -> at_ + Z.of_nat (length data) <= Z.of_nat (length buf) ->
  exists buf',
    place buf at_ data = Some buf'
    /\ length buf' = length buf
    /\ (forall j, 0 <= j < Z.of_nat (length data) ->
          buf' !!! Z.to_nat (at_ + j) = data !!! Z.to_nat j)
    /\ (forall i, 0 <= i ->
          ~ (at_ <= i < at_ + Z.of_nat (length data)) ->
          buf' !!! Z.to_nat i = buf !!! Z.to_nat i).
Proof.
  intros Hat Hlen. unfold place.
  destruct (Z.ltb_spec at_ 0); [lia|].
  destruct (Z.ltb_spec (Z.of_nat (length buf))
              (at_ + Z.of_nat (length data))); [lia|].
  cbn [orb]. eexists. split; [reflexivity|]. split; [|split].
  - rewrite !length_app, length_take, length_drop. lia.
  - intros j Hj.
    rewrite lookup_total_app_r by (rewrite length_take; lia).
    rewrite length_take.
    rewrite lookup_total_app_l by lia. f_equal. lia.
  - intros i Hi Hout. destruct (Z.ltb_spec i at_) as [Hlow|Hhigh].
    + rewrite lookup_total_app_l by (rewrite length_take; lia).
      rewrite !list_lookup_total_alt, lookup_take_lt by lia. reflexivity.
    + rewrite lookup_total_app_r by (rewrite length_take; lia).
      rewrite length_take.
      rewrite lookup_total_app_r by lia.
      rewrite !list_lookup_total_alt, lookup_drop. do 2 f_equal. lia.
Qed.

Variable src : list Z.

(** The planes of one row: plane [p] goes 8000 bytes after plane [p - 1]
    in the destination and comes 40 bytes after it in the source. *)
Lemma copy_planes_layout (dstptr : Z) (todo : nat) :
  0 <= dstptr ->
  forall (bp srcptr : Z) (dest : list Z),
  0 <= bp -> 0 <= srcptr ->
  srcptr + 40 * Z.of_nat todo <= Z.of_nat (length src) ->
  (todo = 0%nat
   \/ dstptr + 8000 * (bp + Z.of_nat todo - 1) + 40
      <= Z.of_nat (length dest)) ->
  exists dest',
    copy_planes todo bp src srcptr dstptr dest
    = Some (srcptr + 40 * Z.of_nat todo, dest')
    /\ length dest' = length dest
    /\ (forall p j, bp <= p < bp + Z.of_nat todo -> 0 <= j < 40 ->
          dest' !!! Z.to_nat (dstptr + 8000 * p + j)
          = src !!! Z.to_nat (srcptr + 40 * (p - bp) + j))
    /\ (forall i, 0 <= i ->
          (forall p, bp <= p < bp + Z.of_nat todo ->
             ~ (dstptr + 8000 * p <= i < dstptr + 8000 * p + 40)) ->
          dest' !!! Z.to_nat i = dest !!! Z.to_nat i).
Proof.
  intros Hdst. induction todo as [|todo IH];
    intros bp srcptr dest Hbp Hsrc Hlen Hroom.
  - exists dest. cbn [copy_planes]. rewrite Z.add_0_r.
    repeat split; intros; lia || reflexivity.
  - cbn [copy_planes].
    destruct (fetch_inside src srcptr 40) as (line & Hfetch & Hline);
      [lia|lia|lia|].
    assert (Hll : length line = 40%nat).
    { unfold fetch in Hfetch.
      destruct (_ || _); [discriminate Hfetch|].
      injection Hfetch as <-. rewrite length_take, length_drop. lia. }
    rewrite Hfetch.
    destruct (place_inside dest line (dstptr + 8000 * bp))
      as (dest1 & Hplace & Hl1 & Hin1 & Hout1); [lia|rewrite Hll; lia|].
    rewrite Hplace. rewrite Hll in Hin1, Hout1.
    destruct (IH (bp + 1) (srcptr + 40) dest1)
      as (dest' & Hcopy & Hl' & Hin' & Hout'); [lia|lia|lia| |].
    { destruct todo; [left; reflexivity|right; rewrite Hl1; lia]. }
    exists dest'. rewrite Hcopy. split; [do 2 f_equal; lia|].
    split; [lia|]. split.
    + intros p j Hp Hj. destruct (Z.eq_dec p bp) as [->|Hne].
      * rewrite Hout' by (try intros q Hq; lia).
        rewrite Hin1 by lia. rewrite Hline by lia. f_equal. lia.
      * rewrite Hin' by lia. f_equal. lia.
    + intros i Hi Hfree. rewrite Hout'.
      * apply Hout1; [exact Hi|]. specialize (Hfree bp). lia.
      * exact Hi.
      * intros q Hq. apply Hfree. lia.
Qed.

(** The rows from [row] on: each row takes [40 * n] bytes of the source
    and moves the destination pointer 40 bytes on. *)
Lemma copy_rows_layout (n : Z) (todo : nat) :
  0 <= n ->
  forall (row : Z) (dest : list Z),
  0 <= row -> row + Z.of_nat todo <= 200 ->
  40 * n * (row + Z.of_nat todo) <= Z.of_nat (length src) ->
  8000 * n <= Z.of_nat (length dest) ->
  exists dest',
    copy_rows todo n src (40 * n * row) (40 * row) dest = Some dest'
    /\ length dest' = length dest
    /\ (forall r p j,
          row <= r < row + Z.of_nat todo -> 0 <= p < n -> 0 <= j < 40 ->
          dest' !!! Z.to_nat (8000 * p + 40 * r + j)
          = src !!! Z.to_nat ((r * n + p) * 40 + j))
    /\ (forall i, 0 <= i ->
          (forall r p, row <= r < row + Z.of_nat todo -> 0 <= p < n ->
             ~ (8000 * p + 40 * r <= i < 8000 * p + 40 * r + 40)) ->
          dest' !!! Z.to_nat i = dest !!! Z.to_nat i).
Proof.
  intros Hn. induction todo as [|todo IH]; intros row dest Hrow Hlast Hsrc Hdest.
  - exists dest. cbn [copy_rows]. repeat split; intros; lia || reflexivity.
  - cbn [copy_rows].
    destruct (copy_planes_layout (40 * row) (Z.to_nat n) ltac:(lia)
                0 (40 * n * row) dest)
      as (dest1 & Hplanes & Hl1 & Hin1 & Hout1); [lia|nia|nia| |].
    { destruct (Z.to_nat n) eqn:E; [left; reflexivity|right; nia]. }
    rewrite Hplanes. rewrite Z2Nat.id in Hin1, Hout1 by lia.
    replace (40 * n * row + 40 * Z.of_nat (Z.to_nat n))
      with (40 * n * (row + 1)) by nia.
    replace (40 * row + 40) with (40 * (row + 1)) by lia.
    destruct (IH (row + 1) dest1) as (dest' & Hrows & Hl' & Hin' & Hout');
      [lia|lia|nia|lia|].
    exists dest'. rewrite Hrows. split; [reflexivity|]. split; [lia|]. split.
    + intros r p j Hr Hp Hj. destruct (Z.eq_dec r row) as [->|Hne].
      * rewrite Hout' by (try intros r' p' Hr' Hp'; lia).
        replace (8000 * p + 40 * row + j) with (40 * row + 8000 * p + j) by lia.
        rewrite Hin1 by lia. f_equal. nia.
      * apply Hin'; lia.
    + intros i Hi Hfree. rewrite Hout'.
      * apply Hout1; [exact Hi|]. intros p Hp.
        specialize (Hfree row p). lia.
      * exact Hi.
      * intros r p Hr Hp. apply Hfree; lia.
Qed.

(** X16: [ILBM_To_Amiga] sorts the interleaved rows into planes of 8000
    bytes: for any number of planes, a source holding the 200 rows and a
    destination holding the planes, byte [j] of row [r] of plane [p] of
    the destination is byte [j] of plane [p] of row [r] of the source;
    the destination keeps its size, and what lies behind the planes is
    left as it was. *)
Theorem ILBM_To_Amiga_layout (dest : list Z) (planes : Z) :
  0 <= planes ->
  8000 * planes <= Z.of_nat (length src) ->
  8000 * planes <= Z.of_nat (length dest) ->
  exists dest',
    ILBM_To_Amiga src dest planes = Some dest'
    /\ length dest' = length dest
    /\ (forall r p j, 0 <= r < 200 -> 0 <= p < planes -> 0 <= j < 40 ->
          dest' !!! Z.to_nat (8000 * p + 40 * r + j)
          = src !!! Z.to_nat ((r * planes + p) * 40 + j))
    /\ (forall i, 8000 * planes <= i ->
          dest' !!! Z.to_nat i = dest !!! Z.to_nat i).
Proof.
  intros Hplanes Hsrc Hdest. unfold ILBM_To_Amiga.
  destruct (copy_rows_layout planes 200 Hplanes 0 dest)
    as (dest' & Hrows & Hl & Hin & Hout); [lia|lia|lia|lia|].
  rewrite Z.mul_0_r in Hrows. change (40 * 0) with 0 in Hrows.
  exists dest'. split; [exact Hrows|]. split; [exact Hl|]. split.
  - intros r p j Hr Hp Hj. apply Hin; lia.
  - intros i Hi. apply Hout; [lia|]. intros r p Hr Hp. lia.
Qed.

End AmigaFacts.

Section AmigaSamples.

Import AmigaArt.

Lemma ILBM_To_Amiga_layout_witness :
  exists dest',
    ILBM_To_Amiga Sample.picture (replicate (Z.to_nat 8001) 9) 1 = Some dest'
    /\ dest' !!! 0%nat = 1
    /\ dest' !!! Z.to_nat 8000 = 9.
Proof.
  destruct (ILBM_To_Amiga_layout Sample.picture
              (replicate (Z.to_nat 8001) 9) 1)
    as (dest' & Hrun & _ & Hin & Hout).
  - lia.
  - exact picture_length.
  - rewrite length_replicate. lia.
  - exists dest'. split; [exact Hrun|]. split.
    + apply (Hin 0 0 0); lia.
    + rewrite (Hout 8000) by lia.
      apply lookup_total_replicate_2. lia.
Defined.

End AmigaSamples.

(** * The conversion of packed pixels to Amiga bitplanes *)

Section PlotFacts.

Import CInt AmigaArt.

Lemma land_pow2 (c k : Z) :
  0 <= k -> Z.land c (2 ^ k) = if Z.testbit c k then 2 ^ k else 0.
Proof.
  intros Hk. apply Z.bits_inj'. intros j Hj. rewrite Z.land_spec.
  rewrite Z.pow2_bits_eqb by lia.
  destruct (Z.eqb_spec k j) as [<-|Hne].
  - rewrite andb_true_r. destruct (Z.testbit c k).
    + rewrite Z.pow2_bits_true by lia. reflexivity.
    + rewrite Z.bits_0. reflexivity.
  - rewrite andb_false_r. destruct (Z.testbit c k).
    + rewrite Z.pow2_bits_false by lia. reflexivity.
    + rewrite Z.bits_0. reflexivity.
Qed.

(** The test of line 282 reads bit [bit] of the pixel. *)
Lemma plane_test (value bit : Z) :
  0 <= bit <= 30 ->
  negb (Z.land value (to_int (Z.shiftl 1 bit)) =? 0) = Z.testbit value bit.
Proof.
  intros Hbit. rewrite Z.shiftl_1_l.
  assert (Hpow : 0 < 2 ^ bit <= 2 ^ 30)
    by (split; [apply Z.pow_pos_nonneg; lia|apply Z.pow_le_mono_r; lia]).
  rewrite to_int_id by (unfold INT_MIN, INT_MAX; lia).
  rewrite land_pow2 by lia.
  destruct (Z.testbit value bit).
  - destruct (Z.eqb_spec (2 ^ bit) 0); [lia|reflexivity].
  - reflexivity.
Qed.

(** The mask of line 283 has the bit of the pixel's place in its byte. *)
Lemma pixel_mask (col : Z) :
  0 <= col -> Z.shiftr 128 (Z.land col 7) = 2 ^ (7 - col mod 8).
Proof.
  intros Hcol. change 7 with (Z.ones 3) at 1. rewrite Z.land_ones by lia.
  change (2 ^ 3) with 8. pose proof (Z.mod_pos_bound col 8 ltac:(lia)) as Hm.
  change 128 with (2 ^ 7). rewrite Z.shiftr_div_pow2 by lia.
  rewrite <- Z.pow_sub_r by lia. reflexivity.
Qed.

Lemma uchar_range (c : Z) : 0 <= to_uchar c < 256.
Proof. unfold to_uchar, wrap_unsigned. apply Z.mod_pos_bound. lia. Qed.

Lemma uchar_low_bits (c j : Z) :
  0 <= j < 8 -> Z.testbit (to_uchar c) j = Z.testbit c j.
Proof.
  intros Hj. unfold to_uchar, wrap_unsigned. apply Z.mod_pow2_bits_low. lia.
Qed.

Variable src : list Z.
Variable planes : Z.
Hypothesis planes_range : 0 <= planes <= 5.

(** A plane whose bit is clear in the pixel needs no write. *)
Lemma drawn_skip (dest : list Z) (pix bit : Z) :
  drawn src dest planes pix bit ->
  Z.testbit (src !!! Z.to_nat pix) bit = false ->
  drawn src dest planes pix (bit + 1).
Proof.
  intros Hdrawn Hclear b r c m Hb Hr Hc Hm.
  destruct (Hdrawn b r c m Hb Hr Hc Hm) as [Hrange Hbits].
  split; [exact Hrange|]. rewrite Hbits.
  destruct (Z.eqb_spec (320 * r + 8 * c + m) pix) as [Hp|Hp];
    [|rewrite !andb_false_l; reflexivity].
  destruct (Z.ltb_spec b bit); destruct (Z.ltb_spec b (bit + 1));
    try lia; try reflexivity.
  assert (b = bit) by lia. subst b. rewrite Hp, Hclear.
  rewrite !andb_false_r. reflexivity.
Qed.

(** A plane whose bit is set in the pixel gets the bit of the pixel. *)
Lemma light_drawn (dest : list Z) (row col bit : Z) :
  0 <= row < 200 -> 0 <= col < 320 -> 0 <= bit < planes ->
  64000 <= Z.of_nat (length dest) ->
  drawn src dest planes (320 * row + col) bit ->
  Z.testbit (src !!! Z.to_nat (320 * row + col)) bit = true ->
  exists dest',
    light dest (40 * row + to_short (8000 * bit + Z.shiftr col 3))
          (Z.shiftr 128 (Z.land col 7)) = Some dest'
    /\ length dest' = length dest
    /\ drawn src dest' planes (320 * row + col) (bit + 1)
    /\ (forall i, 64000 <= i -> dest' !!! Z.to_nat i = dest !!! Z.to_nat i).
Proof.
  intros Hrow Hcol Hbit Hlen Hdrawn Hset.
  rewrite Z.shiftr_div_pow2 by lia. change (2 ^ 3) with 8.
  pose proof (Z.div_mod col 8 ltac:(lia)) as Hdm.
  pose proof (Z.mod_pos_bound col 8 ltac:(lia)) as Hm0.
  set (c0 := col / 8) in *. set (m0 := col mod 8) in *.
  assert (Hc0 : 0 <= c0 < 40) by lia.
  rewrite to_short_id by lia. rewrite pixel_mask by lia. fold m0.
  set (at_ := 40 * row + (8000 * bit + c0)).
  unfold light.
  destruct (Z.ltb_spec at_ 0); [lia|].
  destruct (Z.leb_spec (Z.of_nat (length dest)) at_); [lia|].
  cbn [orb]. eexists. split; [reflexivity|].
  split; [apply length_insert|]. split.
  - intros b r c m Hb Hr Hc Hm.
    destruct (Hdrawn b r c m Hb Hr Hc Hm) as [Hrange Hbits].
    destruct (Z.eq_dec (8000 * b + 40 * r + c) at_) as [Hsame|Hother].
    + assert (b = bit /\ r = row /\ c = c0) as (-> & -> & ->) by lia.
      replace (8000 * bit + 40 * row + c0) with at_ in * by lia.
      rewrite list_lookup_total_insert_eq by lia.
      split; [apply uchar_range|].
      rewrite uchar_low_bits by lia. rewrite Z.lor_spec, Hbits.
      rewrite Z.pow2_bits_eqb by lia.
      replace (320 * row + col) with (320 * row + 8 * c0 + m0) in * by lia.
      destruct (Z.ltb_spec bit planes); [|lia].
      destruct (Z.ltb_spec bit bit); [lia|].
      destruct (Z.ltb_spec bit (bit + 1)); [|lia].
      destruct (Z.eqb_spec (7 - m0) (7 - m)) as [Hmm|Hmm].
      * assert (m = m0) by lia. subst m. rewrite Hset.
        destruct (Z.eqb_spec (320 * row + 8 * c0 + m0)
                    (320 * row + 8 * c0 + m0)); [|lia].
        rewrite !orb_true_r. reflexivity.
      * destruct (Z.eqb_spec (320 * row + 8 * c0 + m)
                    (320 * row + 8 * c0 + m0)); [lia|].
        rewrite !andb_false_l, !orb_false_r. reflexivity.
    + rewrite list_lookup_total_insert_ne by lia.
      split; [exact Hrange|]. rewrite Hbits.
      destruct (Z.eqb_spec (320 * r + 8 * c + m) (320 * row + col)) as [Hp|Hp];
        [|rewrite !andb_false_l; reflexivity].
      assert (r = row /\ c = c0 /\ m = m0) as (-> & -> & ->) by lia.
      destruct (Z.ltb_spec b bit); destruct (Z.ltb_spec b (bit + 1));
        try lia; try reflexivity.
  - intros i Hi. apply list_lookup_total_insert_ne. lia.
Qed.

End PlotFacts.

Section PlotLoops.

Import CInt AmigaArt.

Variable src : list Z.
Variable planes : Z.
Hypothesis planes_range : 0 <= planes <= 5.
Hypothesis src_length : 64000 <= Z.of_nat (length src).

Lemma plot_drawn (row col : Z) (todo : nat) :
  0 <= row < 200 -> 0 <= col < 320 ->
  forall (bit : Z) (dest : list Z),
  0 <= bit -> bit + Z.of_nat todo = planes ->
  64000 <= Z.of_nat (length dest) ->
  drawn src dest planes (320 * row + col) bit ->
  exists dest',
    plot todo bit (src !!! Z.to_nat (320 * row + col)) col (40 * row) dest
    = Some dest'
    /\ length dest' = length dest
    /\ drawn src dest' planes (320 * row + col) planes
    /\ (forall i, 64000 <= i -> dest' !!! Z.to_nat i = dest !!! Z.to_nat i).
Proof.
  intros Hrow Hcol. induction todo as [|todo IH];
    intros bit dest Hbit Hend Hlen Hdrawn.
  - exists dest. cbn [plot]. assert (Hfull : bit = planes) by lia.
    rewrite Hfull in Hdrawn.
    split; [reflexivity|]. split; [reflexivity|]. split; [exact Hdrawn|]. reflexivity.
  - cbn [plot]. destruct (Z.ltb_spec 31 bit) as [|_]; [lia|].
    rewrite plane_test by lia.
    destruct (Z.testbit (src !!! Z.to_nat (320 * row + col)) bit) eqn:Hset.
    + destruct (light_drawn src planes planes_range dest row col bit)
        as (dest1 & Hlight & Hl1 & Hd1 & Hout1); try assumption; [lia|].
      rewrite Hlight.
      destruct (IH (bit + 1) dest1) as (dest' & Hplot & Hl' & Hd' & Hout');
        [lia|lia|lia|exact Hd1|].
      exists dest'. split; [exact Hplot|]. split; [lia|].
      split; [exact Hd'|]. intros i Hi. rewrite Hout', Hout1 by lia.
      reflexivity.
    + apply IH; [lia|lia|exact Hlen|].
      apply drawn_skip; assumption.
Qed.

(** When all planes of a pixel are done, the pixel is done. *)
Lemma drawn_next (dest : list Z) (pix : Z) :
  drawn src dest planes pix planes -> drawn src dest planes (pix + 1) 0.
Proof.
  intros Hdrawn b r c m Hb Hr Hc Hm.
  destruct (Hdrawn b r c m Hb Hr Hc Hm) as [Hrange Hbits].
  split; [exact Hrange|]. rewrite Hbits.
  destruct (Z.ltb_spec b planes); [|reflexivity].
  destruct (Z.ltb_spec b 0); [lia|].
  destruct (Z.ltb_spec (320 * r + 8 * c + m) pix);
    destruct (Z.ltb_spec (320 * r + 8 * c + m) (pix + 1));
    destruct (Z.eqb_spec (320 * r + 8 * c + m) pix);
    destruct (Z.eqb_spec (320 * r + 8 * c + m) (pix + 1));
    try lia; reflexivity.
Qed.

Lemma plot_cols_drawn (row : Z) (todo : nat) :
  0 <= row < 200 ->
  forall (col : Z) (dest : list Z),
  0 <= col -> col + Z.of_nat todo <= 320 ->
  64000 <= Z.of_nat (length dest) ->
  drawn src dest planes (320 * row + col) 0 ->
  exists dest',
    plot_cols todo col planes src (320 * row + col) (40 * row) dest
    = Some (320 * row + col + Z.of_nat todo, dest')
    /\ length dest' = length dest
    /\ drawn src dest' planes (320 * row + col + Z.of_nat todo) 0
    /\ (forall i, 64000 <= i -> dest' !!! Z.to_nat i = dest !!! Z.to_nat i).
Proof.
  intros Hrow. induction todo as [|todo IH]; intros col dest Hcol Hend Hlen Hdrawn.
  - exists dest. cbn [plot_cols]. rewrite Z.add_0_r.
    split; [reflexivity|]. split; [reflexivity|]. split; [exact Hdrawn|]. reflexivity.
  - cbn [plot_cols].
    assert (Hpeek : Deinterleave.peek src (320 * row + col)
                    = Some (src !!! Z.to_nat (320 * row + col))).
    { rewrite <- (Z2Nat.id (320 * row + col)) at 1 by lia.
      apply peek_inside. lia. }
    rewrite Hpeek.
    destruct (plot_drawn row col (Z.to_nat planes) Hrow ltac:(lia) 0 dest)
      as (dest1 & Hplot & Hl1 & Hd1 & Hout1); [lia|lia|exact Hlen|exact Hdrawn|].
    rewrite Hplot.
    apply drawn_next in Hd1.
    replace (320 * row + col + 1) with (320 * row + (col + 1)) in * by lia.
    destruct (IH (col + 1) dest1) as (dest' & Hcols & Hl' & Hd' & Hout');
      [lia|lia|lia|exact Hd1|].
    rewrite Hcols. exists dest'. split; [do 2 f_equal; lia|]. split; [lia|].
    split.
    + replace (320 * row + col + Z.of_nat (S todo))
        with (320 * row + (col + 1) + Z.of_nat todo) by lia. exact Hd'.
    + intros i Hi. rewrite Hout', Hout1 by lia. reflexivity.
Qed.

Lemma plot_rows_drawn (todo : nat) :
  forall (row : Z) (dest : list Z),
  0 <= row -> row + Z.of_nat todo <= 200 ->
  64000 <= Z.of_nat (length dest) ->
  drawn src dest planes (320 * row) 0 ->
  exists dest',
    plot_rows todo planes src (320 * row) (40 * row) dest = Some dest'
    /\ length dest' = length dest
    /\ drawn src dest' planes (320 * (row + Z.of_nat todo)) 0
    /\ (forall i, 64000 <= i -> dest' !!! Z.to_nat i = dest !!! Z.to_nat i).
Proof.
  induction todo as [|todo IH]; intros row dest Hrow Hend Hlen Hdrawn.
  - exists dest. cbn [plot_rows]. rewrite Z.add_0_r.
    split; [reflexivity|]. split; [reflexivity|]. split; [exact Hdrawn|]. reflexivity.
  - cbn [plot_rows].
    destruct (plot_cols_drawn row 320 ltac:(lia) 0 dest)
      as (dest1 & Hcols & Hl1 & Hd1 & Hout1); [lia|lia|exact Hlen| |].
    { rewrite Z.add_0_r. exact Hdrawn. }
    rewrite Z.add_0_r in Hcols, Hd1. rewrite Hcols.
    change (Z.of_nat 320) with 320 in *.
    replace (320 * row + 320) with (320 * (row + 1)) in * by lia.
    replace (40 * row + 40) with (40 * (row + 1)) by lia.
    destruct (IH (row + 1) dest1) as (dest' & Hrows & Hl' & Hd' & Hout');
      [lia|lia|lia|exact Hd1|].
    rewrite Hrows. exists dest'. split; [reflexivity|]. split; [lia|]. split.
    + replace (row + Z.of_nat (S todo)) with (row + 1 + Z.of_nat todo) by lia.
      exact Hd'.
    + intros i Hi. rewrite Hout', Hout1 by lia. reflexivity.
Qed.

End PlotLoops.

Section PlotPicture.

Import CInt AmigaArt.

(** The whole of [PBM_To_Amiga] on a picture of at most five planes. *)
Lemma PBM_To_Amiga_drawn (src dest : list Z) (planes : Z) :
  0 <= planes <= 5 ->
  64000 <= Z.of_nat (length src) ->
  64000 <= Z.of_nat (length dest) ->
  exists dest',
    PBM_To_Amiga src dest planes = Some dest'
    /\ length dest' = length dest
    /\ drawn src dest' planes 64000 0
    /\ (forall i, 64000 <= i -> dest' !!! Z.to_nat i = dest !!! Z.to_nat i).
Proof.
  intros Hplanes Hsrc Hdest. unfold PBM_To_Amiga.
  destruct (Z.ltb_spec (Z.of_nat (length dest)) 64000) as [|_]; [lia|].
  set (dest0 := replicate (Z.to_nat 64000) 0 ++ drop (Z.to_nat 64000) dest).
  assert (Hl0 : length dest0 = length dest).
  { unfold dest0. rewrite length_app, length_replicate, length_drop. lia. }
  assert (Hclear : forall i, 0 <= i < 64000 -> dest0 !!! Z.to_nat i = 0).
  { intros i Hi. unfold dest0.
    rewrite lookup_total_app_l by (rewrite length_replicate; lia).
    apply lookup_total_replicate_2. lia. }
  assert (Hkept : forall i, 64000 <= i ->
                    dest0 !!! Z.to_nat i = dest !!! Z.to_nat i).
  { intros i Hi. unfold dest0.
    rewrite lookup_total_app_r by (rewrite length_replicate; lia).
    rewrite length_replicate, lookup_total_drop. f_equal. lia. }
  destruct (plot_rows_drawn src planes Hplanes Hsrc 200 0 dest0)
    as (dest' & Hrows & Hl & Hd & Hout); [lia|lia|lia| |].
  { intros b r c m Hb Hr Hc Hm. rewrite Hclear by lia.
    split; [lia|]. rewrite Z.bits_0.
    destruct (Z.ltb_spec (320 * r + 8 * c + m) (320 * 0)); [lia|].
    destruct (Z.ltb_spec b 0); [lia|].
    rewrite andb_false_r, andb_false_r. reflexivity. }
  exists dest'. split; [exact Hrows|]. split; [lia|]. split; [exact Hd|].
  intros i Hi. rewrite Hout, Hkept by lia. reflexivity.
Qed.

(** X17: [PBM_To_Amiga] turns packed pixels into bitplanes: for at most
    five planes, a source of 64000 pixels and a destination of 64000
    bytes, the call completes, and bit [7 - m] of byte [c] of row [r] of
    plane [b] of the destination is bit [b] of pixel [8 * c + m] of row
    [r] when [b] is below [planes] and is clear in the other planes of
    the 64000 bytes, whatever the destination held; the destination keeps
    its size and what lies behind the 64000 bytes. *)
Theorem PBM_To_Amiga_planes (src dest : list Z) (planes : Z) :
  0 <= planes <= 5 ->
  64000 <= Z.of_nat (length src) ->
  64000 <= Z.of_nat (length dest) ->
  exists dest',
    PBM_To_Amiga src dest planes = Some dest'
    /\ length dest' = length dest
    /\ (forall b r c m,
          0 <= b < 8 -> 0 <= r < 200 -> 0 <= c < 40 -> 0 <= m < 8 ->
          Z.testbit (dest' !!! Z.to_nat (8000 * b + 40 * r + c)) (7 - m)
          = (b <? planes)
            && Z.testbit (src !!! Z.to_nat (320 * r + 8 * c + m)) b)
    /\ (forall i, 64000 <= i -> dest' !!! Z.to_nat i = dest !!! Z.to_nat i).
Proof.
  intros Hplanes Hsrc Hdest.
  destruct (PBM_To_Amiga_drawn src dest planes Hplanes Hsrc Hdest)
    as (dest' & Hrun & Hl & Hd & Hout).
  exists dest'. split; [exact Hrun|]. split; [exact Hl|]. split; [|exact Hout].
  intros b r c m Hb Hr Hc Hm.
  destruct (Hd b r c m Hb Hr Hc Hm) as [_ Hbits]. rewrite Hbits.
  destruct (Z.ltb_spec (320 * r + 8 * c + m) 64000); [|lia].
  rewrite orb_true_l, andb_true_r. reflexivity.
Qed.

Lemma light_before (dest : list Z) (at_ mask : Z) :
  at_ < 0 -> light dest at_ mask = None.
Proof.
  intros Hat. unfold light. destruct (Z.ltb_spec at_ 0); [reflexivity|lia].
Qed.

Lemma to_short_high (z : Z) : 2 ^ 15 <= z < 2 ^ 16 -> to_short z = z - 2 ^ 16.
Proof.
  unfold to_short, wrap_signed. change (16 - 1) with 15. intros Hz.
  assert (Hmod : z + 2 ^ 15 - 2 ^ 16 = (z + 2 ^ 15) mod 2 ^ 16)
    by (apply Z.mod_unique_pos with (q := 1); lia).
  lia.
Qed.

(** A pixel with one of the bits 5 to 7 set, in a plane that is asked for:
    the offset of the plane, 40000 and more, is negative as a [short]. *)
Lemma plot_fails (value col destptr b : Z) (todo : nat) :
  0 <= destptr <= 7960 -> 0 <= col < 320 -> 5 <= b <= 7 ->
  Z.testbit value b = true ->
  forall (bit : Z) (dest : list Z),
  0 <= bit <= b -> b < bit + Z.of_nat todo ->
  plot todo bit value col destptr dest = None.
Proof.
  intros Hptr Hcol Hb Hset. induction todo as [|todo IH];
    intros bit dest Hbit Hend; [lia|].
  cbn [plot]. destruct (Z.ltb_spec 31 bit) as [|_]; [lia|].
  destruct (Z.eq_dec bit b) as [->|Hne].
  - rewrite plane_test by lia. rewrite Hset.
    rewrite light_before; [reflexivity|].
    rewrite Z.shiftr_div_pow2 by lia. change (2 ^ 3) with 8.
    assert (Hc : 0 <= col / 8 < 40)
      by (split; [apply Z.div_pos; lia|apply Z.div_lt_upper_bound; lia]).
    rewrite to_short_high by lia. lia.
  - destruct (negb (Z.land value (to_int (Z.shiftl 1 bit)) =? 0)).
    + destruct (light dest _ _); [apply IH; lia|reflexivity].
    + apply IH; lia.
Qed.

Lemma peek_value (buf : list Z) (at_ value : Z) :
  Deinterleave.peek buf at_ = Some value -> value = buf !!! Z.to_nat at_.
Proof.
  unfold Deinterleave.peek. destruct (at_ <? 0); [intros H; discriminate H|].
  intros H. symmetry. apply list_lookup_total_correct. exact H.
Qed.

Lemma plot_cols_fails (src : list Z) (planes destptr b : Z) (todo : nat) :
  0 <= destptr <= 7960 -> 5 <= b <= 7 -> b < planes ->
  forall (col srcptr k : Z) (dest : list Z),
  0 <= col -> 0 <= k < Z.of_nat todo -> col + k < 320 -> 0 <= srcptr ->
  Z.testbit (src !!! Z.to_nat (srcptr + k)) b = true ->
  plot_cols todo col planes src srcptr destptr dest = None.
Proof.
  intros Hptr Hb Hplanes. induction todo as [|todo IH];
    intros col srcptr k dest Hcol Hk Hlast Hsrc Hset; [lia|].
  cbn [plot_cols].
  destruct (Deinterleave.peek src srcptr) as [value|] eqn:Hpeek;
    [|reflexivity].
  apply peek_value in Hpeek.
  destruct (Z.eq_dec k 0) as [->|Hne].
  - rewrite Z.add_0_r in Hset. rewrite <- Hpeek in Hset.
    rewrite (plot_fails value col destptr b) by (assumption || lia).
    reflexivity.
  - destruct (plot _ _ _ _ _ _); [|reflexivity].
    apply (IH (col + 1) (srcptr + 1) (k - 1)); try lia.
    replace (srcptr + 1 + (k - 1)) with (srcptr + k) by lia. exact Hset.
Qed.

Lemma plot_cols_cursor (src : list Z) (planes destptr : Z) (todo : nat) :
  forall (col srcptr srcptr' : Z) (dest dest' : list Z),
  plot_cols todo col planes src srcptr destptr dest = Some (srcptr', dest') ->
  srcptr' = srcptr + Z.of_nat todo.
Proof.
  induction todo as [|todo IH]; intros col srcptr srcptr' dest dest' Hrun.
  - cbn [plot_cols] in Hrun. apply (inj Some) in Hrun.
    apply (f_equal fst) in Hrun. cbn [fst] in Hrun. lia.
  - cbn [plot_cols] in Hrun.
    destruct (Deinterleave.peek src srcptr); [|discriminate Hrun].
    destruct (plot _ _ _ _ _ _); [|discriminate Hrun].
    apply IH in Hrun. lia.
Qed.

Lemma plot_rows_fails (src : list Z) (planes b : Z) (todo : nat) :
  5 <= b <= 7 -> b < planes ->
  forall (row r col : Z) (dest : list Z),
  0 <= row -> row <= r < row + Z.of_nat todo -> r < 200 -> 0 <= col < 320 ->
  Z.testbit (src !!! Z.to_nat (320 * r + col)) b = true ->
  plot_rows todo planes src (320 * row) (40 * row) dest = None.
Proof.
  intros Hb Hplanes. induction todo as [|todo IH];
    intros row r col dest Hrow Hr Hlast Hcol Hset; [lia|].
  cbn [plot_rows]. destruct (Z.eq_dec r row) as [->|Hne].
  - rewrite (plot_cols_fails src planes (40 * row) b 320 ltac:(lia) Hb Hplanes
               0 (320 * row) col dest) by (assumption || lia).
    reflexivity.
  - destruct (plot_cols _ _ _ _ _ _ _) as [[srcptr' dest']|] eqn:Hcols;
      [|reflexivity].
    apply plot_cols_cursor in Hcols. subst srcptr'.
    change (Z.of_nat 320) with 320.
    replace (320 * row + 320) with (320 * (row + 1)) by lia.
    replace (40 * row + 40) with (40 * (row + 1)) by lia.
    apply (IH (row + 1) r col); try lia. exact Hset.
Qed.

(** X18: [PBM_To_Amiga] cannot fill the planes 5 to 7: when a pixel of the
    picture has one of the bits 5 to 7 set and that plane is asked for,
    the offset of the plane (40000 and more) is cast to [short] and is
    negative, and the write falls before the place [destptr] points to,
    outside the destination buffer, whatever the sizes of the buffers. *)
Theorem PBM_To_Amiga_high_plane (src dest : list Z) (planes pix b : Z) :
  0 <= pix < 64000 -> 5 <= b <= 7 -> b < planes ->
  Z.testbit (src !!! Z.to_nat pix) b = true ->
  PBM_To_Amiga src dest planes = None.
Proof.
  intros Hpix Hb Hplanes Hset. unfold PBM_To_Amiga.
  destruct (Z.of_nat (length dest) <? 64000); [reflexivity|].
  pose proof (Z.div_mod pix 320 ltac:(lia)) as Hdm.
  pose proof (Z.mod_pos_bound pix 320 ltac:(lia)) as Hm.
  assert (Hrow : 0 <= pix / 320 < 200)
    by (split; [apply Z.div_pos; lia|apply Z.div_lt_upper_bound; lia]).
  change 0 with (320 * 0) at 1. change 0 with (40 * 0) at 2.
  apply (plot_rows_fails src planes b 200 Hb Hplanes 0 (pix / 320)
           (pix mod 320)); try lia.
  rewrite <- Hdm. exact Hset.
Qed.

End PlotPicture.

Section PlotSamples.

Import CInt AmigaArt.

Lemma PBM_To_Amiga_planes_witness :
  exists dest',
    PBM_To_Amiga (replicate (Z.to_nat 64000) 5) (replicate (Z.to_nat 64001) 9) 3
    = Some dest'
    /\ Z.testbit (dest' !!! Z.to_nat 0) 7 = true
    /\ Z.testbit (dest' !!! Z.to_nat 8000) 7 = false
    /\ dest' !!! Z.to_nat 64000 = 9.
Proof.
  destruct (PBM_To_Amiga_planes (replicate (Z.to_nat 64000) 5)
              (replicate (Z.to_nat 64001) 9) 3)
    as (dest' & Hrun & _ & Hbits & Hout).
  - lia.
  - rewrite length_replicate. lia.
  - rewrite length_replicate. lia.
  - exists dest'. split; [exact Hrun|]. split; [|split].
    + change (Z.testbit (dest' !!! Z.to_nat (8000 * 0 + 40 * 0 + 0)) (7 - 0)
              = true).
      rewrite Hbits by lia.
      rewrite lookup_total_replicate_2 by lia. reflexivity.
    + change (Z.testbit (dest' !!! Z.to_nat (8000 * 1 + 40 * 0 + 0)) (7 - 0)
              = false).
      rewrite Hbits by lia.
      rewrite lookup_total_replicate_2 by lia. reflexivity.
    + rewrite (Hout 64000) by lia. apply lookup_total_replicate_2. lia.
Defined.

Lemma PBM_To_Amiga_high_plane_witness :
  PBM_To_Amiga [32] (replicate (Z.to_nat 64000) 0) 6 = None.
Proof.
  apply (PBM_To_Amiga_high_plane [32] (replicate (Z.to_nat 64000) 0) 6 0 5);
    [lia|lia|lia|reflexivity].
Defined.

End PlotSamples.

(** * The two ways from an interleaved picture to Amiga bitplanes *)

Section AmigaRoutes.

Import CInt Deinterleave AmigaArt.

Lemma length_chunky (n : nat) (buf : list Z) :
  Z.of_nat (length (chunky 320 200 n buf)) = 64000.
Proof.
  unfold chunky.
  rewrite (length_blocks (chunky_row 320 n buf) 320)
    by (intros; apply length_chunky_row).
  reflexivity.
Qed.

(** X19: the two conversions to Amiga bitplanes agree: for at most five
    planes and an interleaved source of bytes holding the 200 rows, making
    packed pixels with [ILBM_To_MCGA] and planes of them with
    [PBM_To_Amiga] gives the destination that [ILBM_To_Amiga] gives
    directly on a destination whose first 64000 bytes are clear. *)
Theorem Amiga_routes_agree (buf dest : list Z) (planes : Z) :
  0 <= planes <= 5 ->
  Forall is_byte buf ->
  8000 * planes <= Z.of_nat (length buf) ->
  64000 <= Z.of_nat (length dest) ->
  exists pixels,
    ILBM_To_MCGA buf planes = Some pixels
    /\ PBM_To_Amiga pixels dest planes
       = ILBM_To_Amiga buf
           (replicate (Z.to_nat 64000) 0 ++ drop (Z.to_nat 64000) dest)
           planes.
Proof.
  intros Hplanes Hbytes Hbuf Hdest.
  rewrite ILBM_To_MCGA_chunky by lia.
  set (n := Z.to_nat planes).
  exists (chunky 320 200 n buf). split; [reflexivity|].
  set (pixels := chunky 320 200 n buf).
  set (dest0 := replicate (Z.to_nat 64000) 0 ++ drop (Z.to_nat 64000) dest).
  assert (Hl0 : length dest0 = length dest).
  { unfold dest0. rewrite length_app, length_replicate, length_drop. lia. }
  assert (Hclear : forall i, 0 <= i < 64000 -> dest0 !!! Z.to_nat i = 0).
  { intros i Hi. unfold dest0.
    rewrite lookup_total_app_l by (rewrite length_replicate; lia).
    apply lookup_total_replicate_2. lia. }
  assert (Hkept : forall i, 64000 <= i ->
                    dest0 !!! Z.to_nat i = dest !!! Z.to_nat i).
  { intros i Hi. unfold dest0.
    rewrite lookup_total_app_r by (rewrite length_replicate; lia).
    rewrite length_replicate, lookup_total_drop. f_equal. lia. }
  destruct (PBM_To_Amiga_drawn pixels dest planes Hplanes)
    as (d1 & Hrun1 & Hl1 & Hd1 & Hout1);
    [unfold pixels; rewrite length_chunky; lia|exact Hdest|].
  unfold ILBM_To_Amiga.
  destruct (copy_rows_layout buf planes 200 ltac:(lia) 0 dest0)
    as (d2 & Hrun2 & Hl2 & Hin2 & Hout2); [lia|lia|lia|lia|].
  rewrite Z.mul_0_r in Hrun2. change (40 * 0) with 0 in Hrun2.
  rewrite Hrun1, Hrun2. f_equal.
  apply (list_eq_same_length _ _ (length dest)); [lia|lia|].
  intros i a1 a2 Hi Ha1 Ha2.
  apply list_lookup_total_correct in Ha1, Ha2. subst a1 a2.
  rewrite <- (Nat2Z.id i). set (iz := Z.of_nat i).
  assert (Hiz : 0 <= iz) by lia.
  destruct (Z.lt_ge_cases iz 64000) as [Hin|Hbehind].
  - pose proof (Z.div_mod iz 8000 ltac:(lia)) as Hdm1.
    pose proof (Z.mod_pos_bound iz 8000 ltac:(lia)) as Hm1.
    pose proof (Z.div_mod (iz mod 8000) 40 ltac:(lia)) as Hdm2.
    pose proof (Z.mod_pos_bound (iz mod 8000) 40 ltac:(lia)) as Hm2.
    assert (Hb : 0 <= iz / 8000 < 8)
      by (split; [apply Z.div_pos; lia|apply Z.div_lt_upper_bound; lia]).
    assert (Hr : 0 <= iz mod 8000 / 40 < 200)
      by (split; [apply Z.div_pos; lia|apply Z.div_lt_upper_bound; lia]).
    set (b := iz / 8000) in *. set (r := iz mod 8000 / 40) in *.
    set (c := (iz mod 8000) mod 40) in *.
    assert (Hidx : iz = 8000 * b + 40 * r + c) by lia.
    rewrite Hidx.
    assert (Hbyte1 : is_byte (d1 !!! Z.to_nat (8000 * b + 40 * r + c)))
      by (apply (Hd1 b r c 0); lia).
    destruct (Z.lt_ge_cases b planes) as [Hplane|Hnone].
    + rewrite (Hin2 r b c) by lia.
      assert (Hsrc : (Z.to_nat ((r * planes + b) * 40 + c) < length buf)%nat)
        by nia.
      apply byte_bits_eq;
        [exact Hbyte1|apply Forall_lookup_total_1; assumption|].
      intros k Hk.
      destruct (Hd1 b r c (Z.of_nat k)) as [_ Hbits]; [lia|lia|lia|lia|].
      rewrite Hbits.
      destruct (Z.ltb_spec b planes); [|lia].
      destruct (Z.ltb_spec (320 * r + 8 * c + Z.of_nat k) 64000); [|lia].
      cbn [andb orb].
      replace (Z.to_nat (320 * r + 8 * c + Z.of_nat k))
        with (Z.to_nat r * 320 + Z.to_nat c * 8 + k)%nat by lia.
      unfold pixels. rewrite chunky_lookup by lia.
      unfold chunky_pixel. change (Z.to_nat (320 / 8)) with 40%nat.
      rewrite <- (Z2Nat.id b) at 1 by lia. rewrite pixel_value_bits.
      destruct (Nat.ltb_spec (Z.to_nat b) n); [|lia]. cbn [andb].
      do 2 f_equal. unfold n. nia.
    + rewrite Hout2; [|lia|intros r' p' Hr' Hp'; lia].
      rewrite Hclear by lia.
      apply byte_bits_eq; [exact Hbyte1|unfold is_byte; lia|].
      intros k Hk.
      destruct (Hd1 b r c (Z.of_nat k)) as [_ Hbits]; [lia|lia|lia|lia|].
      rewrite Hbits. destruct (Z.ltb_spec b planes); [lia|].
      rewrite Z.bits_0. reflexivity.
  - rewrite Hout1 by lia.
    rewrite Hout2; [|lia|intros r' p' Hr' Hp'; lia].
    rewrite Hkept by lia. reflexivity.
Qed.

Lemma Amiga_routes_agree_witness :
  exists pixels,
    ILBM_To_MCGA Sample.picture 1 = Some pixels
    /\ PBM_To_Amiga pixels (replicate (Z.to_nat 64000) 9) 1
       = ILBM_To_Amiga Sample.picture
           (replicate (Z.to_nat 64000) 0
            ++ drop (Z.to_nat 64000) (replicate (Z.to_nat 64000) 9)) 1.
Proof.
  apply (Amiga_routes_agree Sample.picture (replicate (Z.to_nat 64000) 9) 1).
  - lia.
  - exact picture_bytes.
  - exact picture_length.
  - rewrite length_replicate. lia.
Defined.

End AmigaRoutes.

(** * The Amiga palette *)

Section AmigaPalette.

Import CInt AmigaArt.

(** [g & 0xf0] keeps the high nibble of a byte. *)
Lemma high_nibble (g : Z) : 0 <= g < 256 -> Z.land g 240 = 16 * (g / 16).
Proof.
  intros Hg.
  assert (Hhigh : forall j, 8 <= j -> Z.testbit g j = false).
  { intros j Hj. destruct (Z.eqb_spec g 0) as [->|Hne]; [apply Z.bits_0|].
    apply Z.bits_above_log2; [lia|].
    apply Z.lt_le_trans with 8; [|exact Hj].
    apply Z.log2_lt_pow2; lia. }
  change 240 with (Z.shiftl (Z.ones 4) 4).
  replace (16 * (g / 16)) with (Z.shiftl (Z.shiftr g 4) 4)
    by (rewrite Z.shiftl_mul_pow2, Z.shiftr_div_pow2 by lia;
        change (2 ^ 4) with 16; lia).
  apply Z.bits_inj'. intros j Hj. rewrite Z.land_spec.
  destruct (Z.lt_ge_cases j 4) as [Hlow|Hup].
  - rewrite !Z.shiftl_spec_low by lia. apply andb_false_r.
  - rewrite !Z.shiftl_spec by lia. rewrite Z.shiftr_spec by lia.
    replace (j - 4 + 4) with j by lia.
    destruct (Z.lt_ge_cases j 8) as [Hin|Hout].
    + rewrite Z.ones_spec_low by lia. apply andb_true_r.
    + rewrite Hhigh by lia. reflexivity.
Qed.

Lemma nth_byte (source : list Z) (i : nat) :
  Forall is_byte source -> 0 <= nth i source 0 < 256.
Proof.
  intros Hbytes. destruct (Nat.lt_ge_cases i (length source)) as [Hin|Hout].
  - apply Forall_nth; assumption.
  - rewrite nth_overflow by lia. lia.
Qed.

Lemma nibble_pack_entries (todo : nat) :
  forall (source : list Z) (i : nat),
  Forall is_byte source -> (i < todo)%nat ->
  nibble_pack todo source !!! (2 * i)%nat = nth (3 * i) source 0 / 16
  /\ nibble_pack todo source !!! (2 * i + 1)%nat
     = 16 * (nth (3 * i + 1) source 0 / 16) + nth (3 * i + 2) source 0 / 16.
Proof.
  induction todo as [|todo IH]; intros source i Hbytes Hi; [lia|].
  cbn [nibble_pack]. destruct i as [|i].
  - cbn [Nat.mul Nat.add]. split.
    + rewrite Z.shiftr_div_pow2 by lia. reflexivity.
    + pose proof (nth_byte source 1 Hbytes) as Hg.
      pose proof (nth_byte source 2 Hbytes) as Hb.
      rewrite high_nibble by exact Hg.
      rewrite !Z.shiftr_div_pow2 by lia. change (2 ^ 4) with 16.
      assert (Hgn : 0 <= nth 1 source 0 / 16 < 16)
        by (split; [apply Z.div_pos; lia|apply Z.div_lt_upper_bound; lia]).
      assert (Hbn : 0 <= nth 2 source 0 / 16 < 16)
        by (split; [apply Z.div_pos; lia|apply Z.div_lt_upper_bound; lia]).
      change ((?a :: ?b :: ?l) !!! 1%nat) with b.
      unfold to_uchar, wrap_unsigned. change (2 ^ 8) with 256.
      rewrite (Z.mod_small (16 * _)) by lia. apply Z.mod_small. lia.
  - replace (2 * S i)%nat with (S (S (2 * i))) by lia.
    replace (S (S (2 * i)) + 1)%nat with (S (S (2 * i + 1))) by lia.
    change ((?a :: ?b :: ?l) !!! S (S ?k)) with (l !!! k).
    destruct (IH (drop 3 source) i) as [Hfirst Hsecond];
      [apply Forall_drop; exact Hbytes|lia|].
    rewrite Hfirst, Hsecond. rewrite !nth_skipn.
    replace (3 * S i)%nat with (3 + 3 * i)%nat by lia.
    replace (3 + 3 * i + 1)%nat with (3 + (3 * i + 1))%nat by lia.
    replace (3 + 3 * i + 2)%nat with (3 + (3 * i + 2))%nat by lia.
    split; reflexivity.
Qed.

Lemma length_nibble_pack (todo : nat) :
  forall source, length (nibble_pack todo source) = (2 * todo)%nat.
Proof.
  induction todo as [|todo IH]; intros source; [reflexivity|].
  cbn [nibble_pack length]. rewrite IH. lia.
Qed.

(** X20: the Amiga palette holds twelve bits a colour: of the [pbytes]
    CMAP bytes read into the cleared buffer, every started group of three
    gives two palette bytes, the high nibble of the red byte, and the high
    nibble of the green byte above the high nibble of the blue byte; the
    sum that joins the two nibbles stays inside the byte. *)
Theorem Amiga_palette_nibbles (pbytes : nat) (source : list Z) (i : nat) :
  Forall is_byte source ->
  (3 * i < pbytes)%nat ->
  length (Convert_CMAP_Amiga pbytes source) = (2 * ((pbytes + 2) / 3))%nat
  /\ Convert_CMAP_Amiga pbytes source !!! (2 * i)%nat
     = nth (3 * i) source 0 / 16
  /\ Convert_CMAP_Amiga pbytes source !!! (2 * i + 1)%nat
     = 16 * (nth (3 * i + 1) source 0 / 16) + nth (3 * i + 2) source 0 / 16.
Proof.
  intros Hbytes Hi. unfold Convert_CMAP_Amiga.
  split; [apply length_nibble_pack|].
  apply nibble_pack_entries; [exact Hbytes|].
  pose proof (Nat.div_mod_eq (pbytes + 2) 3) as Hdm.
  pose proof (Nat.mod_upper_bound (pbytes + 2) 3 ltac:(lia)) as Hm.
  lia.
Qed.

Lemma Amiga_palette_nibbles_witness :
  length (Convert_CMAP_Amiga 4 [255; 128; 64; 16]) = (2 * ((4 + 2) / 3))%nat
  /\ Convert_CMAP_Amiga 4 [255; 128; 64; 16] !!! (2 * 1)%nat
     = nth (3 * 1) [255; 128; 64; 16] 0 / 16
  /\ Convert_CMAP_Amiga 4 [255; 128; 64; 16] !!! (2 * 1 + 1)%nat
     = 16 * (nth (3 * 1 + 1) [255; 128; 64; 16] 0 / 16)
       + nth (3 * 1 + 2) [255; 128; 64; 16] 0 / 16.
Proof.
  apply (Amiga_palette_nibbles 4 [255; 128; 64; 16] 1).
  - repeat constructor; unfold is_byte; lia.
  - lia.
Defined.

End AmigaPalette.
